(** * Statement parser and reconciliation verifier of actual-budget-client

    A shallow embedding of
      - [src/verify_pdf_extraction.py]  (verify_pdf_extraction_is_correct),
      - [src/import_detailed.py]        (parse_individual_transactions, parse_date),
      - [src/pdf_reader_ocr.py]         (extract_transactions_from_page_text,
                                         extract_all_transactions_from_pdf,
                                         process_bank_statement),
    followed by the properties of the specification that concern them.

    Conventions.
      - A Python [float] is a binary64 number: Rocq's primitive [float],
        whose operations are the IEEE 754 ones Python uses.
      - A Python [str] is a [string]; the model covers ASCII text (a
        character above 127 is neither a digit nor white space here).
      - A Python list is a [list]; [l[i]] guarded by [i < len(l)] is
        [nth_error l i].
      - [print] calls are left out: they do not change any value. *)

From Stdlib Require Import ZArith QArith List String Ascii Bool Lia PeanoNat.
From Stdlib Require Import Floats.
Import ListNotations.

Close Scope Q_scope.
Open Scope list_scope.
Open Scope string_scope.

(* ===================================================================== *)
(** ** Python built-ins on text *)
(* ===================================================================== *)

Module Py.

(** [str.isspace] on one ASCII character: TAB, LF, VT, FF, CR, the four
    separators 0x1c-0x1f and the space. *)
Definition isspace (c : ascii) : bool :=
  let n := nat_of_ascii c in
  ((9 <=? n)%nat && (n <=? 13)%nat) || ((28 <=? n)%nat && (n <=? 32)%nat).

(** The regular expression class [\d] on one ASCII character. *)
Definition isdigit (c : ascii) : bool :=
  let n := nat_of_ascii c in (48 <=? n)%nat && (n <=? 57)%nat.

(** [str.isdigit]: non-empty and made of digits. *)
Fixpoint all_digits (s : string) : bool :=
  match s with
  | EmptyString => true
  | String c s' => isdigit c && all_digits s'
  end.

Definition str_isdigit (s : string) : bool :=
  match s with
  | EmptyString => false
  | _ => all_digits s
  end.

Fixpoint lstrip (s : string) : string :=
  match s with
  | EmptyString => EmptyString
  | String c s' => if isspace c then lstrip s' else s
  end.

Fixpoint rstrip (s : string) : string :=
  match s with
  | EmptyString => EmptyString
  | String c s' =>
      match rstrip s' with
      | EmptyString => if isspace c then EmptyString else String c EmptyString
      | r => String c r
      end
  end.

(** [s.strip()] *)
Definition strip (s : string) : string := rstrip (lstrip s).

(** [s.split(sep)] for a one-character separator: never the empty list. *)
Fixpoint split (sep : ascii) (s : string) : list string :=
  match s with
  | EmptyString => [EmptyString]
  | String c s' =>
      if Ascii.eqb c sep then EmptyString :: split sep s'
      else match split sep s' with
           | h :: t => String c h :: t
           | [] => [String c EmptyString]
           end
  end.

(** [needle in hay] on strings. *)
Fixpoint contains (needle hay : string) : bool :=
  prefix needle hay
  || match hay with
     | EmptyString => false
     | String _ hay' => contains needle hay'
     end.

(** [x in l] for a list of strings. *)
Definition mem (x : string) (l : list string) : bool :=
  existsb (String.eqb x) l.

(** [s.replace(a, b)] for one-character [a]; [b] is any string. *)
Fixpoint replace (a : ascii) (b : string) (s : string) : string :=
  match s with
  | EmptyString => EmptyString
  | String c s' =>
      if Ascii.eqb c a then b ++ replace a b s' else String c (replace a b s')
  end.

(** [sep.join(l)] *)
Definition join (sep : string) (l : list string) : string :=
  String.concat sep l.

(** [s[:n]] *)
Definition take (n : nat) (s : string) : string := substring 0 n s.

(** Truth value of a string: non-empty. *)
Definition truthy (s : string) : bool :=
  match s with EmptyString => false | _ => true end.

(** [l[-1]] of a non-empty list; [d] stands for the unreachable case. *)
Definition last_of {A} (l : list A) (d : A) : A := List.last l d.

End Py.

(* ===================================================================== *)
(** ** Decimal text to binary64 *)
(* ===================================================================== *)

Module Dec.

Definition digit_value (c : ascii) : Z := (Z.of_nat (nat_of_ascii c) - 48)%Z.

(** Value of a run of digits read in base ten, most significant first. *)
Fixpoint digits_value (acc : Z) (s : string) : Z :=
  match s with
  | EmptyString => acc
  | String c s' => digits_value (10 * acc + digit_value c)%Z s'
  end.

(** The part of [s] before the first dot, and the part after it. *)
Fixpoint cut_at_dot (s : string) : string * string :=
  match s with
  | EmptyString => (EmptyString, EmptyString)
  | String c s' =>
      if Ascii.eqb c "." then (EmptyString, s')
      else let '(a, b) := cut_at_dot s' in (String c a, b)
  end.

(** The binary64 number nearest to [n / d] (ties to even), overflowing to
    infinity: the rounding [float()] applies to a decimal literal. *)
Definition nearest_float (n : Z) (d : positive) : float :=
  match n with
  | Zpos p =>
      SF2Prim (SFdiv prec emax (S754_finite false p 0) (S754_finite false d 0))
  | _ => 0%float
  end.

(** [float(s)] for a text [s] of the shape digits, dot, digits, the only
    shape the amount patterns below hand to it. *)
Definition float_of_decimal (s : string) : float :=
  let '(ip, fp) := cut_at_dot s in
  nearest_float (digits_value 0 (ip ++ fp))
                (Z.to_pos (10 ^ Z.of_nat (String.length fp))%Z).

End Dec.

(* ===================================================================== *)
(** ** The three regular expressions of the parsers *)
(* ===================================================================== *)

Module Re.

Import Py.

(** [re.compile(r'^(\d{2}-\d{2}-\d{4})').match(line)]: the ten matched
    characters (group 1), or [None]. *)
Definition date_pattern_match (line : string) : option string :=
  match line with
  | String d1 (String d2 (String h1 (String m1 (String m2 (String h2
      (String y1 (String y2 (String y3 (String y4 _))))))))) =>
      if isdigit d1 && isdigit d2 && Ascii.eqb h1 "-"
         && isdigit m1 && isdigit m2 && Ascii.eqb h2 "-"
         && isdigit y1 && isdigit y2 && isdigit y3 && isdigit y4
      then Some (take 10 line) else None
  | _ => None
  end.

Definition is_date (line : string) : bool :=
  match date_pattern_match line with Some _ => true | None => false end.

(** The class [[\d,]]. *)
Definition digit_or_comma (c : ascii) : bool := isdigit c || Ascii.eqb c ",".

(** The longest prefix of [s] in [[\d,]*], and what follows it. *)
Fixpoint span_digit_comma (s : string) : string * string :=
  match s with
  | EmptyString => (EmptyString, EmptyString)
  | String c s' =>
      if digit_or_comma c
      then let '(a, b) := span_digit_comma s' in (String c a, b)
      else (EmptyString, s)
  end.

(** [\.\d{2}] at the head of [s]: the three characters matched. *)
Definition dot_two_digits (s : string) : option string :=
  match s with
  | String p (String a (String b _)) =>
      if Ascii.eqb p "." && isdigit a && isdigit b
      then Some (String p (String a (String b EmptyString))) else None
  | _ => None
  end.

(** [([\d,]+\.\d{2})] anchored at the head of [s].  The greedy run takes
    every digit and comma; giving characters back cannot help, since the
    next character must be the dot. *)
Definition amount_at (s : string) : option string :=
  let '(run, rest) := span_digit_comma s in
  match run with
  | EmptyString => None
  | _ => match dot_two_digits rest with
         | Some tail => Some (run ++ tail)
         | None => None
         end
  end.

(** [re.findall(r'([\d,]+\.\d{2})', s)]: the matches from left to right,
    none overlapping.  [skip] counts the characters of the last match that
    are still to be stepped over. *)
Fixpoint findall_from (skip : nat) (s : string) : list string :=
  match s with
  | EmptyString => []
  | String _ s' =>
      match skip with
      | S k => findall_from k s'
      | O => match amount_at s with
             | Some m => m :: findall_from (String.length m - 1) s'
             | None => findall_from 0 s'
             end
      end
  end.

Definition findall_amounts (s : string) : list string := findall_from 0 s.

(** [(?:,\d{3})+] at the head of [s], greedy: the text matched (empty when
    there is no group) and what follows. *)
Fixpoint comma_groups (s : string) : string * string :=
  match s with
  | String c (String x (String y (String z rest))) =>
      if Ascii.eqb c "," && isdigit x && isdigit y && isdigit z
      then let '(g, r) := comma_groups rest in
           (String c (String x (String y (String z g))), r)
      else (EmptyString, s)
  | _ => (EmptyString, s)
  end.

(** The pattern after its leading [k] digits: one or more comma groups,
    then the dot and two digits. *)
Definition grouped_tail (s : string) : option string :=
  let '(g, r) := comma_groups s in
  match g with
  | EmptyString => None
  | _ => match dot_two_digits r with
         | Some tail => Some (g ++ tail)
         | None => None
         end
  end.

(** [\d{1,3}] taking exactly [k] digits at the head of [s]. *)
Fixpoint leading_digits (k : nat) (s : string) : option (string * string) :=
  match k with
  | O => Some (EmptyString, s)
  | S k' =>
      match s with
      | String c s' =>
          if isdigit c
          then match leading_digits k' s' with
               | Some (a, b) => Some (String c a, b)
               | None => None
               end
          else None
      | EmptyString => None
      end
  end.

Definition grouped_with (k : nat) (s : string) : option string :=
  match leading_digits k s with
  | Some (ds, rest) =>
      match grouped_tail rest with
      | Some t => Some (ds ++ t)
      | None => None
      end
  | None => None
  end.

(** [(\d{1,3}(?:,\d{3})+\.\d{2})] anchored at the head of [s]: three
    digits are tried first, then two, then one. *)
Definition grouped_amount_at (s : string) : option string :=
  match grouped_with 3 s with
  | Some m => Some m
  | None => match grouped_with 2 s with
            | Some m => Some m
            | None => grouped_with 1 s
            end
  end.

(** [re.search(r'(\d{1,3}(?:,\d{3})+\.\d{2})', s)]: group 1 of the
    leftmost match. *)
Fixpoint search_grouped_amount (s : string) : option string :=
  match grouped_amount_at s with
  | Some m => Some m
  | None => match s with
            | EmptyString => None
            | String _ s' => search_grouped_amount s'
            end
  end.

End Re.

(** [float(amt.replace(',', ''))] *)
Definition amount_value (amt : string) : float :=
  Dec.float_of_decimal (Py.replace "," "" amt).

(* ===================================================================== *)
(** ** Data model *)
(* ===================================================================== *)

(** One transaction dictionary.  [parse_individual_transactions] fills the
    key ['page']; the dictionaries of [extract_transactions_from_page_text]
    do not have it. *)
Record Transaction : Type := mkTransaction {
  date : string;
  description : string;
  deposit : float;
  withdrawal : float;
  balance : float;
  page : option nat
}.

(** The summary dictionary. *)
Record Summary : Type := mkSummary {
  starting_balance : float;
  total_deposits : float;
  total_withdrawals : float;
  final_balance : float
}.

(** [l[-1]['balance'] if l else otherwise] *)
Definition last_balance (l : list Transaction) (otherwise : float) : float :=
  match l with
  | [] => otherwise
  | t :: _ => balance (List.last l t)
  end.

(** [sum(xs)]: the accumulator starts at 0 and the items are added from
    left to right. *)
Definition py_sum (xs : list float) : float :=
  fold_left PrimFloat.add xs 0%float.

(* ===================================================================== *)
(** ** verify_pdf_extraction.py *)
(* ===================================================================== *)

Module Verify.

(** The dictionary [verification_results]. *)
Record VerificationResult : Type := mkResult {
  balance_diff : float;
  deposit_diff : float;
  withdrawal_diff : float;
  calc_deposits : float;
  calc_withdrawals : float;
  calc_final : float;
  passed : bool
}.

(** [PDFExtractionVerificationError]: the numbers its message is built
    from, in the order of the three message lines (expected figure,
    calculated figure, difference).  The decimal formatting of the message
    is not modelled. *)
Record PDFExtractionVerificationError : Type := mkError {
  expected_final : float;
  calculated_final : float;
  err_balance_diff : float;
  expected_deposits : float;
  calculated_deposits : float;
  err_deposit_diff : float;
  expected_withdrawals : float;
  calculated_withdrawals : float;
  err_withdrawal_diff : float
}.

(** [verify_pdf_extraction_is_correct(summary, transactions, tolerance)]:
    [inl] is the returned dictionary, [inr] the exception raised. *)
Definition verify_pdf_extraction_is_correct
    (summary : Summary) (transactions : list Transaction) (tolerance : float)
  : VerificationResult + PDFExtractionVerificationError :=
  let calc_deposits := py_sum (map deposit transactions) in
  let calc_withdrawals := py_sum (map withdrawal transactions) in
  let calc_final :=
    (starting_balance summary + calc_deposits - calc_withdrawals)%float in
  let balance_diff := abs (calc_final - final_balance summary)%float in
  let deposit_diff := abs (calc_deposits - total_deposits summary)%float in
  let withdrawal_diff :=
    abs (calc_withdrawals - total_withdrawals summary)%float in
  let verification_results :=
    {| balance_diff := balance_diff;
       deposit_diff := deposit_diff;
       withdrawal_diff := withdrawal_diff;
       calc_deposits := calc_deposits;
       calc_withdrawals := calc_withdrawals;
       calc_final := calc_final;
       passed := (balance_diff <=? tolerance)%float
                 && (deposit_diff <=? tolerance)%float
                 && (withdrawal_diff <=? tolerance)%float |} in
  if negb (passed verification_results)
  then inr {| expected_final := final_balance summary;
              calculated_final := calc_final;
              err_balance_diff := balance_diff;
              expected_deposits := total_deposits summary;
              calculated_deposits := calc_deposits;
              err_deposit_diff := deposit_diff;
              expected_withdrawals := total_withdrawals summary;
              calculated_withdrawals := calc_withdrawals;
              err_withdrawal_diff := withdrawal_diff |}
  else inl verification_results.

End Verify.

(* ===================================================================== *)
(** ** import_detailed.py: parse_individual_transactions *)
(* ===================================================================== *)

Module ImportDetailed.

Import Py Re.

(** The local variables the outer [while] loop changes. *)
Record State : Type := mkState {
  i : nat;
  current_balance : float;
  all_transactions : list Transaction
}.

(** The inner loop [while j < len(lines) and j < i + 10], entered with
    [j = i + 1].  [room] is [i + 10 - j], so [j < i + 10] reads
    [room <> 0]; it starts at 9.  The result is the state of [j],
    [amounts] and [description_parts] when the loop is left. *)
Fixpoint look_ahead (lines : list string) (room : nat) (j : nat)
    (amounts : list float) (description_parts : list string)
  : nat * list float * list string :=
  match room with
  | O => (j, amounts, description_parts)
  | S room' =>
      match nth_error lines j with
      | None => (j, amounts, description_parts)
      | Some raw =>
          let check_line := strip raw in
          if is_date check_line || mem check_line ["Total:"; "B/F"; "C/F"]
          then (j, amounts, description_parts)
          else
            match findall_amounts check_line with
            | [] =>
                let description_parts' :=
                  if truthy check_line && negb (mem check_line ["/"; ""])
                  then (description_parts ++ [check_line])%list
                  else description_parts in
                look_ahead lines room' (S j) amounts description_parts'
            | found_amounts =>
                let amounts' :=
                  (amounts ++ map amount_value found_amounts)%list in
                if (2 <=? List.length amounts')%nat
                then (j, amounts', description_parts)
                else look_ahead lines room' (S j) amounts' description_parts
            end
      end
  end.

(** Lines 79-102: what is done with a window once the look-ahead is over. *)
Definition record_window (page_num : nat) (date_str : string)
    (amounts : list float) (description_parts : list string)
    (current_balance : float) (all_transactions : list Transaction)
  : float * list Transaction :=
  if (2 <=? List.length amounts)%nat then
    let new_balance := last_of amounts 0%float in
    let balance_change := (new_balance - current_balance)%float in
    let '(deposit, withdrawal) :=
      if (0 <? balance_change)%float
      then (balance_change, 0%float)
      else (0%float, abs balance_change) in
    let description :=
      take 100 (replace "/" " " (join " " (firstn 3 description_parts))) in
    (new_balance,
     (all_transactions ++
        [ {| date := date_str;
             description := if truthy description then description
                            else "Transaction";
             deposit := deposit;
             withdrawal := withdrawal;
             balance := new_balance;
             page := Some page_num |} ])%list)
  else (current_balance, all_transactions).

(** The marker test of lines 49-51 on the line after a date line. *)
Definition is_marker (next_line : string) : bool :=
  mem next_line ["B/F"; "C/F"] || contains "Total:" next_line.

(** One turn of the outer loop, on [lines[i]]. *)
Definition loop_body (page_num : nat) (lines : list string)
    (raw : string) (st : State) : State :=
  let line := strip raw in
  match date_pattern_match line with
  | Some date_str =>
      let skip :=
        match nth_error lines (i st + 1) with
        | Some next_raw => is_marker (strip next_raw)
        | None => false
        end in
      if skip
      then {| i := i st + 2;
              current_balance := current_balance st;
              all_transactions := all_transactions st |}
      else
        let '(j, amounts, description_parts) :=
          look_ahead lines 9 (i st + 1) [] [] in
        let '(bal, txns) :=
          record_window page_num date_str amounts description_parts
                        (current_balance st) (all_transactions st) in
        {| i := j; current_balance := bal; all_transactions := txns |}
  | None =>
      {| i := i st + 1;
         current_balance := current_balance st;
         all_transactions := all_transactions st |}
  end.

(** The outer loop [while i < len(lines)].  [None]: [fuel] turns were not
    enough to leave the loop. *)
Fixpoint scan_lines (fuel : nat) (page_num : nat) (lines : list string)
    (st : State) : option State :=
  match nth_error lines (i st) with
  | None => Some st
  | Some raw =>
      match fuel with
      | O => None
      | S fuel' => scan_lines fuel' page_num lines (loop_body page_num lines raw st)
      end
  end.

(** One turn of [for page_num, page_text in enumerate(pages_text, 1)]. *)
Definition scan_page (page_num : nat) (page_text : string)
    (current_balance : float) (all_transactions : list Transaction)
  : option (float * list Transaction) :=
  let lines := split "010" page_text in
  match scan_lines (List.length lines) page_num lines
          {| i := 0; current_balance := current_balance;
             all_transactions := all_transactions |} with
  | Some st => Some (ImportDetailed.current_balance st,
                     ImportDetailed.all_transactions st)
  | None => None
  end.

Fixpoint scan_pages (page_num : nat) (pages_text : list string)
    (current_balance : float) (all_transactions : list Transaction)
  : option (float * list Transaction) :=
  match pages_text with
  | [] => Some (current_balance, all_transactions)
  | page_text :: rest =>
      match scan_page page_num page_text current_balance all_transactions with
      | Some (bal, txns) => scan_pages (S page_num) rest bal txns
      | None => None
      end
  end.

(** [parse_individual_transactions(pages_text, starting_balance)] *)
Definition parse_individual_transactions (pages_text : list string)
    (starting_balance : float) : option (list Transaction) :=
  option_map snd (scan_pages 1 pages_text starting_balance []).

(** *** parse_date *)

(** A [datetime.date]. *)
Record Date : Type := mkDate { year : Z; month : Z; day : Z }.

Definition is_leap (y : Z) : bool :=
  ((y mod 4 =? 0) && (negb (y mod 100 =? 0) || (y mod 400 =? 0)))%Z.

Definition days_in_month (y m : Z) : Z :=
  (if m =? 2 then (if is_leap y then 29 else 28)
   else if (m =? 4) || (m =? 6) || (m =? 9) || (m =? 11) then 30
   else 31)%Z.

(** [datetime.date(year, month, day)]: [None] is the [ValueError] of a
    date out of range. *)
Definition make_date (y m d : Z) : option Date :=
  if ((1 <=? y) && (y <=? 9999) && (1 <=? m) && (m <=? 12)
      && (1 <=? d) && (d <=? days_in_month y m))%Z
  then Some {| year := y; month := m; day := d |}
  else None.

(** The digits of an integer literal: one digit at least, and single
    underscores between digits.  The result is the value and the number of
    digits. *)
Fixpoint literal_digits (after_digit : bool) (acc : Z) (n : nat)
    (s : string) : option (Z * nat) :=
  match s with
  | EmptyString => if after_digit then Some (acc, n) else None
  | String c s' =>
      if isdigit c
      then literal_digits true (10 * acc + Dec.digit_value c)%Z (S n) s'
      else if Ascii.eqb c "_" && after_digit
      then literal_digits false acc n s'
      else None
  end.

(** The white space [int] skips around a literal, the [isspace] of C: TAB,
    LF, VT, FF, CR and the space.  ([str.strip] removes the separators
    0x1c-0x1f as well; [int] does not.) *)
Definition int_isspace (c : ascii) : bool :=
  let n := nat_of_ascii c in
  ((9 <=? n)%nat && (n <=? 13)%nat) || (n =? 32)%nat.

(** The text after its leading white space. *)
Fixpoint skip_space (s : string) : string :=
  match s with
  | EmptyString => EmptyString
  | String c s' => if int_isspace c then skip_space s' else s
  end.

(** The text before its trailing white space. *)
Fixpoint drop_trailing_space (s : string) : string :=
  match s with
  | EmptyString => EmptyString
  | String c s' =>
      match drop_trailing_space s' with
      | EmptyString =>
          if int_isspace c then EmptyString else String c EmptyString
      | r => String c r
      end
  end.

(** The optional sign: whether it is a minus, and the text after it. *)
Definition split_sign (t : string) : bool * string :=
  match t with
  | String "+" r => (false, r)
  | String "-" r => (true, r)
  | _ => (false, t)
  end.

(** [int(s)] in base ten: white space, an optional sign, the digits,
    white space.  [None] is [ValueError]; [max_str_digits] is the
    interpreter's limit on the number of digits (0: no limit; 4300 unless
    changed, and never between 1 and 639). *)
Definition py_int (max_str_digits : nat) (s : string) : option Z :=
  let '(negative, rest) := split_sign (skip_space s) in
  match literal_digits false 0 0 (drop_trailing_space rest) with
  | Some (v, n) =>
      if (0 <? max_str_digits)%nat && (max_str_digits <? n)%nat then None
      else Some (if negative then (- v)%Z else v)
  | None => None
  end.

(** The body of the [try]: [None] when any exception is raised. *)
Definition parse_date_try (max_str_digits : nat) (date_str : string)
  : option Date :=
  match split "-" date_str with
  | [day; month; year] =>
      match py_int max_str_digits year with
      | Some y =>
          match py_int max_str_digits month with
          | Some m =>
              match py_int max_str_digits day with
              | Some d => make_date y m d
              | None => None
              end
          | None => None
          end
      | None => None
      end
  | _ => None
  end.

(** [parse_date(date_str)]; [today] is what [datetime.date.today()]
    answers. *)
Definition parse_date (max_str_digits : nat) (today : Date)
    (date_str : string) : Date :=
  match parse_date_try max_str_digits date_str with
  | Some d => d
  | None => today
  end.

End ImportDetailed.

(* ===================================================================== *)
(** ** pdf_reader_ocr.py *)
(* ===================================================================== *)

Module OcrReader.

Import Py Re.

(** *** extract_transactions_from_page_text *)

Record State : Type := mkState {
  i : nat;
  transactions : list Transaction
}.

(** The inner loop [while j < len(lines) and j < i + 10] of lines 144-169,
    with [room = i + 10 - j] as in [ImportDetailed.look_ahead]. *)
Fixpoint look_ahead (lines : list string) (room : nat) (j : nat)
    (amounts_found : list float) (description_parts : list string)
  : nat * list float * list string :=
  match room with
  | O => (j, amounts_found, description_parts)
  | S room' =>
      match nth_error lines j with
      | None => (j, amounts_found, description_parts)
      | Some raw =>
          let next_line := strip raw in
          if is_date next_line then (j, amounts_found, description_parts)
          else if mem next_line ["Total:"; "B/F"; "C/F"; ""]
                  || contains "Total:" next_line
          then (j, amounts_found, description_parts)
          else
            match findall_amounts next_line with
            | [] =>
                let description_parts' :=
                  if truthy next_line && negb (str_isdigit next_line)
                     && negb (mem next_line ["/"])
                  then (description_parts ++ [next_line])%list
                  else description_parts in
                look_ahead lines room' (S j) amounts_found description_parts'
            | amount_matches =>
                let amounts_found' :=
                  (amounts_found ++ map amount_value amount_matches)%list in
                if (2 <=? List.length amounts_found')%nat
                then (j, amounts_found', description_parts)
                else look_ahead lines room' (S j) amounts_found'
                                description_parts
            end
      end
  end.

(** [for m in range(k, min(k+5, len(lines)))] of lines 192-196: [ms] is
    what is left of the range. *)
Fixpoint balance_near (lines : list string) (ms : list nat)
    (prev_balance : float) : float :=
  match ms with
  | [] => prev_balance
  | m :: ms' =>
      match nth_error lines m with
      | Some l =>
          match findall_amounts l with
          | [] => balance_near lines ms' prev_balance
          | bf_amounts => amount_value (last_of bf_amounts "")
          end
      | None => balance_near lines ms' prev_balance
      end
  end.

(** [for k in range(max(0, i-10), i)] of lines 189-197: [ks] is what is
    left of the range. *)
Fixpoint brought_forward_before (lines : list string) (ks : list nat)
    (prev_balance : float) : float :=
  match ks with
  | [] => prev_balance
  | k :: ks' =>
      match nth_error lines k with
      | Some l =>
          if contains "B/F" l
          then balance_near lines
                 (seq k (Nat.min (k + 5) (List.length lines) - k)) prev_balance
          else brought_forward_before lines ks' prev_balance
      | None => brought_forward_before lines ks' prev_balance
      end
  end.

(** Lines 177-214: the three amounts of the record. *)
Definition classify (page_num : nat) (lines : list string) (i : nat)
    (transactions : list Transaction) (amounts_found : list float)
  : float * float * float :=
  if (2 <=? List.length amounts_found)%nat then
    let balance := last_of amounts_found 0%float in
    let prev_balance := last_balance transactions 0%float in
    let prev_balance :=
      if (page_num =? 1)%nat
         && match transactions with [] => true | _ => false end
      then brought_forward_before lines (seq (i - 10) (i - (i - 10)))
                                  prev_balance
      else prev_balance in
    let transaction_amount := hd 0%float amounts_found in
    if (0 <? prev_balance)%float then
      if (prev_balance <? balance)%float
      then (transaction_amount, 0%float, balance)
      else (0%float, transaction_amount, balance)
    else
      if (List.length amounts_found =? 2)%nat
      then (transaction_amount, 0%float, balance)
      else (0%float, 0%float, balance)
  else (0%float, 0%float, 0%float).

(** One turn of the outer loop, on [lines[i]]. *)
Definition loop_body (page_num : nat) (lines : list string)
    (raw : string) (st : State) : State :=
  let line := strip raw in
  match date_pattern_match line with
  | Some date_str =>
      let skip :=
        match nth_error lines (i st + 1) with
        | Some next_raw =>
            let next_line := strip next_raw in
            mem next_line ["B/F"; "Total:"; ""] || contains "Total:" next_line
        | None => false
        end in
      if skip
      then {| i := i st + 1; transactions := transactions st |}
      else
        let '(j, amounts_found, description_parts) :=
          look_ahead lines 9 (i st + 1) [] [] in
        let '(deposit, withdrawal, balance) :=
          classify page_num lines (i st) (transactions st) amounts_found in
        let description :=
          replace "/" " " (join " " (firstn 4 description_parts)) in
        let transactions' :=
          match amounts_found with
          | [] => transactions st
          | _ =>
              (transactions st ++
                 [ {| date := date_str;
                      description := if truthy description
                                     then take 100 description
                                     else "Transaction";
                      deposit := deposit;
                      withdrawal := withdrawal;
                      balance := balance;
                      page := None |} ])%list
          end in
        {| i := j; transactions := transactions' |}
  | None => {| i := i st + 1; transactions := transactions st |}
  end.

Fixpoint scan_lines (fuel : nat) (page_num : nat) (lines : list string)
    (st : State) : option State :=
  match nth_error lines (i st) with
  | None => Some st
  | Some raw =>
      match fuel with
      | O => None
      | S fuel' =>
          scan_lines fuel' page_num lines (loop_body page_num lines raw st)
      end
  end.

(** [extract_transactions_from_page_text(page_text, page_num)] *)
Definition extract_transactions_from_page_text (page_text : string)
    (page_num : nat) : option (list Transaction) :=
  let lines := split "010" page_text in
  option_map transactions
    (scan_lines (List.length lines) page_num lines
                {| i := 0; transactions := [] |}).

(** *** Opening balance discovery (lines 253-268 and 346-364) *)

(** [for j in range(1, 5)]: [js] is what is left of the range; the result
    is [starting_balance] when the loop is left.  [floor] is the constant
    the candidate must exceed. *)
Fixpoint probe_after (floor : float) (lines : list string) (idx : nat)
    (js : list nat) (starting_balance : float) : float :=
  match js with
  | [] => starting_balance
  | j :: js' =>
      match nth_error lines (idx + j) with
      | Some l =>
          match search_grouped_amount l with
          | Some m =>
              let potential_balance := amount_value m in
              if (floor <? potential_balance)%float
              then potential_balance
              else probe_after floor lines idx js' starting_balance
          | None => probe_after floor lines idx js' starting_balance
          end
      | None => probe_after floor lines idx js' starting_balance
      end
  end.

(** [for idx, line in enumerate(lines)]: [todo] is what is left of
    [lines], starting at index [idx]. *)
Fixpoint find_brought_forward (floor : float) (lines : list string)
    (idx : nat) (todo : list string) (starting_balance : float) : float :=
  match todo with
  | [] => starting_balance
  | line :: todo' =>
      if String.eqb (strip line) "B/F" && (idx + 1 <? List.length lines)%nat
      then
        let starting_balance' :=
          probe_after floor lines idx [1; 2; 3; 4] starting_balance in
        if (0 <? starting_balance')%float
        then starting_balance'
        else find_brought_forward floor lines (S idx) todo' starting_balance'
      else find_brought_forward floor lines (S idx) todo' starting_balance
  end.

Definition opening_balance (floor : float) (page_text : string) : float :=
  let lines := split "010" page_text in
  find_brought_forward floor lines 0 lines 0%float.

(** *** extract_all_transactions_from_pdf *)

(** The dictionary returned by [extract_all_transactions_from_pdf]. *)
Record Extraction : Type := mkExtraction {
  ex_transactions : list Transaction;
  ex_starting_balance : float;
  ex_total_deposits : float;
  ex_total_withdrawals : float;
  ex_final_balance : float
}.

(** Lines 277-293: the deposit and withdrawal of [txn] recomputed from the
    balance before it. *)
Definition rebalance (prev_balance : float) (txn : Transaction)
  : Transaction :=
  if (0 <? prev_balance)%float && (0 <? balance txn)%float then
    let balance_change := (balance txn - prev_balance)%float in
    if (0 <? balance_change)%float
    then {| date := date txn; description := description txn;
            deposit := balance_change; withdrawal := 0%float;
            balance := balance txn; page := page txn |}
    else {| date := date txn; description := description txn;
            deposit := 0%float; withdrawal := abs balance_change;
            balance := balance txn; page := page txn |}
  else txn.

Definition append_rebalanced (starting_balance : float)
    (all_transactions : list Transaction) (txn : Transaction)
  : list Transaction :=
  let prev_balance := last_balance all_transactions starting_balance in
  (all_transactions ++ [rebalance prev_balance txn])%list.

Fixpoint collect_pages (starting_balance : float) (i : nat)
    (pages_text : list string) (all_transactions : list Transaction)
  : option (list Transaction) :=
  match pages_text with
  | [] => Some all_transactions
  | page_text :: rest =>
      match extract_transactions_from_page_text page_text i with
      | Some transactions =>
          collect_pages starting_balance (S i) rest
            (fold_left (append_rebalanced starting_balance) transactions
                       all_transactions)
      | None => None
      end
  end.

(** What a call leaves: a value, an exception, or a loop out of fuel. *)
Inductive Outcome (A : Type) : Type :=
| Returns (a : A)
| RaisesIndexError
| OutOfFuel.
Arguments Returns {A} a.
Arguments RaisesIndexError {A}.
Arguments OutOfFuel {A}.

(** [extract_all_transactions_from_pdf], from the page texts on (the text
    source and the unused per-page totals request are left out).
    [pages_text[0]] raises [IndexError] on a document without pages. *)
Definition extract_all_transactions_from_pdf (pages_text : list string)
  : Outcome Extraction :=
  match pages_text with
  | [] => RaisesIndexError
  | first_page :: _ =>
      let starting_balance := opening_balance 10000 first_page in
      match collect_pages starting_balance 1 pages_text [] with
      | Some all_transactions =>
          Returns
            {| ex_transactions := all_transactions;
               ex_starting_balance := starting_balance;
               ex_total_deposits := py_sum (map deposit all_transactions);
               ex_total_withdrawals :=
                 py_sum (map withdrawal all_transactions);
               ex_final_balance := last_balance all_transactions 0%float |}
      | None => OutOfFuel
      end
  end.

(** *** process_bank_statement *)

(** The dictionary [extract_transactions_with_llm] returns on every path. *)
Record PageTotals : Type := mkPageTotals {
  deposits : float;
  withdrawals : float;
  pt_balance : float
}.

Section WithSummarizer.

(** The external summarizer: what [extract_transactions_with_llm] answered
    for a page text and a page number. *)
Variable extract_transactions_with_llm : string -> nat -> PageTotals.

(** The four accumulators of [process_bank_statement]. *)
Record Totals : Type := mkTotals {
  t_total_deposits : float;
  t_total_withdrawals : float;
  t_final_balance : float;
  t_starting_balance : float
}.

(** One turn of [for i, page_text in enumerate(pages_text, 1)]. *)
Definition page_step (i : nat) (page_text : string) (acc : Totals) : Totals :=
  let result := extract_transactions_with_llm page_text i in
  let total_deposits := (t_total_deposits acc + deposits result)%float in
  let total_withdrawals :=
    (t_total_withdrawals acc + withdrawals result)%float in
  let final_balance :=
    if (0 <? pt_balance result)%float then pt_balance result
    else t_final_balance acc in
  let starting_balance :=
    if (i =? 1)%nat && (t_starting_balance acc =? 0)%float
    then
      let lines := split "010" page_text in
      find_brought_forward 100000 lines 0 lines (t_starting_balance acc)
    else t_starting_balance acc in
  {| t_total_deposits := total_deposits;
     t_total_withdrawals := total_withdrawals;
     t_final_balance := final_balance;
     t_starting_balance := starting_balance |}.

Fixpoint page_loop (i : nat) (pages_text : list string) (acc : Totals)
  : Totals :=
  match pages_text with
  | [] => acc
  | page_text :: rest => page_loop (S i) rest (page_step i page_text acc)
  end.

(** [process_bank_statement], from the page texts on. *)
Definition process_bank_statement (pages_text : list string) : Summary :=
  let acc := page_loop 1 pages_text (mkTotals 0 0 0 0) in
  let starting_balance :=
    if (t_starting_balance acc =? 0)%float
       && (0 <? t_final_balance acc)%float
    then (t_final_balance acc - t_total_deposits acc
          + t_total_withdrawals acc)%float
    else t_starting_balance acc in
  {| starting_balance := starting_balance;
     total_deposits := t_total_deposits acc;
     total_withdrawals := t_total_withdrawals acc;
     final_balance := t_final_balance acc |}.

End WithSummarizer.

End OcrReader.

(* ===================================================================== *)
(** ** Vocabulary of the properties *)
(* ===================================================================== *)

Module Props.

(** At most one of the two amounts is not zero. *)
Definition one_sided (t : Transaction) : Prop :=
  deposit t = 0%float \/ withdrawal t = 0%float.

(** The amounts of [t] are the two sides of the change of balance from
    [prev], as binary64 computes it. *)
Definition splits_delta (prev : float) (t : Transaction) : Prop :=
  let delta := (balance t - prev)%float in
  if (0 <? delta)%float
  then deposit t = delta /\ withdrawal t = 0%float
  else deposit t = 0%float /\ withdrawal t = abs delta.

(** [splits_delta] along a list, each balance being the next [prev]. *)
Fixpoint delta_chain (prev : float) (txns : list Transaction) : Prop :=
  match txns with
  | [] => True
  | t :: rest => splits_delta prev t /\ delta_chain (balance t) rest
  end.

(** What the loops keep true of the running balance and of the list. *)
Definition chained (starting_balance bal : float)
    (txns : list Transaction) : Prop :=
  bal = last_balance txns starting_balance
  /\ delta_chain starting_balance txns
  /\ Forall one_sided txns.

(** The rational number a finite binary64 number stands for. *)
Definition exact_value (x : float) : option Q :=
  match Prim2SF x with
  | S754_zero _ => Some 0%Q
  | S754_finite s m e =>
      Some ((if s then - inject_Z (Zpos m) else inject_Z (Zpos m)) * 2 ^ e)%Q
  | _ => None
  end.

(** [a - b] is computed without rounding: the three numbers are finite
    and the result stands for the difference of the operands. *)
Definition unrounded_difference (a b : float) : Prop :=
  match exact_value a, exact_value b, exact_value (a - b)%float with
  | Some qa, Some qb, Some qd => (qd == qa - qb)%Q
  | _, _, _ => False
  end.

(** [balance[i] = balance[i-1] + deposit[i] - withdrawal[i]] between the
    numbers the four floats stand for. *)
Definition exact_recurrence (prev : float) (t : Transaction) : Prop :=
  match exact_value prev, exact_value (deposit t),
        exact_value (withdrawal t), exact_value (balance t) with
  | Some p, Some d, Some w, Some b => (p + d - w == b)%Q
  | _, _, _, _ => False
  end.

(** The recurrence holds at each transaction whose change of balance is
    computed without rounding. *)
Fixpoint recurrence_where_unrounded (prev : float)
    (txns : list Transaction) : Prop :=
  match txns with
  | [] => True
  | t :: rest =>
      (unrounded_difference (balance t) prev -> exact_recurrence prev t)
      /\ recurrence_where_unrounded (balance t) rest
  end.

(** [balance[i-1] + deposit[i] - withdrawal[i]] is within [tolerance] of
    [balance[i]], computed as the verifier computes [calc_final] and its
    difference. *)
Definition within_tolerance (tolerance prev : float) (t : Transaction)
  : bool :=
  (abs (prev + deposit t - withdrawal t - balance t) <=? tolerance)%float.

Fixpoint recurrence_within (tolerance prev : float)
    (txns : list Transaction) : bool :=
  match txns with
  | [] => true
  | t :: rest =>
      within_tolerance tolerance prev t
      && recurrence_within tolerance (balance t) rest
  end.

(** The names import_detailed.py assigns at module level (lines 20-24):
    with the objects of the heap, the state that outlives a call. *)
Record ModuleGlobals : Type := mkGlobals {
  ACTUAL_SERVER_URL : string;
  ACTUAL_PASSWORD : string;
  ACTUAL_FILE : string;
  ACTUAL_ACCOUNT_NAME : string;
  PDF_PASSWORD : string
}.

(** Line [idx] is a brought-forward marker. *)
Definition marker_at (lines : list string) (idx : nat) : Prop :=
  exists l, nth_error lines idx = Some l /\ Py.strip l = "B/F".

(** One of the four lines after line [idx] holds a thousands-separated
    amount above [floor]. *)
Definition plausible_amount_after (floor : float) (lines : list string)
    (idx : nat) : Prop :=
  exists j l m,
    1 <= j <= 4
    /\ nth_error lines (idx + j) = Some l
    /\ Re.search_grouped_amount l = Some m
    /\ (floor <? amount_value m)%float = true.

(** A brought-forward marker with a plausible amount after it. *)
Definition opening_balance_located (floor : float) (lines : list string)
  : Prop :=
  exists idx, marker_at lines idx /\ plausible_amount_after floor lines idx.

(** A line that offers no acceptable amount to the opening balance probe. *)
Definition implausible (floor : float) (l : string) : Prop :=
  match Re.search_grouped_amount l with
  | Some m => (floor <? amount_value m)%float = false
  | None => True
  end.

(** [s] is DD-MM-YYYY to the letter: two digits, a hyphen, two digits, a
    hyphen, four digits, and nothing else.  The result is day, month and
    year. *)
Definition strict_date_fields (s : string) : option (Z * Z * Z) :=
  match s with
  | String d1 (String d2 (String h1 (String m1 (String m2 (String h2
      (String y1 (String y2 (String y3 (String y4 EmptyString))))))))) =>
      if Py.isdigit d1 && Py.isdigit d2 && Ascii.eqb h1 "-"
         && Py.isdigit m1 && Py.isdigit m2 && Ascii.eqb h2 "-"
         && Py.isdigit y1 && Py.isdigit y2 && Py.isdigit y3 && Py.isdigit y4
      then Some
             (Dec.digits_value 0 (String d1 (String d2 EmptyString)),
              Dec.digits_value 0 (String m1 (String m2 EmptyString)),
              Dec.digits_value 0
                (String y1 (String y2 (String y3 (String y4 EmptyString)))))
      else None
  | _ => None
  end.








(** A text [float] accepts without fail: digits (none allowed), a dot and
    two digits. *)
Definition float_literal (s : string) : Prop :=
  exists ip d1 d2,
    s = ip ++ String "." (String d1 (String d2 EmptyString))
    /\ Py.all_digits ip = true
    /\ Py.isdigit d1 = true
    /\ Py.isdigit d2 = true.

(** The line feed, and the page texts of the scenarios. *)
Definition NL : string := String "010" EmptyString.

Definition lunch_page : string :=
  "01-08-2025" ++ NL ++ "UPI/John/abc/lunch/BANK" ++ NL ++ "450.00" ++ NL
  ++ "50000.00".

(** A balance beyond 2^55, where neighbouring binary64 numbers are 8
    apart. *)
Definition huge_balance_page : string :=
  "01-08-2025" ++ NL ++ "X" ++ NL ++ "4.00" ++ NL ++ "36028797018963976.00".

(** A date line followed at once by another date line. *)
Definition two_dates_page : string := "01-08-2025" ++ NL ++ "02-08-2025".


(** A date line followed by a line that holds "Total:" and itself starts
    with a date. *)
Definition dated_total_page : string :=
  "01-08-2025" ++ NL ++ "02-08-2025 Total:" ++ NL ++ "450.00" ++ NL
  ++ "50000.00".

(** A first page without a brought-forward marker, and a summarizer that
    answers the totals of scenario C for every page. *)
Definition unmarked_page : string := "Statement of account".

Definition scenario_totals (page_text : string) (page_num : nat)
  : OcrReader.PageTotals :=
  OcrReader.mkPageTotals 5000 3000 102000.

(** A marker followed by an amount. *)
Definition marked_page (amount : string) : string := "B/F" ++ NL ++ amount.

End Props.

(* ===================================================================== *)
(** ** parse_individual_transactions on the interpreter's store *)
(* ===================================================================== *)

(** The function once more, statement by statement, on the state a call
    can reach: the names of the module and the objects of the heap.  The
    numbers ([i], [j], the balances), the strings and the two lists of a
    window ([amounts], [description_parts], made and dropped within one
    turn) are values; [pages_text] and [all_transactions] are references
    to list objects, which a callee can change under its caller. *)
Module ParserStore.

Import Py Re.

(** A list object: the page texts of an argument, or transactions. *)
Inductive Object : Type :=
| PageTexts (pages : list string)
| Transactions (txns : list Transaction).

Record Store : Type := mkStore {
  module_names : Props.ModuleGlobals;
  objects : list Object
}.

(** The object at index [n] replaced. *)
Fixpoint put {A : Type} (n : nat) (a : A) (l : list A) : list A :=
  match l, n with
  | [], _ => []
  | _ :: l', O => a :: l'
  | x :: l', S n' => x :: put n' a l'
  end.

(** [[]]: a new list object; its reference is the next free index. *)
Definition new_list (s : Store) : nat * Store :=
  (List.length (objects s),
   {| module_names := module_names s;
      objects := (objects s ++ [Transactions []])%list |}).

(** [ref.append(t)] *)
Definition append (ref : nat) (t : Transaction) (s : Store) : Store :=
  match nth_error (objects s) ref with
  | Some (Transactions txns) =>
      {| module_names := module_names s;
         objects := put ref (Transactions (txns ++ [t])%list) (objects s) |}
  | _ => s
  end.

(** The local names the outer [while] loop changes, and the store. *)
Record Frame : Type := mkFrame {
  i : nat;
  current_balance : float;
  store : Store
}.

(** Lines 79-102, [all_transactions] being a reference. *)
Definition record_window (page_num : nat) (date_str : string)
    (amounts : list float) (description_parts : list string)
    (current_balance : float) (all_transactions : nat) (s : Store)
  : float * Store :=
  if (2 <=? List.length amounts)%nat then
    let new_balance := last_of amounts 0%float in
    let balance_change := (new_balance - current_balance)%float in
    let '(deposit, withdrawal) :=
      if (0 <? balance_change)%float
      then (balance_change, 0%float)
      else (0%float, abs balance_change) in
    let description :=
      take 100 (replace "/" " " (join " " (firstn 3 description_parts))) in
    (new_balance,
     append all_transactions
       {| date := date_str;
          description := if truthy description then description
                         else "Transaction";
          deposit := deposit;
          withdrawal := withdrawal;
          balance := new_balance;
          page := Some page_num |} s)
  else (current_balance, s).

(** One turn of the outer loop, on [lines[i]]. *)
Definition loop_body (page_num : nat) (lines : list string)
    (raw : string) (all_transactions : nat) (fr : Frame) : Frame :=
  let line := strip raw in
  match date_pattern_match line with
  | Some date_str =>
      let skip :=
        match nth_error lines (i fr + 1) with
        | Some next_raw => ImportDetailed.is_marker (strip next_raw)
        | None => false
        end in
      if skip
      then {| i := i fr + 2;
              current_balance := current_balance fr;
              store := store fr |}
      else
        let '(j, amounts, description_parts) :=
          ImportDetailed.look_ahead lines 9 (i fr + 1) [] [] in
        let '(bal, s) :=
          record_window page_num date_str amounts description_parts
                        (current_balance fr) all_transactions (store fr) in
        {| i := j; current_balance := bal; store := s |}
  | None =>
      {| i := i fr + 1;
         current_balance := current_balance fr;
         store := store fr |}
  end.

(** The outer loop [while i < len(lines)]. *)
Fixpoint scan_lines (fuel : nat) (page_num : nat) (lines : list string)
    (all_transactions : nat) (fr : Frame) : option Frame :=
  match nth_error lines (i fr) with
  | None => Some fr
  | Some raw =>
      match fuel with
      | O => None
      | S fuel' =>
          scan_lines fuel' page_num lines all_transactions
                     (loop_body page_num lines raw all_transactions fr)
      end
  end.

(** The body of the [for] loop on one page. *)
Definition scan_page (page_num : nat) (page_text : string)
    (current_balance : float) (all_transactions : nat) (s : Store)
  : option (float * Store) :=
  let lines := split "010" page_text in
  match scan_lines (List.length lines) page_num lines all_transactions
          {| i := 0; current_balance := current_balance; store := s |} with
  | Some fr => Some (ParserStore.current_balance fr, store fr)
  | None => None
  end.

(** [for page_num, page_text in enumerate(pages_text, 1)]: the iterator
    reads the list object at [index] on every turn, and the loop ends when
    the index is past its end.  [None]: out of fuel, or [pages_text] is no
    list of page texts. *)
Fixpoint scan_pages (fuel : nat) (index : nat) (pages_text : nat)
    (current_balance : float) (all_transactions : nat) (s : Store)
  : option (float * Store) :=
  match nth_error (objects s) pages_text with
  | Some (PageTexts pages) =>
      match nth_error pages index with
      | None => Some (current_balance, s)
      | Some page_text =>
          match fuel with
          | O => None
          | S fuel' =>
              match scan_page (index + 1) page_text current_balance
                              all_transactions s with
              | Some (bal, s') =>
                  scan_pages fuel' (S index) pages_text bal
                             all_transactions s'
              | None => None
              end
          end
      end
  | _ => None
  end.

(** [parse_individual_transactions(pages_text, starting_balance)]: the
    reference it returns, and the store it leaves. *)
Definition parse_individual_transactions (pages_text : nat)
    (starting_balance : float) (s : Store) : option (nat * Store) :=
  let '(all_transactions, s1) := new_list s in
  let fuel :=
    match nth_error (objects s) pages_text with
    | Some (PageTexts pages) => List.length pages
    | _ => 0
    end in
  match scan_pages fuel 0 pages_text starting_balance all_transactions s1
  with
  | Some (_, s2) => Some (all_transactions, s2)
  | None => None
  end.




End ParserStore.

(* ===================================================================== *)
(** ** pdf_reader_ocr.py: extract_text_from_pdf *)
(* ===================================================================== *)

Module PdfSource.

(** What the function uses of an opened [pymupdf] document: whether it is
    encrypted, which passwords [authenticate] accepts, and the text of
    each page. *)
Record Document : Type := mkDocument {
  is_encrypted : bool;
  authenticate : string -> bool;
  page_texts : list string
}.

(** What is done to the document, in order. *)
Inductive Event : Type :=
| Opened
| Authenticated (password : string)
| TextRead (page_num : nat)
| Closed.

(** [extract_text_from_pdf(pdf_path, password)] on the document at
    [pdf_path]: the list of page texts, or [None] for the [RuntimeError],
    with what was done to the document. *)
Definition extract_text_from_pdf (doc : Document) (password : option string)
  : option (list string) * list Event :=
  let read_all :=
    (map TextRead (seq 0 (List.length (page_texts doc))) ++ [Closed])%list in
  if is_encrypted doc then
    match password with
    | Some p =>
        if Py.truthy p then
          if authenticate doc p
          then (Some (page_texts doc), Opened :: Authenticated p :: read_all)
          else (None, [Opened; Authenticated p])
        else (None, [Opened])
    | None => (None, [Opened])
    end
  else (Some (page_texts doc), Opened :: read_all).

End PdfSource.

(* ===================================================================== *)
(** ** import_detailed.py: import_detailed_transactions *)
(* ===================================================================== *)

Module Importer.

Import Py ImportDetailed.

Definition ACTUAL_ACCOUNT_NAME : string := "icici".

(** A category of the budget, as far as it is used. *)
Record Category : Type := mkCategory {
  name : string;
  id : string
}.

(** The notes of a ledger entry: the fixed text of the opening balance, or
    the page and the balance interpolated into "Page .. | Balance: ..". *)
Inductive Notes : Type :=
| StartingBalanceNotes
| PageBalanceNotes (page_num : nat) (balance : float).

(** The arguments of one [create_transaction] call, with the category set
    on its result.  [amount] stands for [Decimal(str(amount))]. *)
Record LedgerEntry : Type := mkEntry {
  entry_date : Date;
  payee : string;
  notes : Notes;
  amount : float;
  category_id : option string
}.

(** The calls made on the budget session. *)
Inductive Call : Type :=
| GetAccount (account_name : string)
| CreateAccount (account_name : string)
| GetCategories
| CreateTransaction (entry : LedgerEntry)
| Commit.

(** One turn of [for cat in categories] (lines 181-185). *)
Definition pick_category (found : option Category * option Category)
    (cat : Category) : option Category * option Category :=
  let '(income_category, general_category) := found in
  if String.eqb (name cat) "Income" then (Some cat, general_category)
  else if String.eqb (name cat) "General" then (income_category, Some cat)
  else found.

Definition find_categories (categories : list Category)
  : option Category * option Category :=
  fold_left pick_category categories (None, None).

(** What one turn of [for txn_data in transactions] does (lines 212-248). *)
Inductive Turn : Type :=
| Creates (entry : LedgerEntry)
| Skips
| RaisesKeyError.

Definition turn (max_str_digits : nat) (today : Date)
    (income_category general_category : Category) (txn_data : Transaction)
  : Turn :=
  let txn_date := parse_date max_str_digits today (date txn_data) in
  let description :=
    if truthy (description txn_data) then description txn_data
    else "Transaction" in
  if (0 <? deposit txn_data)%float then
    match page txn_data with
    | Some page_num =>
        Creates {| entry_date := txn_date;
                   payee := description;
                   notes := PageBalanceNotes page_num (balance txn_data);
                   amount := deposit txn_data;
                   category_id := Some (id income_category) |}
    | None => RaisesKeyError
    end
  else if (0 <? withdrawal txn_data)%float then
    match page txn_data with
    | Some page_num =>
        Creates {| entry_date := txn_date;
                   payee := description;
                   notes := PageBalanceNotes page_num (balance txn_data);
                   amount := (- withdrawal txn_data)%float;
                   category_id := Some (id general_category) |}
    | None => RaisesKeyError
    end
  else Skips.

(** The loop over the transactions: the calls made, and whether the loop
    was left at its end ([false]: an exception left it). *)
Fixpoint post_entries (max_str_digits : nat) (today : Date)
    (income_category general_category : Category)
    (transactions : list Transaction) : list Call * bool :=
  match transactions with
  | [] => ([], true)
  | txn_data :: rest =>
      match turn max_str_digits today income_category general_category
                 txn_data with
      | Creates entry =>
          let '(calls, completed) :=
            post_entries max_str_digits today income_category
                         general_category rest in
          (CreateTransaction entry :: calls, completed)
      | Skips =>
          post_entries max_str_digits today income_category
                       general_category rest
      | RaisesKeyError => ([], false)
      end
  end.

(** Lines 164-259: the body of the [try], on a budget server that answers
    every call.  [account_exists] and [categories] are its answers to
    [get_account] and [get_categories]. *)
Definition post_to_budget (account_exists : bool)
    (categories : list Category) (max_str_digits : nat) (today : Date)
    (summary : Summary) (transactions : list Transaction) : list Call :=
  (GetAccount ACTUAL_ACCOUNT_NAME
   :: (if account_exists then [] else [CreateAccount ACTUAL_ACCOUNT_NAME])
   ++ GetCategories
   :: match find_categories categories with
      | (Some income_category, Some general_category) =>
          let first_date :=
            match transactions with
            | first :: _ => parse_date max_str_digits today (date first)
            | [] => today
            end in
          let '(calls, completed) :=
            post_entries max_str_digits today income_category
                         general_category transactions in
          CreateTransaction
            {| entry_date := first_date;
               payee := "Opening Balance";
               notes := StartingBalanceNotes;
               amount := starting_balance summary;
               category_id := None |}
          :: calls ++ (if completed then [Commit] else [])
      | _ => []
      end)%list.

(** How a call of [import_detailed_transactions] ends. *)
Inductive Run : Type :=
| Finished (calls : list Call)
| RaisedRuntimeError
| RanOutOfFuel.

(** [calc_final] of line 147. *)
Definition calc_final (summary : Summary) (transactions : list Transaction)
  : float :=
  (starting_balance summary + py_sum (map deposit transactions)
   - py_sum (map withdrawal transactions))%float.

(** Line 150: [true] when the branch "Balance verification passed" is
    taken, [false] when the warning is printed. *)
Definition balance_check_passed (summary : Summary)
    (transactions : list Transaction) : bool :=
  negb (1 <? abs (calc_final summary transactions
                  - final_balance summary))%float.

Section WithSummarizer.

Variable extract_transactions_with_llm : string -> nat -> OcrReader.PageTotals.

(** [import_detailed_transactions(pdf_path, password, dry_run)]: the
    document is read twice, for the summary and for the page texts. *)
Definition import_detailed_transactions (doc : PdfSource.Document)
    (password : option string) (dry_run : bool) (account_exists : bool)
    (categories : list Category) (max_str_digits : nat) (today : Date)
  : Run :=
  match fst (PdfSource.extract_text_from_pdf doc password) with
  | None => RaisedRuntimeError
  | Some summary_pages =>
      let summary :=
        OcrReader.process_bank_statement extract_transactions_with_llm
                                         summary_pages in
      match fst (PdfSource.extract_text_from_pdf doc password) with
      | None => RaisedRuntimeError
      | Some pages_text =>
          match parse_individual_transactions pages_text
                  (starting_balance summary) with
          | None => RanOutOfFuel
          | Some transactions =>
              if dry_run then Finished []
              else Finished (post_to_budget account_exists categories
                               max_str_digits today summary transactions)
          end
      end
  end.

End WithSummarizer.

End Importer.

(* ===================================================================== *)
(** ** test/test_all_detailed.py *)
(* ===================================================================== *)

Module DetailedTest.

(** Lines 42-48 of [test_all_pdfs]: the verdict on one document. *)
Definition passed (summary : Summary) (transactions : list Transaction)
  : bool :=
  let calc_deposits := py_sum (map deposit transactions) in
  let calc_withdrawals := py_sum (map withdrawal transactions) in
  let calc_final :=
    (starting_balance summary + calc_deposits - calc_withdrawals)%float in
  let balance_diff := abs (calc_final - final_balance summary)%float in
  (balance_diff <? 1)%float.

End DetailedTest.

(* ===================================================================== *)
(** ** import_all_statements.py *)
(* ===================================================================== *)

Module ImportAll.

Import Py ImportDetailed Importer.

Definition PDF_PASSWORD : string := "guru2111".

Definition PDFS_DIR : string := "pdfs".

Definition PDF_ORDER : list string :=
  ["may_2025.pdf"; "June_2025.pdf"; "aug_2025.pdf"; "sep_2025.pdf";
   "oct_2025.pdf"; "Nov_2025.pdf"].

(** [str.lower] on ASCII text. *)
Definition lower_char (c : ascii) : ascii :=
  let n := nat_of_ascii c in
  if (65 <=? n)%nat && (n <=? 90)%nat then ascii_of_nat (n + 32) else c.

Fixpoint lower (s : string) : string :=
  match s with
  | EmptyString => EmptyString
  | String c s' => String (lower_char c) (lower s')
  end.

(** [str(pdfs_path / filename)] *)
Definition path_of (filename : string) : string :=
  PDFS_DIR ++ "/" ++ filename.

(** What the function meets outside: which paths exist, the document
    behind a path, and what the budget answers to [get_account] and
    [get_categories] while the document of a path is imported. *)
Record World : Type := mkWorld {
  file_exists : string -> bool;
  document_at : string -> PdfSource.Document;
  account_known : string -> bool;
  categories_at : string -> list Category
}.

(** How a call of [import_all_pdfs] ends: [sys.exit], the return after
    "Cancelled", the return after the summary with the value of
    [success_count], or the [EOFError] of [input] at the end of the
    input.  [OutOfFuel] stands for an import whose model ran out of
    fuel. *)
Inductive Ending : Type :=
| SystemExit (code : nat)
| Cancelled
| Summarized (success_count : nat)
| RaisedEOFError
| OutOfFuel.

Section WithSummarizer.

Variable extract_transactions_with_llm : string -> nat -> OcrReader.PageTotals.
Variable max_str_digits : nat.
Variable today : Date.
Variable w : World.

(** Line 61: the import of one document. *)
Definition import_one (filename : string) : Run :=
  let pdf_path := path_of filename in
  import_detailed_transactions extract_transactions_with_llm
    (document_at w pdf_path) (Some PDF_PASSWORD) false
    (account_known w pdf_path) (categories_at w pdf_path)
    max_str_digits today.

(** Lines 54-70: the loop over the documents.  [responses] are the lines
    [input] has left to read; the result is the ending and the imports
    made, in order. *)
Fixpoint import_each (files : list string) (responses : list string)
    (success_count : nat) : Ending * list (string * Run) :=
  match files with
  | [] => (Summarized success_count, [])
  | filename :: rest =>
      let run := import_one filename in
      match run with
      | Finished _ =>
          let '(ending, imports) :=
            import_each rest responses (S success_count) in
          (ending, (filename, run) :: imports)
      | RaisedRuntimeError =>
          match responses with
          | [] => (RaisedEOFError, [(filename, run)])
          | response :: responses' =>
              if negb (String.eqb (lower response) "yes")
              then (Summarized success_count, [(filename, run)])
              else
                let '(ending, imports) :=
                  import_each rest responses' success_count in
                (ending, (filename, run) :: imports)
          end
      | RanOutOfFuel => (OutOfFuel, [(filename, run)])
      end
  end.

(** [import_all_pdfs()] *)
Definition import_all_pdfs (responses : list string)
  : Ending * list (string * Run) :=
  let missing :=
    filter (fun filename => negb (file_exists w (path_of filename)))
           PDF_ORDER in
  match missing with
  | _ :: _ => (SystemExit 1, [])
  | [] =>
      match responses with
      | [] => (RaisedEOFError, [])
      | response :: responses' =>
          if negb (String.eqb (lower response) "yes") then (Cancelled, [])
          else import_each PDF_ORDER responses' 0
      end
  end.

End WithSummarizer.

End ImportAll.

(* ===================================================================== *)
(** ** Vocabulary of the further properties *)
(* ===================================================================== *)

Module MoreProps.

(** [s] is DD-MM-YYYY to the letter. *)
Definition strict_date (s : string) : Prop :=
  exists d m y, Props.strict_date_fields s = Some (d, m, y).

(** What [parse_individual_transactions] writes into a transaction of page
    [page_num] besides its amounts: the page, a date that is DD-MM-YYYY to
    the letter, and a description that is not empty, has at most 100
    characters and no slash. *)
Definition recorded_on (page_num : nat) (t : Transaction) : Prop :=
  page t = Some page_num
  /\ strict_date (date t)
  /\ description t <> ""
  /\ String.length (description t) <= 100
  /\ Py.contains "/" (description t) = false.

(** The pages of [txns] are numbered from [lo] to [hi] and never go
    down. *)
Fixpoint pages_within (lo hi : nat) (txns : list Transaction) : Prop :=
  match txns with
  | [] => True
  | t :: rest =>
      exists k, page t = Some k /\ lo <= k <= hi /\ pages_within k hi rest
  end.

(** The transactions of each page, page by page: what a page gives when
    it is scanned on its own from the balance the pages before it left. *)
Fixpoint page_blocks (page_num : nat) (pages_text : list string)
    (bal : float) : option (list (list Transaction)) :=
  match pages_text with
  | [] => Some []
  | page_text :: rest =>
      match ImportDetailed.scan_page page_num page_text bal [] with
      | Some (bal', found) =>
          option_map (cons found) (page_blocks (S page_num) rest bal')
      | None => None
      end
  end.

(** [t] is labelled with [page_num] and dated by a line among [lines]:
    its date is what the date pattern matches on that line, stripped. *)
Definition dated_by (page_num : nat) (lines : list string)
    (t : Transaction) : Prop :=
  page t = Some page_num
  /\ exists raw,
       In raw lines /\ Re.date_pattern_match (Py.strip raw) = Some (date t).

(** [t] was found on page [page_num], whose text is [page_text]. *)
Definition found_on (page_num : nat) (page_text : string)
    (t : Transaction) : Prop :=
  dated_by page_num (Py.split "010" page_text) t.

(** The number of lines of a page that start with a date, once
    stripped. *)
Definition date_line_count (page_text : string) : nat :=
  List.length
    (filter (fun l => Re.is_date (Py.strip l)) (Py.split "010" page_text)).

Definition total_date_lines (pages_text : list string) : nat :=
  list_sum (map date_line_count pages_text).

(** The same count over the lines from index [i] on. *)
Definition date_lines_from (lines : list string) (i : nat) : nat :=
  List.length (filter (fun l => Re.is_date (Py.strip l)) (skipn i lines)).

(** What the recomputation of [extract_all_transactions_from_pdf]
    establishes between a transaction and the balance before it: where
    both balances are above zero, the amounts are the two sides of the
    change of balance. *)
Definition rebalanced (prev : float) (t : Transaction) : Prop :=
  (0 <? prev)%float && (0 <? balance t)%float = true ->
  Props.splits_delta prev t.

Fixpoint rebalanced_chain (prev : float) (txns : list Transaction) : Prop :=
  match txns with
  | [] => True
  | t :: rest => rebalanced prev t /\ rebalanced_chain (balance t) rest
  end.

(** The transactions found page by page, before any recomputation. *)
Fixpoint page_level (i : nat) (pages_text : list string)
  : option (list Transaction) :=
  match pages_text with
  | [] => Some []
  | page_text :: rest =>
      match OcrReader.extract_transactions_from_page_text page_text i,
            page_level (S i) rest with
      | Some found, Some others => Some (found ++ others)%list
      | _, _ => None
      end
  end.

(** Two transactions that differ in their amounts at most. *)
Definition same_but_amounts (t u : Transaction) : Prop :=
  date t = date u /\ description t = description u
  /\ balance t = balance u /\ page t = page u.

(** No page from number [i] on reports a balance above zero. *)
Fixpoint none_positive (llm : string -> nat -> OcrReader.PageTotals)
    (i : nat) (pages_text : list string) : Prop :=
  match pages_text with
  | [] => True
  | page_text :: rest =>
      (0 <? OcrReader.pt_balance (llm page_text i))%float = false
      /\ none_positive llm (S i) rest
  end.

(** A summarizer for three pages, of which the second is the last to
    report a balance. *)
Definition three_page_totals (page_text : string) (page_num : nat)
  : OcrReader.PageTotals :=
  if (page_num =? 2)%nat then OcrReader.mkPageTotals 10 20 102000
  else if (page_num =? 1)%nat then OcrReader.mkPageTotals 5 6 101000
  else OcrReader.mkPageTotals 1 2 0.

(** What [extract_transactions_from_page_text] writes into a transaction
    besides its amounts: no page, a date that is DD-MM-YYYY to the letter,
    and a description that is not empty, has at most 100 characters and no
    slash. *)
Definition extracted (t : Transaction) : Prop :=
  page t = None
  /\ strict_date (date t)
  /\ description t <> ""
  /\ String.length (description t) <= 100
  /\ Py.contains "/" (description t) = false.

(** The document can be read with [password]: it is not encrypted, or the
    password is given, not empty and accepted. *)
Definition readable (doc : PdfSource.Document) (password : option string)
  : bool :=
  negb (PdfSource.is_encrypted doc)
  || match password with
     | Some p => Py.truthy p && PdfSource.authenticate doc p
     | None => false
     end.

(** The last category of the list that is named [wanted]. *)
Definition last_named (wanted : string) (categories : list Importer.Category)
  : option Importer.Category :=
  find (fun cat => String.eqb (Importer.name cat) wanted) (rev categories).

(** An entry of the loop over the transactions: it has a payee, and its
    amount is above zero under the income category or below zero under the
    general category. *)
Definition signed_entry (income_category general_category : Importer.Category)
    (e : Importer.LedgerEntry) : Prop :=
  Importer.payee e <> ""
  /\ ((0 <? Importer.amount e)%float = true
      /\ Importer.category_id e = Some (Importer.id income_category)
      \/ (Importer.amount e <? 0)%float = true
         /\ Importer.category_id e = Some (Importer.id general_category)).

(** The entries the importer's loop creates for [txns], [prev] being the
    balance before them.  A transaction whose change of balance is above
    or below zero has one entry: the change as its amount, the
    description as its payee, the page and the balance in its notes, and
    the income category for a change above zero, the general category for
    one below.  Any other transaction has none. *)
Fixpoint posts_changes (income_category general_category : Importer.Category)
    (prev : float) (txns : list Transaction)
    (entries : list Importer.LedgerEntry) : Prop :=
  match txns with
  | [] => entries = []
  | t :: rest =>
      let delta := (balance t - prev)%float in
      if (0 <? delta)%float || (delta <? 0)%float
      then exists e entries',
             entries = e :: entries'
             /\ Importer.amount e = delta
             /\ Importer.payee e = description t
             /\ (exists k, page t = Some k
                           /\ Importer.notes e
                              = Importer.PageBalanceNotes k (balance t))
             /\ Importer.category_id e
                = Some (Importer.id (if (0 <? delta)%float
                                     then income_category
                                     else general_category))
             /\ posts_changes income_category general_category
                              (balance t) rest entries'
      else posts_changes income_category general_category (balance t) rest
                         entries
  end.

(** The calls made before the first entry is created. *)
Definition preamble (account_exists : bool) : list Importer.Call :=
  (Importer.GetAccount Importer.ACTUAL_ACCOUNT_NAME
   :: (if account_exists then []
       else [Importer.CreateAccount Importer.ACTUAL_ACCOUNT_NAME])
   ++ [Importer.GetCategories])%list.

(** An unencrypted document of one page, and a budget with the two
    categories. *)
Definition lunch_document : PdfSource.Document :=
  PdfSource.mkDocument false (fun _ => false) [Props.lunch_page].

Definition salary : Importer.Category := Importer.mkCategory "Income" "c-1".

Definition household : Importer.Category :=
  Importer.mkCategory "General" "c-2".

(** The budget lacks a category named Income or one named General. *)
Definition lacks_category (categories : list Importer.Category) : bool :=
  match last_named "Income" categories, last_named "General" categories with
  | Some _, Some _ => false
  | _, _ => true
  end.

(** The document of an import can be read with the password of
    import_all_statements.py. *)
Definition readable_import (w : ImportAll.World)
    (made : string * Importer.Run) : bool :=
  readable (ImportAll.document_at w (ImportAll.path_of (fst made)))
           (Some ImportAll.PDF_PASSWORD).

(** A world where the six files exist, each one the lunch document, and
    the budget has the account but no category. *)
Definition six_lunches : ImportAll.World :=
  ImportAll.mkWorld (fun _ => true) (fun _ => lunch_document)
                    (fun _ => true) (fun _ => []).

End MoreProps.

(** Case analysis on the comparisons of exponents and mantissas that
    [SFcompare] makes. *)
Ltac order_cases :=
  repeat match goal with
         | H : context [ Pos.compare_cont Eq ?a ?b ] |- _ =>
             change (Pos.compare_cont Eq a b) with (a ?= b)%positive in H
         | |- context [ Pos.compare_cont Eq ?a ?b ] =>
             change (Pos.compare_cont Eq a b) with (a ?= b)%positive
         end;
  repeat match goal with
         | H : context [ (?a ?= ?b)%Z ] |- _ =>
             destruct (Z.compare_spec a b); simpl in H; try discriminate H
         | H : context [ (?a ?= ?b)%positive ] |- _ =>
             destruct (Pos.compare_spec a b); simpl in H; try discriminate H
         end;
  repeat match goal with
         | |- context [ (?a ?= ?b)%Z ] =>
             destruct (Z.compare_spec a b); simpl
         | |- context [ (?a ?= ?b)%positive ] =>
             destruct (Pos.compare_spec a b); simpl
         end;
  try reflexivity; try lia.

(* ===================================================================== *)
(** ** Binary64 comparisons *)
(* ===================================================================== *)

Section FloatFacts.

Lemma zero_as_spec : Prim2SF 0%float = S754_zero false.
Proof. reflexivity. Qed.

(** [x == y] entails [x <= y]. *)
Lemma eqb_leb (x y : float) :
  (x =? y)%float = true -> (x <=? y)%float = true.
Proof.
  rewrite FloatAxioms.eqb_spec, leb_spec.
  unfold SFeqb, SFleb.
  destruct (SFcompare (Prim2SF x) (Prim2SF y)) as [[ | | ] | ];
    intros H; try discriminate H; reflexivity.
Qed.

(** [d <= 0] excludes [d > 0]. *)
Lemma leb_zero_not_pos (d : float) :
  (d <=? 0)%float = true -> (0 <? d)%float = false.
Proof.
  rewrite leb_spec, ltb_spec, zero_as_spec.
  unfold SFleb, SFltb.
  destruct (Prim2SF d) as [ [ | ] | [ | ] | | [ | ] m e ]; simpl;
    intros H; try discriminate H; reflexivity.
Qed.

(** A positive number is its own magnitude. *)
Lemma abs_of_pos (d : float) : (0 <? d)%float = true -> abs d = d.
Proof.
  intros H. apply Prim2SF_inj. rewrite abs_spec.
  rewrite ltb_spec, zero_as_spec in H. unfold SFltb in H.
  destruct (Prim2SF d) as [ [ | ] | [ | ] | | [ | ] m e ]; simpl in *;
    try discriminate H; reflexivity.
Qed.

(** The number [0.0] stands for. *)
Lemma exact_value_zero : Props.exact_value 0%float = Some 0%Q.
Proof. reflexivity. Qed.

(** A finite number that is not above zero has the opposite of its value
    as magnitude. *)
Lemma exact_value_abs_nonpos (d : float) (q : Q) :
  (0 <? d)%float = false ->
  Props.exact_value d = Some q ->
  exists q', Props.exact_value (abs d) = Some q' /\ (q' == - q)%Q.
Proof.
  unfold Props.exact_value. rewrite abs_spec, ltb_spec, zero_as_spec.
  unfold SFltb.
  destruct (Prim2SF d) as [ [ | ] | [ | ] | | [ | ] m e ]; simpl;
    intros Hpos Hq; try discriminate Hpos; try discriminate Hq;
    injection Hq as <-; eexists; (split; [ reflexivity | ring ]).
Qed.

End FloatFacts.

(* ===================================================================== *)
(** ** The amount pattern and float() *)
(* ===================================================================== *)

Module ReFacts.

Import Py Re Props.

Lemma digit_is_no_comma (c : ascii) :
  isdigit c = true -> Ascii.eqb c "," = false.
Proof.
  destruct c as [[ | ] [ | ] [ | ] [ | ] [ | ] [ | ] [ | ] [ | ]];
    vm_compute; intros H; try discriminate H; reflexivity.
Qed.

Lemma append_assoc3 (b u v : string) : b ++ (u ++ v) = (b ++ u) ++ v.
Proof.
  induction b as [ | x b IHb]; [ reflexivity | ].
  cbn [append]. rewrite IHb. reflexivity.
Qed.

Lemma replace_app (a : ascii) (b s t : string) :
  replace a b (s ++ t) = replace a b s ++ replace a b t.
Proof.
  induction s as [ | c s IH]; [ reflexivity | ].
  cbn [append replace]. rewrite IH.
  destruct (Ascii.eqb c a); [ apply append_assoc3 | reflexivity ].
Qed.

(** The run taken by [[\d,]*] is digits once its commas are removed. *)
Lemma span_without_commas (s : string) :
  all_digits (replace "," "" (fst (span_digit_comma s))) = true.
Proof.
  induction s as [ | c s IH]; [ reflexivity | ].
  cbn [span_digit_comma].
  destruct (digit_or_comma c) eqn:E; [ | reflexivity ].
  destruct (span_digit_comma s) as [a b]. cbn [fst] in *.
  cbn [replace].
  destruct (Ascii.eqb c ",") eqn:Ec; [ exact IH | ].
  unfold digit_or_comma in E. rewrite Ec, orb_false_r in E.
  cbn [all_digits]. rewrite E, IH. reflexivity.
Qed.

Lemma dot_two_digits_shape (s tail : string) :
  dot_two_digits s = Some tail ->
  exists d1 d2,
    tail = String "." (String d1 (String d2 EmptyString))
    /\ isdigit d1 = true /\ isdigit d2 = true.
Proof.
  unfold dot_two_digits.
  destruct s as [ | p [ | a [ | b r]]]; try discriminate.
  destruct (Ascii.eqb p ".") eqn:Ep; [ | discriminate ].
  destruct (isdigit a) eqn:Ea; [ | discriminate ].
  destruct (isdigit b) eqn:Eb; [ | discriminate ].
  cbn [andb]. intros H. injection H as <-.
  apply Ascii.eqb_eq in Ep. subst p. exists a, b. auto.
Qed.

(** What the amount pattern matches is, commas removed, a text [float]
    accepts. *)
Lemma amount_at_float_literal (s m : string) :
  amount_at s = Some m -> float_literal (replace "," "" m).
Proof.
  unfold amount_at. pose proof (span_without_commas s) as Hrun.
  destruct (span_digit_comma s) as [run rest]. cbn [fst] in Hrun.
  destruct run as [ | c run]; [ discriminate | ].
  destruct (dot_two_digits rest) as [tail | ] eqn:Etail; [ | discriminate ].
  intros H.
  assert (Hm : m = String c run ++ tail)
    by (injection H as <-; reflexivity).
  rewrite Hm. clear H Hm.
  destruct (dot_two_digits_shape _ _ Etail) as (d1 & d2 & -> & Hd1 & Hd2).
  rewrite replace_app.
  exists (replace "," "" (String c run)), d1, d2.
  split; [ | auto ].
  f_equal. cbn [replace].
  rewrite (digit_is_no_comma d1 Hd1), (digit_is_no_comma d2 Hd2).
  reflexivity.
Qed.

Lemma findall_from_matches (s : string) :
  forall skip m,
    In m (findall_from skip s) -> exists s', amount_at s' = Some m.
Proof.
  induction s as [ | c s IH]; intros skip m Hin; [ contradiction | ].
  cbn [findall_from] in Hin.
  destruct skip as [ | k]; [ | exact (IH _ _ Hin) ].
  destruct (amount_at (String c s)) as [m' | ] eqn:E; [ | exact (IH _ _ Hin) ].
  destruct Hin as [<- | Hin]; [ eauto | exact (IH _ _ Hin) ].
Qed.

(** [float(amt.replace(',', ''))] is applied to texts it accepts only:
    no [ValueError] can come from it. *)
Lemma findall_amounts_float_literal (s m : string) :
  In m (findall_amounts s) -> float_literal (replace "," "" m).
Proof.
  intros Hin. destruct (findall_from_matches s 0 m Hin) as [s' Hs'].
  apply (amount_at_float_literal s' m Hs').
Qed.

End ReFacts.

(* ===================================================================== *)
(** ** The reconciliation verifier *)
(* ===================================================================== *)

Module VerifyFacts.

Import Verify.

(** [sum] adds from left to right, starting from 0. *)
Lemma py_sum_nil : py_sum [] = 0%float.
Proof. reflexivity. Qed.

Lemma py_sum_snoc (xs : list float) (x : float) :
  py_sum (xs ++ [x]) = (py_sum xs + x)%float.
Proof. unfold py_sum. rewrite fold_left_app. reflexivity. Qed.

(** C1.  The verifier recomputes the deposit and withdrawal totals and the
    final balance from the transactions, returns the result dictionary
    (with [passed] true) exactly when the three absolute differences are
    within the tolerance, and raises the error, which carries the three
    differences and both figures of each comparison, exactly when one of
    the three checks fails.  With a final balance of 102000 in the
    summary, a recomputed one of 101000 and tolerance 1.0, the error is
    raised and its balance difference is 1000.0. *)
Theorem verify_reconciles :
  (forall (summary : Summary) (transactions : list Transaction)
          (tolerance : float),
     let calc_deposits := py_sum (map deposit transactions) in
     let calc_withdrawals := py_sum (map withdrawal transactions) in
     let calc_final :=
       (starting_balance summary + calc_deposits - calc_withdrawals)%float in
     let balance_diff := abs (calc_final - final_balance summary)%float in
     let deposit_diff := abs (calc_deposits - total_deposits summary)%float in
     let withdrawal_diff :=
       abs (calc_withdrawals - total_withdrawals summary)%float in
     let outcome :=
       verify_pdf_extraction_is_correct summary transactions tolerance in
     (outcome =
        inl {| balance_diff := balance_diff;
               deposit_diff := deposit_diff;
               withdrawal_diff := withdrawal_diff;
               calc_deposits := calc_deposits;
               calc_withdrawals := calc_withdrawals;
               calc_final := calc_final;
               passed := true |}
      <-> ((balance_diff <=? tolerance)%float = true
           /\ (deposit_diff <=? tolerance)%float = true
           /\ (withdrawal_diff <=? tolerance)%float = true))
     /\ (outcome =
           inr {| expected_final := final_balance summary;
                  calculated_final := calc_final;
                  err_balance_diff := balance_diff;
                  expected_deposits := total_deposits summary;
                  calculated_deposits := calc_deposits;
                  err_deposit_diff := deposit_diff;
                  expected_withdrawals := total_withdrawals summary;
                  calculated_withdrawals := calc_withdrawals;
                  err_withdrawal_diff := withdrawal_diff |}
         <-> ((balance_diff <=? tolerance)%float = false
              \/ (deposit_diff <=? tolerance)%float = false
              \/ (withdrawal_diff <=? tolerance)%float = false))
     /\ (forall r, outcome = inl r -> passed r = true))
  /\ (forall (summary : Summary) (transactions : list Transaction),
        final_balance summary = 102000%float ->
        (starting_balance summary + py_sum (map deposit transactions)
         - py_sum (map withdrawal transactions))%float = 101000%float ->
        exists e,
          verify_pdf_extraction_is_correct summary transactions 1%float
            = inr e
          /\ err_balance_diff e = 1000%float).
Proof.
  split.
  - intros summary transactions tolerance. cbv zeta.
    unfold verify_pdf_extraction_is_correct. cbn [passed].
    destruct (abs _ <=? tolerance)%float;
      destruct (abs _ <=? tolerance)%float;
      destruct (abs _ <=? tolerance)%float; cbn;
      (split; [ | split ]);
      try (split; [ intros H; try discriminate H; auto
                  | intros H; try reflexivity;
                    try (destruct H as [H | [H | H]]; discriminate H);
                    try (destruct H as (H1 & H2 & H3);
                         first [discriminate H1 | discriminate H2
                               | discriminate H3]) ]);
      try (intros r H; first [ discriminate H
                             | injection H as <-; reflexivity ]).
  - intros summary transactions Hfinal Hcalc.
    unfold verify_pdf_extraction_is_correct. cbn [passed].
    rewrite Hfinal, Hcalc.
    eexists. split; reflexivity.
Qed.

(** The summary and the transactions of scenario D: the transactions give
    101000 where the summary says 102000. *)
Lemma verify_reconciles_witness :
  exists e,
    verify_pdf_extraction_is_correct
      (mkSummary 100000 5000 3000 102000)
      [mkTransaction "01-08-2025" "salary" 4000 0 104000 (Some 1);
       mkTransaction "02-08-2025" "rent" 0 3000 101000 (Some 1)]
      1%float = inr e
    /\ err_balance_diff e = 1000%float.
Proof.
  apply (proj2 verify_reconciles); reflexivity.
Defined.

(** C10.  The comparison with the tolerance is inclusive: when each of
    the three absolute differences equals the tolerance, the verifier
    returns with [passed] true and raises nothing. *)
Theorem verify_tolerance_inclusive
    (summary : Summary) (transactions : list Transaction)
    (tolerance : float) :
  let calc_deposits := py_sum (map deposit transactions) in
  let calc_withdrawals := py_sum (map withdrawal transactions) in
  let calc_final :=
    (starting_balance summary + calc_deposits - calc_withdrawals)%float in
  (abs (calc_final - final_balance summary) =? tolerance)%float = true ->
  (abs (calc_deposits - total_deposits summary) =? tolerance)%float = true ->
  (abs (calc_withdrawals - total_withdrawals summary) =? tolerance)%float
    = true ->
  exists r,
    verify_pdf_extraction_is_correct summary transactions tolerance = inl r
    /\ passed r = true.
Proof.
  cbv zeta. intros Hb Hd Hw.
  apply eqb_leb in Hb. apply eqb_leb in Hd. apply eqb_leb in Hw.
  unfold verify_pdf_extraction_is_correct. cbn [passed].
  rewrite Hb, Hd, Hw. cbn. eexists. split; reflexivity.
Qed.

(** Every difference is exactly the tolerance 1.0 here. *)
Lemma verify_tolerance_inclusive_witness :
  exists r,
    verify_pdf_extraction_is_correct
      (mkSummary 100000 5000 3000 102001)
      [mkTransaction "01-08-2025" "salary" 5001 0 105001 (Some 1);
       mkTransaction "02-08-2025" "rent" 0 3001 102000 (Some 1)]
      1%float = inl r
    /\ passed r = true.
Proof.
  apply verify_tolerance_inclusive; reflexivity.
Defined.

End VerifyFacts.

(* ===================================================================== *)
(** ** parse_individual_transactions *)
(* ===================================================================== *)

Module ImportFacts.

Import Py Re ImportDetailed Props.

(** *** The loops terminate *)

Lemma look_ahead_from (lines : list string) (room : nat) :
  forall j amounts parts j' amounts' parts',
    look_ahead lines room j amounts parts = (j', amounts', parts') ->
    j <= j'.
Proof.
  induction room as [ | room IH]; intros j amounts parts j' amounts' parts' H;
    cbn [look_ahead] in H.
  - injection H as <- _ _. lia.
  - destruct (nth_error lines j) as [raw | ].
    2:{ injection H as <- _ _. lia. }
    destruct (is_date (strip raw) || mem (strip raw) _).
    { injection H as <- _ _. lia. }
    destruct (findall_amounts (strip raw)) as [ | a found].
    + apply IH in H. lia.
    + destruct (2 <=? _)%nat.
      * injection H as <- _ _. lia.
      * apply IH in H. lia.
Qed.

Lemma loop_body_advances (page_num : nat) (lines : list string)
    (raw : string) (st : State) :
  i st < i (loop_body page_num lines raw st).
Proof.
  unfold loop_body.
  destruct (date_pattern_match (strip raw)) as [date_str | ]; [ | simpl; lia ].
  destruct (match nth_error lines (i st + 1) with
            | Some next_raw => is_marker (strip next_raw)
            | None => false
            end); [ simpl; lia | ].
  destruct (look_ahead lines 9 (i st + 1) [] []) as [[j amounts] parts] eqn:E.
  apply look_ahead_from in E.
  destruct (record_window _ _ _ _ _ _) as [bal txns]. simpl. lia.
Qed.

Lemma scan_lines_returns (page_num : nat) (lines : list string) :
  forall fuel st,
    List.length lines - i st <= fuel ->
    exists st', scan_lines fuel page_num lines st = Some st'.
Proof.
  induction fuel as [ | fuel IH]; intros st Hfuel; simpl.
  - destruct (nth_error lines (i st)) as [raw | ] eqn:E; [ | eauto ].
    assert (i st < List.length lines)
      by (apply nth_error_Some; congruence).
    lia.
  - destruct (nth_error lines (i st)) as [raw | ] eqn:E; [ | eauto ].
    apply IH.
    pose proof (loop_body_advances page_num lines raw st). lia.
Qed.

Lemma scan_page_returns (page_num : nat) (page_text : string)
    (bal : float) (txns : list Transaction) :
  exists bal' txns', scan_page page_num page_text bal txns = Some (bal', txns').
Proof.
  unfold scan_page.
  destruct (scan_lines_returns page_num (split "010" page_text)
              (List.length (split "010" page_text))
              {| i := 0; current_balance := bal; all_transactions := txns |})
    as [st' ->]; [ simpl; lia | eauto ].
Qed.

Lemma scan_pages_returns (pages_text : list string) :
  forall page_num bal txns,
    exists bal' txns',
      scan_pages page_num pages_text bal txns = Some (bal', txns').
Proof.
  induction pages_text as [ | page_text rest IH]; intros page_num bal txns;
    simpl.
  - eauto.
  - destruct (scan_page_returns page_num page_text bal txns)
      as (bal1 & txns1 & ->).
    apply IH.
Qed.

(** [parse_individual_transactions] returns on every input. *)
Lemma parse_returns (pages_text : list string) (starting_balance : float) :
  exists txns,
    parse_individual_transactions pages_text starting_balance = Some txns.
Proof.
  unfold parse_individual_transactions.
  destruct (scan_pages_returns pages_text 1 starting_balance [])
    as (bal & txns & ->).
  simpl. eauto.
Qed.

(** *** The balance chain *)

Lemma last_indep {A : Type} (l : list A) (a d d' : A) :
  List.last (a :: l) d = List.last (a :: l) d'.
Proof.
  revert a. induction l as [ | b l IH]; intros a; [ reflexivity | ].
  change (List.last (b :: l) d = List.last (b :: l) d'). apply IH.
Qed.

Lemma last_balance_cons (t : Transaction) (l : list Transaction)
    (otherwise : float) :
  last_balance (t :: l) otherwise = last_balance l (balance t).
Proof.
  destruct l as [ | u l]; [ reflexivity | ].
  unfold last_balance.
  change (List.last (t :: u :: l) t) with (List.last (u :: l) t).
  f_equal. apply last_indep.
Qed.

Lemma last_balance_snoc (l : list Transaction) (t : Transaction) :
  forall otherwise, last_balance (l ++ [t]) otherwise = balance t.
Proof.
  induction l as [ | u l IH]; intros otherwise; [ reflexivity | ].
  change ((u :: l) ++ [t])%list with (u :: (l ++ [t]))%list.
  rewrite last_balance_cons. apply IH.
Qed.

Lemma delta_chain_snoc (l : list Transaction) (t : Transaction) :
  forall prev,
    delta_chain prev l ->
    splits_delta (last_balance l prev) t ->
    delta_chain prev (l ++ [t]).
Proof.
  induction l as [ | u l IH]; intros prev Hl Ht.
  - simpl. split; [ exact Ht | exact I ].
  - destruct Hl as [Hu Hl]. rewrite last_balance_cons in Ht.
    simpl. split; [ exact Hu | ]. apply IH; assumption.
Qed.

(** The transaction [record_window] appends for a window of two amounts or
    more. *)
Lemma record_window_emits (page_num : nat) (date_str : string)
    (amounts : list float) (parts : list string) (bal : float)
    (txns : list Transaction) :
  2 <= List.length amounts ->
  exists t,
    record_window page_num date_str amounts parts bal txns
      = (last_of amounts 0%float, (txns ++ [t])%list)
    /\ date t = date_str
    /\ balance t = last_of amounts 0%float
    /\ page t = Some page_num
    /\ splits_delta bal t.
Proof.
  intros Hlen. unfold record_window.
  apply Nat.leb_le in Hlen. rewrite Hlen.
  unfold splits_delta.
  destruct (0 <? last_of amounts 0 - bal)%float eqn:E;
    eexists; (split; [ reflexivity | ]); cbn [date balance page deposit
                                              withdrawal];
    rewrite E; auto.
Qed.

(** A window of fewer than two amounts changes nothing. *)
Lemma record_window_discards (page_num : nat) (date_str : string)
    (amounts : list float) (parts : list string) (bal : float)
    (txns : list Transaction) :
  List.length amounts < 2 ->
  record_window page_num date_str amounts parts bal txns = (bal, txns).
Proof.
  intros Hlen. unfold record_window.
  apply Nat.leb_gt in Hlen. rewrite Hlen. reflexivity.
Qed.

Lemma record_window_chained (sb : float) (page_num : nat)
    (date_str : string) (amounts : list float) (parts : list string)
    (bal : float) (txns : list Transaction) :
  chained sb bal txns ->
  chained sb
    (fst (record_window page_num date_str amounts parts bal txns))
    (snd (record_window page_num date_str amounts parts bal txns)).
Proof.
  intros (Hbal & Hchain & Hone).
  destruct (Nat.lt_ge_cases (List.length amounts) 2) as [Hlt | Hge].
  - rewrite record_window_discards by exact Hlt. simpl.
    split; [ | split ]; assumption.
  - destruct (record_window_emits page_num date_str amounts parts bal txns Hge)
      as (t & -> & _ & Hb & _ & Hsplit).
    simpl. split; [ | split ].
    + rewrite last_balance_snoc. symmetry. exact Hb.
    + apply delta_chain_snoc; [ exact Hchain | ]. rewrite <- Hbal. exact Hsplit.
    + apply Forall_app. split; [ exact Hone | ].
      constructor; [ | constructor ].
      unfold splits_delta in Hsplit. unfold one_sided.
      destruct (0 <? balance t - bal)%float; tauto.
Qed.

Lemma loop_body_chained (sb : float) (page_num : nat) (lines : list string)
    (raw : string) (st : State) :
  chained sb (current_balance st) (all_transactions st) ->
  chained sb (current_balance (loop_body page_num lines raw st))
             (all_transactions (loop_body page_num lines raw st)).
Proof.
  intros H. unfold loop_body.
  destruct (date_pattern_match (strip raw)) as [date_str | ]; [ | exact H ].
  destruct (match nth_error lines (i st + 1) with
            | Some next_raw => is_marker (strip next_raw)
            | None => false
            end); [ exact H | ].
  destruct (look_ahead lines 9 (i st + 1) [] []) as [[j amounts] parts].
  pose proof (record_window_chained sb page_num date_str amounts parts
                (current_balance st) (all_transactions st) H) as H'.
  destruct (record_window _ _ _ _ _ _) as [bal txns]. exact H'.
Qed.

Lemma scan_lines_chained (sb : float) (page_num : nat)
    (lines : list string) :
  forall fuel st st',
    scan_lines fuel page_num lines st = Some st' ->
    chained sb (current_balance st) (all_transactions st) ->
    chained sb (current_balance st') (all_transactions st').
Proof.
  induction fuel as [ | fuel IH]; intros st st' Hrun Hinv; simpl in Hrun;
    destruct (nth_error lines (i st)) as [raw | ];
    try discriminate Hrun.
  - injection Hrun as <-. exact Hinv.
  - apply IH in Hrun; [ exact Hrun | ]. apply loop_body_chained. exact Hinv.
  - injection Hrun as <-. exact Hinv.
Qed.

Lemma scan_page_chained (sb : float) (page_num : nat) (page_text : string)
    (bal : float) (txns : list Transaction) (bal' : float)
    (txns' : list Transaction) :
  scan_page page_num page_text bal txns = Some (bal', txns') ->
  chained sb bal txns -> chained sb bal' txns'.
Proof.
  unfold scan_page. intros Hrun Hinv.
  destruct (scan_lines _ _ _ _) as [st' | ] eqn:E; [ | discriminate Hrun ].
  injection Hrun as <- <-.
  apply (scan_lines_chained sb _ _ _ _ _ E). exact Hinv.
Qed.

Lemma scan_pages_chained (sb : float) (pages_text : list string) :
  forall page_num bal txns bal' txns',
    scan_pages page_num pages_text bal txns = Some (bal', txns') ->
    chained sb bal txns -> chained sb bal' txns'.
Proof.
  induction pages_text as [ | page_text rest IH];
    intros page_num bal txns bal' txns' Hrun Hinv; simpl in Hrun.
  - injection Hrun as <- <-. exact Hinv.
  - destruct (scan_page page_num page_text bal txns) as [[b1 t1] | ] eqn:E;
      [ | discriminate Hrun ].
    apply (IH _ _ _ _ _ Hrun).
    apply (scan_page_chained sb _ _ _ _ _ _ E). exact Hinv.
Qed.

(** Scanning [ps1 ++ ps2] is scanning [ps2] from where [ps1] ended. *)
Lemma scan_pages_app (ps1 ps2 : list string) :
  forall page_num bal txns,
    scan_pages page_num (ps1 ++ ps2) bal txns
    = match scan_pages page_num ps1 bal txns with
      | Some (bal1, txns1) =>
          scan_pages (page_num + List.length ps1) ps2 bal1 txns1
      | None => None
      end.
Proof.
  induction ps1 as [ | p ps1 IH]; intros page_num bal txns.
  - simpl. rewrite Nat.add_0_r. reflexivity.
  - change ((p :: ps1) ++ ps2)%list with (p :: (ps1 ++ ps2))%list.
    cbn [scan_pages].
    destruct (scan_page page_num p bal txns) as [[b1 t1] | ];
      [ | reflexivity ].
    rewrite IH. cbn [List.length]. rewrite Nat.add_succ_r. reflexivity.
Qed.

(** Where the change of balance is computed without rounding, the two
    amounts restore the balance exactly. *)
Lemma splits_delta_exact (prev : float) (t : Transaction) :
  splits_delta prev t ->
  unrounded_difference (balance t) prev ->
  exact_recurrence prev t.
Proof.
  unfold splits_delta, unrounded_difference, exact_recurrence.
  destruct (exact_value (balance t)) as [b | ]; [ | contradiction ].
  destruct (exact_value prev) as [p | ]; [ | contradiction ].
  destruct (exact_value (balance t - prev)%float) as [qd | ] eqn:Eqd;
    [ | contradiction ].
  destruct (0 <? balance t - prev)%float eqn:Epos;
    intros [Hdep Hwd] Hexact; rewrite Hdep, Hwd.
  - rewrite Eqd, exact_value_zero. rewrite Hexact. ring.
  - destruct (exact_value_abs_nonpos _ _ Epos Eqd) as (q' & -> & Hq').
    rewrite exact_value_zero. rewrite Hq', Hexact. ring.
Qed.

(** The difference of the lunch scenario, 50000 - 49550, is computed
    without rounding; the one of the huge-balance page is not. *)
Lemma unrounded_difference_examples :
  unrounded_difference 50000 49550
  /\ ~ unrounded_difference 36028797018963976 4.
Proof.
  split; [ vm_compute; reflexivity | ].
  vm_compute. intros H. discriminate H.
Qed.

Lemma delta_chain_exact (txns : list Transaction) :
  forall prev,
    delta_chain prev txns -> recurrence_where_unrounded prev txns.
Proof.
  induction txns as [ | t rest IH]; intros prev H; [ exact I | ].
  destruct H as [Ht Hrest]. split.
  - apply splits_delta_exact. exact Ht.
  - apply IH. exact Hrest.
Qed.

(** *** One turn of the loop on a date line *)


(** A turn of the loop on a date line that no marker follows, when the
    look-ahead collects two numeric tokens or more: one transaction is
    appended, dated by the line, with the last token as balance and the
    change of balance as deposit or withdrawal; the scan goes on where the
    look-ahead stopped. *)
Lemma loop_body_records (page_num : nat) (lines : list string)
    (raw date_str : string) (st : State) (j : nat) (amounts : list float)
    (parts : list string) :
  date_pattern_match (strip raw) = Some date_str ->
  match nth_error lines (i st + 1) with
  | Some next_raw => is_marker (strip next_raw) = false
  | None => True
  end ->
  look_ahead lines 9 (i st + 1) [] [] = (j, amounts, parts) ->
  2 <= List.length amounts ->
  exists t,
    loop_body page_num lines raw st
    = {| i := j;
         current_balance := List.last amounts 0%float;
         all_transactions := (all_transactions st ++ [t])%list |}
    /\ date t = date_str
    /\ balance t = List.last amounts 0%float
    /\ splits_delta (current_balance st) t.
Proof.
  intros Hdate Hnext Hlook Hlen. unfold loop_body. rewrite Hdate.
  assert (match nth_error lines (i st + 1) with
          | Some next_raw => is_marker (strip next_raw)
          | None => false
          end = false) as ->.
  { destruct (nth_error lines (i st + 1)); [ exact Hnext | reflexivity ]. }
  rewrite Hlook.
  destruct (record_window_emits page_num date_str amounts parts
              (current_balance st) (all_transactions st) Hlen)
    as (t & -> & Hd & Hb & _ & Hs).
  exists t. unfold last_of in *. auto.
Qed.

(** A date line whose next line is a marker: both lines are stepped over
    and nothing else changes. *)
Lemma loop_body_skips_marker (page_num : nat) (lines : list string)
    (raw next_raw date_str : string) (st : State) :
  date_pattern_match (strip raw) = Some date_str ->
  nth_error lines (i st + 1) = Some next_raw ->
  (strip next_raw = "B/F" \/ strip next_raw = "C/F"
   \/ contains "Total:" (strip next_raw) = true) ->
  loop_body page_num lines raw st
  = {| i := i st + 2;
       current_balance := current_balance st;
       all_transactions := all_transactions st |}.
Proof.
  intros Hdate Hnext Hmarker. unfold loop_body. rewrite Hdate, Hnext.
  assert (is_marker (strip next_raw) = true) as ->; [ | reflexivity ].
  unfold is_marker.
  destruct Hmarker as [-> | [-> | ->]]; try reflexivity.
  apply orb_true_r.
Qed.

(** *** The claims on parse_individual_transactions *)

(** C2.  For a window of two numeric tokens or more and any previous
    balance, the classifier takes the last token as the new balance and
    emits one transaction with that balance; when the change of balance
    is positive its deposit is the change (its magnitude) and its
    withdrawal 0, when the change is zero or negative its withdrawal is
    the magnitude of the change and its deposit 0.  The lunch page gives
    one transaction: deposit 450, withdrawal 0, balance 50000 from a
    previous balance of 49550, and deposit 0, withdrawal 450, balance
    50000 from a previous balance of 50450. *)
Theorem classifies_by_balance_delta :
  (forall (page_num : nat) (date_str : string) (amounts : list float)
          (description_parts : list string) (previous_balance : float)
          (emitted : list Transaction),
     2 <= List.length amounts ->
     let new_balance := List.last amounts 0%float in
     let delta := (new_balance - previous_balance)%float in
     exists t,
       record_window page_num date_str amounts description_parts
                     previous_balance emitted
       = (new_balance, (emitted ++ [t])%list)
       /\ balance t = new_balance
       /\ ((0 <? delta)%float = true ->
           deposit t = delta /\ deposit t = abs delta
           /\ withdrawal t = 0%float)
       /\ ((delta <=? 0)%float = true ->
           withdrawal t = abs delta /\ deposit t = 0%float))
  /\ parse_individual_transactions [lunch_page] 49550
     = Some [ {| date := "01-08-2025";
                 description := "UPI John abc lunch BANK";
                 deposit := 450; withdrawal := 0; balance := 50000;
                 page := Some 1 |} ]
  /\ parse_individual_transactions [lunch_page] 50450
     = Some [ {| date := "01-08-2025";
                 description := "UPI John abc lunch BANK";
                 deposit := 0; withdrawal := 450; balance := 50000;
                 page := Some 1 |} ].
Proof.
  split; [ | split; vm_compute; reflexivity ].
  intros page_num date_str amounts parts prev emitted Hlen. cbv zeta.
  destruct (record_window_emits page_num date_str amounts parts prev emitted
              Hlen) as (t & Heq & _ & Hbal & _ & Hsplit).
  exists t. unfold last_of in *. split; [ exact Heq | ].
  split; [ exact Hbal | ].
  unfold splits_delta in Hsplit. rewrite Hbal in Hsplit.
  split.
  - intros Hpos. rewrite Hpos in Hsplit. destruct Hsplit as [Hd Hw].
    rewrite (abs_of_pos _ Hpos). auto.
  - intros Hneg. apply leb_zero_not_pos in Hneg. rewrite Hneg in Hsplit.
    tauto.
Qed.

(** The window of the lunch page, seen from a balance of 49550. *)
Lemma classifies_by_balance_delta_witness :
  exists t,
    record_window 1 "01-08-2025" [450%float; 50000%float]
                  ["UPI/John/abc/lunch/BANK"] 49550 []
    = (50000%float, [t])
    /\ balance t = 50000%float
    /\ ((0 <? 50000 - 49550)%float = true ->
        deposit t = (50000 - 49550)%float
        /\ deposit t = abs (50000 - 49550)%float
        /\ withdrawal t = 0%float)
    /\ ((50000 - 49550 <=? 0)%float = true ->
        withdrawal t = abs (50000 - 49550)%float /\ deposit t = 0%float).
Proof.
  apply (proj1 classifies_by_balance_delta 1 "01-08-2025"
           [450%float; 50000%float] ["UPI/John/abc/lunch/BANK"]
           49550%float []).
  simpl. lia.
Defined.

(** The recurrence of C3 as it is worded fails beyond 2^53: from a
    starting balance of 4 the huge-balance page gives a deposit of 2^55
    and a balance of 2^55 + 8, and 4 + 2^55 - 0 is 8 away from it. *)
Lemma recurrence_exceeds_tolerance :
  exists txns,
    parse_individual_transactions [huge_balance_page] 4 = Some txns
    /\ recurrence_within 1 4 txns = false.
Proof.
  eexists. split; vm_compute; reflexivity.
Qed.

(** C3, amended.  The parser returns on every input; in its list every
    transaction has a zero deposit or a zero withdrawal; the two amounts
    of transaction i are the two sides of the binary64 difference between
    its balance and the balance of transaction i-1 (the starting balance
    for the first), so that balance i is balance i-1 plus deposit i minus
    withdrawal i exactly wherever that difference is computed without
    rounding; and the running balance is not reset at a page boundary:
    parsing [ps1 ++ ps2] is going on with [ps2] from the list of [ps1]
    and the balance of its last transaction. *)
Theorem parse_balance_chain (pages_text : list string)
    (starting_balance : float) :
  exists txns,
    parse_individual_transactions pages_text starting_balance = Some txns
    /\ Forall one_sided txns
    /\ delta_chain starting_balance txns
    /\ recurrence_where_unrounded starting_balance txns
    /\ (forall ps1 ps2,
          pages_text = (ps1 ++ ps2)%list ->
          exists txns1,
            parse_individual_transactions ps1 starting_balance = Some txns1
            /\ scan_pages (1 + List.length ps1) ps2
                  (last_balance txns1 starting_balance) txns1
               = Some (last_balance txns starting_balance, txns)).
Proof.
  assert (Hinit : chained starting_balance starting_balance [])
    by (split; [ reflexivity | split; [ exact I | constructor ] ]).
  unfold parse_individual_transactions.
  destruct (scan_pages_returns pages_text 1 starting_balance [])
    as (bal & txns & Hrun).
  exists txns. rewrite Hrun.
  destruct (scan_pages_chained starting_balance _ _ _ _ _ _ Hrun Hinit)
    as (Hbal & Hchain & Hone).
  split; [ reflexivity | ]. split; [ exact Hone | ].
  split; [ exact Hchain | ].
  split; [ apply delta_chain_exact; exact Hchain | ].
  intros ps1 ps2 ->.
  rewrite scan_pages_app in Hrun.
  destruct (scan_pages 1 ps1 starting_balance []) as [[bal1 txns1] | ] eqn:E1;
    [ | discriminate Hrun ].
  exists txns1. split; [ reflexivity | ].
  destruct (scan_pages_chained starting_balance _ _ _ _ _ _ E1 Hinit)
    as (Hbal1 & _ & _).
  rewrite <- Hbal1, <- Hbal. exact Hrun.
Qed.

(** The lunch page followed by the two-dates page, from a balance of
    49550. *)
Lemma parse_balance_chain_witness :
  exists txns,
    parse_individual_transactions [lunch_page; two_dates_page] 49550
    = Some txns
    /\ Forall one_sided txns
    /\ delta_chain 49550 txns
    /\ recurrence_where_unrounded 49550 txns
    /\ (forall ps1 ps2,
          [lunch_page; two_dates_page] = (ps1 ++ ps2)%list ->
          exists txns1,
            parse_individual_transactions ps1 49550 = Some txns1
            /\ scan_pages (1 + List.length ps1) ps2
                  (last_balance txns1 49550) txns1
               = Some (last_balance txns 49550, txns)).
Proof.
  exact (parse_balance_chain [lunch_page; two_dates_page] 49550).
Defined.

End ImportFacts.

(* ===================================================================== *)
(** ** extract_transactions_from_page_text *)
(* ===================================================================== *)

Module OcrFacts.

Import Py Re OcrReader Props.

(** *** The loops terminate *)

Lemma ocr_look_ahead_from (lines : list string) (room : nat) :
  forall j amounts parts j' amounts' parts',
    look_ahead lines room j amounts parts = (j', amounts', parts') ->
    j <= j'.
Proof.
  induction room as [ | room IH]; intros j amounts parts j' amounts' parts' H;
    cbn [look_ahead] in H.
  - injection H as <- _ _. lia.
  - destruct (nth_error lines j) as [raw | ].
    2:{ injection H as <- _ _. lia. }
    destruct (is_date (strip raw)).
    { injection H as <- _ _. lia. }
    destruct (mem (strip raw) _ || contains "Total:" (strip raw)).
    { injection H as <- _ _. lia. }
    destruct (findall_amounts (strip raw)) as [ | a found].
    + apply IH in H. lia.
    + destruct (2 <=? _)%nat.
      * injection H as <- _ _. lia.
      * apply IH in H. lia.
Qed.

Lemma ocr_loop_body_advances (page_num : nat) (lines : list string)
    (raw : string) (st : State) :
  i st < i (loop_body page_num lines raw st).
Proof.
  unfold loop_body.
  destruct (date_pattern_match (strip raw)) as [date_str | ]; [ | simpl; lia ].
  destruct (match nth_error lines (i st + 1) with
            | Some next_raw => _
            | None => false
            end); [ simpl; lia | ].
  destruct (look_ahead lines 9 (i st + 1) [] []) as [[j amounts] parts] eqn:E.
  apply ocr_look_ahead_from in E.
  destruct (classify _ _ _ _ _) as [[dep wd] bal]. simpl. lia.
Qed.

Lemma ocr_scan_lines_returns (page_num : nat) (lines : list string) :
  forall fuel st,
    List.length lines - i st <= fuel ->
    exists st', scan_lines fuel page_num lines st = Some st'.
Proof.
  induction fuel as [ | fuel IH]; intros st Hfuel; simpl;
    destruct (nth_error lines (i st)) as [raw | ] eqn:E; eauto.
  - assert (i st < List.length lines)
      by (apply nth_error_Some; congruence).
    lia.
  - apply IH.
    pose proof (ocr_loop_body_advances page_num lines raw st). lia.
Qed.

(** [extract_transactions_from_page_text] returns on every input. *)
Lemma extract_page_returns (page_text : string) (page_num : nat) :
  exists txns,
    extract_transactions_from_page_text page_text page_num = Some txns.
Proof.
  unfold extract_transactions_from_page_text.
  destruct (ocr_scan_lines_returns page_num (split "010" page_text)
              (List.length (split "010" page_text))
              {| i := 0; transactions := [] |}) as [st' ->];
    [ simpl; lia | simpl; eauto ].
Qed.

Lemma collect_pages_returns (starting_balance : float)
    (pages_text : list string) :
  forall i all_transactions,
    exists txns,
      collect_pages starting_balance i pages_text all_transactions
      = Some txns.
Proof.
  induction pages_text as [ | page_text rest IH]; intros i0 acc; simpl.
  - eauto.
  - destruct (extract_page_returns page_text i0) as [txns ->]. apply IH.
Qed.

(** On a document with a page, [extract_all_transactions_from_pdf]
    returns, and its starting balance is the one found on the first
    page. *)
Lemma extract_all_returns (first_page : string) (rest : list string) :
  exists e,
    extract_all_transactions_from_pdf (first_page :: rest) = Returns e
    /\ ex_starting_balance e = opening_balance 10000 first_page.
Proof.
  unfold extract_all_transactions_from_pdf.
  destruct (collect_pages_returns (opening_balance 10000 first_page)
              (first_page :: rest) 1 []) as [txns ->].
  eexists. split; reflexivity.
Qed.

(** *** A window without amounts *)


(** A date line whose next line is a marker: the date line alone is
    stepped over, and the marker line is left to the next turn. *)
Lemma ocr_loop_body_on_marker (page_num : nat) (lines : list string)
    (raw next_raw date_str : string) (st : State) :
  date_pattern_match (strip raw) = Some date_str ->
  nth_error lines (i st + 1) = Some next_raw ->
  (strip next_raw = "B/F" \/ strip next_raw = "C/F"
   \/ contains "Total:" (strip next_raw) = true) ->
  loop_body page_num lines raw st
  = {| i := i st + 1; transactions := transactions st |}.
Proof.
  intros Hdate Hnext Hmarker. unfold loop_body. rewrite Hdate, Hnext.
  destruct Hmarker as [-> | [Hcf | Htotal]].
  - reflexivity.
  - rewrite Hcf. cbn [look_ahead]. rewrite Hnext, Hcf. reflexivity.
  - rewrite Htotal, orb_true_r. reflexivity.
Qed.




(** *** The line after a marker-bearing date line *)

(** C5 at its failing input.  On the dated-total page the second line
    holds "Total:" and starts with a date.  This reader steps over the
    first line only, reads the second as a date line and records a
    transaction for it; [parse_individual_transactions] steps over both
    lines and records nothing. *)
Theorem marker_line_is_scanned_again :
  extract_transactions_from_page_text dated_total_page 1
  = Some [ {| date := "02-08-2025"; description := "Transaction";
              deposit := 450; withdrawal := 0; balance := 50000;
              page := None |} ]
  /\ loop_body 1 (split "010" dated_total_page) "01-08-2025"
       {| i := 0; transactions := [] |}
     = {| i := 1; transactions := [] |}
  /\ ImportDetailed.parse_individual_transactions [dated_total_page] 0
     = Some [].
Proof.
  split; [ | split ]; vm_compute; reflexivity.
Qed.

End OcrFacts.

(* ===================================================================== *)
(** ** Opening balance discovery *)
(* ===================================================================== *)

Module OpeningFacts.

Import Py Re OcrReader Props.

(** *** The probe and the scan *)

(** The probe hands back the balance it was given, or an amount above the
    floor. *)
Lemma probe_after_result (floor : float) (lines : list string) (idx : nat)
    (js : list nat) (sb : float) :
  probe_after floor lines idx js sb = sb
  \/ (floor <? probe_after floor lines idx js sb)%float = true.
Proof.
  induction js as [ | j js IH]; simpl; [ auto | ].
  destruct (nth_error lines (idx + j)) as [l | ]; [ | exact IH ].
  destruct (search_grouped_amount l) as [m | ]; [ | exact IH ].
  destruct (floor <? amount_value m)%float eqn:E; [ auto | exact IH ].
Qed.

(** Without a plausible amount in its range the probe changes nothing. *)
Lemma probe_after_nothing (floor : float) (lines : list string) (idx : nat)
    (js : list nat) (sb : float) :
  (forall j, In j js -> 1 <= j <= 4) ->
  ~ plausible_amount_after floor lines idx ->
  probe_after floor lines idx js sb = sb.
Proof.
  intros Hrange Hnone.
  induction js as [ | j js IH]; simpl; [ reflexivity | ].
  assert (IH' : probe_after floor lines idx js sb = sb)
    by (apply IH; intros k Hk; apply Hrange; right; exact Hk).
  destruct (nth_error lines (idx + j)) as [l | ] eqn:El; [ | exact IH' ].
  destruct (search_grouped_amount l) as [m | ] eqn:Em; [ | exact IH' ].
  destruct (floor <? amount_value m)%float eqn:E; [ | exact IH' ].
  exfalso. apply Hnone. exists j, l, m.
  split; [ apply Hrange; left; reflexivity | auto ].
Qed.

(** The scan hands back the balance it was given, or an amount above the
    floor. *)
Lemma find_brought_forward_result (floor : float) (lines : list string) :
  forall todo idx sb,
    find_brought_forward floor lines idx todo sb = sb
    \/ (floor <? find_brought_forward floor lines idx todo sb)%float = true.
Proof.
  induction todo as [ | line todo IH]; intros idx sb;
    cbn [find_brought_forward]; [ auto | ].
  destruct (String.eqb (strip line) "B/F" && (idx + 1 <? _)%nat);
    [ | apply IH ].
  pose proof (probe_after_result floor lines idx [1; 2; 3; 4] sb) as Hp.
  set (p := probe_after floor lines idx [1; 2; 3; 4] sb) in *.
  destruct (0 <? p)%float; [ exact Hp | ].
  destruct Hp as [Hsame | Habove].
  - rewrite Hsame. apply IH.
  - destruct (IH (S idx) p) as [Hsame' | Habove'].
    + rewrite Hsame'. right. exact Habove.
    + right. exact Habove'.
Qed.

Lemma skipn_cons_nth {A : Type} (l : list A) :
  forall idx a t,
    skipn idx l = a :: t ->
    nth_error l idx = Some a /\ skipn (S idx) l = t.
Proof.
  induction l as [ | x l IH]; intros idx a t H.
  - destruct idx; discriminate H.
  - destruct idx as [ | idx].
    + simpl in H. injection H as -> ->. split; reflexivity.
    + simpl in H. apply IH in H. exact H.
Qed.

(** Without a marker that has a plausible amount after it, the scan
    changes nothing. *)
Lemma find_brought_forward_nothing (floor : float) (lines : list string) :
  ~ opening_balance_located floor lines ->
  forall todo idx sb,
    skipn idx lines = todo ->
    find_brought_forward floor lines idx todo sb = sb.
Proof.
  intros Hnone.
  induction todo as [ | line todo IH]; intros idx sb Hsuffix;
    cbn [find_brought_forward]; [ reflexivity | ].
  apply skipn_cons_nth in Hsuffix. destruct Hsuffix as [Hline Hrest].
  destruct (String.eqb (strip line) "B/F") eqn:Emark; cbn [andb];
    [ | apply IH; exact Hrest ].
  destruct (idx + 1 <? List.length lines)%nat; [ | apply IH; exact Hrest ].
  rewrite probe_after_nothing.
  - destruct (0 <? sb)%float; [ reflexivity | apply IH; exact Hrest ].
  - simpl. intros j Hj. lia.
  - intros Hplausible. apply Hnone. exists idx. split; [ | exact Hplausible ].
    exists line. split; [ exact Hline | ].
    apply String.eqb_eq. exact Emark.
Qed.

Lemma opening_balance_nothing (floor : float) (page_text : string) :
  ~ opening_balance_located floor (split "010" page_text) ->
  opening_balance floor page_text = 0%float.
Proof.
  intros Hnone. unfold opening_balance.
  apply find_brought_forward_nothing; [ exact Hnone | reflexivity ].
Qed.

(** *** The page loop of process_bank_statement *)

Section WithSummarizer.

Variable llm : string -> nat -> PageTotals.

(** After the first page the starting balance is not looked for again. *)
Lemma page_loop_keeps_start (pages_text : list string) :
  forall i acc,
    2 <= i ->
    t_starting_balance (page_loop llm i pages_text acc)
    = t_starting_balance acc.
Proof.
  induction pages_text as [ | page_text rest IH]; intros i0 acc Hi; simpl;
    [ reflexivity | ].
  rewrite IH by lia. unfold page_step. cbn [t_starting_balance].
  destruct i0 as [ | [ | i0]]; [ lia | lia | reflexivity ].
Qed.

(** The starting balance the page loop ends with is the one discovered on
    the first page. *)
Lemma page_loop_start (first_page : string) (rest : list string) :
  t_starting_balance
    (page_loop llm 1 (first_page :: rest) (mkTotals 0 0 0 0))
  = opening_balance 100000 first_page.
Proof.
  cbn [page_loop]. rewrite page_loop_keeps_start by lia.
  reflexivity.
Qed.

End WithSummarizer.

(** *** A marker with its amount *)

Lemma find_brought_forward_skips (floor : float) (lines : list string) :
  forall pre idx tail sb,
    Forall (fun l => strip l <> "B/F") pre ->
    find_brought_forward floor lines idx (pre ++ tail) sb
    = find_brought_forward floor lines (idx + List.length pre) tail sb.
Proof.
  induction pre as [ | a pre IH]; intros idx tail sb Hpre.
  - simpl. rewrite Nat.add_0_r. reflexivity.
  - inversion Hpre as [ | ? ? Ha Hpre' ]; subst.
    change ((a :: pre) ++ tail)%list with (a :: (pre ++ tail))%list.
    cbn [find_brought_forward].
    apply String.eqb_neq in Ha. rewrite Ha. cbn [andb].
    rewrite IH by exact Hpre'. cbn [List.length].
    rewrite Nat.add_succ_r. reflexivity.
Qed.

Lemma nth_error_past {A : Type} (pre rest : list A) (j : nat) :
  nth_error (pre ++ rest) (List.length pre + j) = nth_error rest j.
Proof.
  induction pre as [ | a pre IH]; [ reflexivity | exact IH ].
Qed.

(** The first grouped amount found in the four lines after the first
    marker is taken when it is above the floor. *)
Lemma find_brought_forward_accepts (floor : float)
    (pre : list string) (marker : string) (mid : list string)
    (amount_line : string) (post : list string) (m : string) :
  Forall (fun l => strip l <> "B/F") pre ->
  strip marker = "B/F" ->
  List.length mid <= 3 ->
  Forall (fun l => search_grouped_amount l = None) mid ->
  search_grouped_amount amount_line = Some m ->
  (floor <? amount_value m)%float = true ->
  (0 <? amount_value m)%float = true ->
  find_brought_forward floor
    (pre ++ marker :: mid ++ amount_line :: post) 0
    (pre ++ marker :: mid ++ amount_line :: post) 0%float
  = amount_value m.
Proof.
  intros Hpre Hmarker Hmid Hnone Hfound Habove Hpos.
  set (lines := (pre ++ marker :: mid ++ amount_line :: post)%list).
  unfold lines at 2.
  rewrite find_brought_forward_skips by exact Hpre.
  cbn [find_brought_forward Nat.add].
  rewrite Hmarker. cbn [String.eqb Ascii.eqb Bool.eqb andb].
  assert (Hlen : (List.length pre + 1 <? List.length lines)%nat = true).
  { apply Nat.ltb_lt. unfold lines. rewrite length_app. cbn [List.length].
    rewrite length_app. cbn [List.length]. lia. }
  rewrite Hlen.
  assert (Hprobe :
    probe_after floor lines (List.length pre) [1; 2; 3; 4] 0%float
    = amount_value m).
  { unfold lines. cbn [probe_after].
    rewrite !nth_error_past.
    destruct mid as [ | a [ | b [ | c [ | d mid]]]];
      [ | | | | simpl in Hmid; lia ];
      repeat match goal with
             | H : Forall _ (_ :: _) |- _ =>
                 let Hx := fresh "Hx" in
                 let Hr := fresh "Hr" in
                 inversion H as [ | ? ? Hx Hr ]; subst; clear H
             end;
      cbn [nth_error app];
      repeat match goal with
             | H : search_grouped_amount _ = None |- _ => rewrite H; clear H
             end;
      rewrite Hfound, Habove; reflexivity. }
  rewrite Hprobe, Hpos. reflexivity.
Qed.

(** *** The claims on the opening balance *)

(** The unmarked page has no brought-forward marker. *)
Lemma unmarked_page_has_no_marker (floor : float) :
  ~ opening_balance_located floor (split "010" unmarked_page).
Proof.
  intros (idx & (l & Hl & Hs) & _).
  destruct idx as [ | idx].
  - injection Hl as <-. vm_compute in Hs. discriminate Hs.
  - destruct idx; discriminate Hl.
Qed.

(** The claim C6 as it is worded fails on [process_bank_statement]: the
    unmarked page has no brought-forward marker, and with the totals of
    scenario C the starting balance is 102000 - 5000 + 3000. *)
Lemma starting_balance_is_derived :
  ~ opening_balance_located 100000 (split "010" unmarked_page)
  /\ starting_balance (process_bank_statement scenario_totals [unmarked_page])
     = 100000%float
  /\ (100000 =? 0)%float = false.
Proof.
  split; [ apply unmarked_page_has_no_marker | ].
  split; vm_compute; reflexivity.
Qed.

(** C6, amended.  When the first page has no brought-forward marker with
    a plausible amount after it, [extract_all_transactions_from_pdf]
    returns a starting balance of 0; [process_bank_statement] returns 0
    when no page reported a balance above zero, and otherwise the value
    derived from the totals: final balance minus total deposits plus total
    withdrawals, whatever that value is. *)
Theorem opening_balance_not_found :
  (forall (first_page : string) (rest : list string),
     ~ opening_balance_located 10000 (split "010" first_page) ->
     exists e,
       extract_all_transactions_from_pdf (first_page :: rest) = Returns e
       /\ ex_starting_balance e = 0%float)
  /\ (forall (llm : string -> nat -> PageTotals) (first_page : string)
             (rest : list string),
        ~ opening_balance_located 100000 (split "010" first_page) ->
        let s := process_bank_statement llm (first_page :: rest) in
        starting_balance s
        = if (0 <? final_balance s)%float
          then (final_balance s - total_deposits s
                + total_withdrawals s)%float
          else 0%float).
Proof.
  split.
  - intros first_page rest Hnone.
    destruct (OcrFacts.extract_all_returns first_page rest) as (e & He & Hs).
    exists e. split; [ exact He | ].
    rewrite Hs. apply opening_balance_nothing. exact Hnone.
  - intros llm first_page rest Hnone. cbv zeta.
    unfold process_bank_statement.
    cbn [starting_balance final_balance total_deposits total_withdrawals].
    rewrite page_loop_start, (opening_balance_nothing _ _ Hnone).
    change (0 =? 0)%float with true. cbn [andb].
    reflexivity.
Qed.

(** The unmarked page, alone in its document. *)
Lemma opening_balance_not_found_witness :
  exists e,
    extract_all_transactions_from_pdf [unmarked_page] = Returns e
    /\ ex_starting_balance e = 0%float.
Proof.
  apply (proj1 opening_balance_not_found unmarked_page []).
  apply unmarked_page_has_no_marker.
Defined.

(** An opening balance is 0 or above the floor, never 5000. *)
Lemma opening_balance_not_5000 (floor : float) (page_text : string) :
  (floor <? 5000)%float = false ->
  opening_balance floor page_text <> amount_value "5,000.00".
Proof.
  intros Hfloor Heq.
  assert (Hv : amount_value "5,000.00" = 5000%float)
    by (vm_compute; reflexivity).
  rewrite Hv in Heq. unfold opening_balance in Heq.
  destruct (find_brought_forward_result floor (split "010" page_text)
              (split "010" page_text) 0 0%float) as [Hzero | Habove];
    rewrite Heq in *.
  - assert (E : (0 <? 5000)%float = true) by reflexivity.
    rewrite Hzero in E. discriminate E.
  - rewrite Hfloor in Habove. discriminate Habove.
Qed.

(** C7.  Opening-balance discovery never takes "5,000.00" as the starting
    balance: neither [extract_all_transactions_from_pdf] nor the page loop
    of [process_bank_statement] ends with it, and a marker followed by it
    alone gives 0.  When the first thousands-separated amount within the
    four lines after the first marker of the first page is "125,430.50",
    it is the starting balance both functions return. *)
Theorem opening_balance_plausibility :
  (forall (first_page : string) (rest : list string),
     (exists e,
        extract_all_transactions_from_pdf (first_page :: rest) = Returns e
        /\ ex_starting_balance e <> amount_value "5,000.00")
     /\ (forall llm : string -> nat -> PageTotals,
           t_starting_balance
             (page_loop llm 1 (first_page :: rest) (mkTotals 0 0 0 0))
           <> amount_value "5,000.00"))
  /\ (opening_balance 10000 (marked_page "5,000.00") = 0%float
      /\ opening_balance 100000 (marked_page "5,000.00") = 0%float)
  /\ (forall (first_page : string) (rest pre : list string)
             (marker : string) (mid : list string) (amount_line : string)
             (post : list string),
        split "010" first_page
          = (pre ++ marker :: mid ++ amount_line :: post)%list ->
        Forall (fun l => strip l <> "B/F") pre ->
        strip marker = "B/F" ->
        List.length mid <= 3 ->
        Forall (fun l => search_grouped_amount l = None) mid ->
        search_grouped_amount amount_line = Some "125,430.50" ->
        (exists e,
           extract_all_transactions_from_pdf (first_page :: rest) = Returns e
           /\ ex_starting_balance e = 125430.5%float)
        /\ (forall llm : string -> nat -> PageTotals,
              starting_balance
                (process_bank_statement llm (first_page :: rest))
              = 125430.5%float)).
Proof.
  split; [ | split ].
  - intros first_page rest. split.
    + destruct (OcrFacts.extract_all_returns first_page rest)
        as (e & He & Hs).
      exists e. split; [ exact He | ]. rewrite Hs.
      apply opening_balance_not_5000. reflexivity.
    + intros llm. rewrite page_loop_start.
      apply opening_balance_not_5000. reflexivity.
  - split; vm_compute; reflexivity.
  - intros first_page rest pre marker mid amount_line post
           Hlines Hpre Hmarker Hmid Hnone Hfound.
    assert (Hv : amount_value "125,430.50" = 125430.5%float)
      by (vm_compute; reflexivity).
    assert (Hopen : forall floor,
              (floor <? 125430.5)%float = true ->
              opening_balance floor first_page = 125430.5%float).
    { intros floor Hfloor. unfold opening_balance. rewrite Hlines.
      rewrite <- Hv.
      apply find_brought_forward_accepts; try assumption.
      rewrite Hv. reflexivity. }
    split.
    + destruct (OcrFacts.extract_all_returns first_page rest)
        as (e & He & Hs).
      exists e. split; [ exact He | ].
      rewrite Hs. apply Hopen. reflexivity.
    + intros llm. unfold process_bank_statement.
      cbn [starting_balance].
      rewrite page_loop_start, (Hopen 100000%float) by reflexivity.
      change (125430.5 =? 0)%float with false. cbn [andb]. reflexivity.
Qed.

(** A first page that is the marker and the amount. *)
Lemma opening_balance_plausibility_witness :
  (exists e,
     extract_all_transactions_from_pdf [marked_page "125,430.50"] = Returns e
     /\ ex_starting_balance e = 125430.5%float)
  /\ (forall llm : string -> nat -> PageTotals,
        starting_balance
          (process_bank_statement llm [marked_page "125,430.50"])
        = 125430.5%float).
Proof.
  apply (proj2 (proj2 opening_balance_plausibility)
           (marked_page "125,430.50") [] [] "B/F" [] "125,430.50" []);
    try reflexivity.
  - constructor.
  - simpl. lia.
  - constructor.
Defined.

End OpeningFacts.

(* ===================================================================== *)
(** ** parse_date *)
(* ===================================================================== *)

Module DateFacts.

Import Py ImportDetailed Props.

(** *** Digits *)

Lemma digit_is_plain (c : ascii) :
  isdigit c = true ->
  int_isspace c = false /\ Ascii.eqb c "-" = false.
Proof.
  destruct c as [[ | ] [ | ] [ | ] [ | ] [ | ] [ | ] [ | ] [ | ]];
    vm_compute; intros H; try discriminate H; split; reflexivity.
Qed.


(** A digit is not taken for a sign. *)
Lemma digit_is_no_sign (c : ascii) (r : string) :
  isdigit c = true -> split_sign (String c r) = (false, String c r).
Proof.
  unfold split_sign.
  destruct c as [[ | ] [ | ] [ | ] [ | ] [ | ] [ | ] [ | ] [ | ]];
    vm_compute; intros H; try discriminate H; reflexivity.
Qed.

Lemma drop_digits (s : string) :
  all_digits s = true -> drop_trailing_space s = s.
Proof.
  induction s as [ | c s IH]; [ reflexivity | ].
  cbn [all_digits drop_trailing_space]. intros H. apply andb_true_iff in H.
  destruct H as [Hc Hs]. rewrite (IH Hs).
  destruct s; [ | reflexivity ].
  destruct (digit_is_plain c Hc) as [-> _]. reflexivity.
Qed.

Lemma skip_digits (s : string) : all_digits s = true -> skip_space s = s.
Proof.
  destruct s as [ | c s]; [ reflexivity | ].
  cbn [all_digits skip_space]. intros H. apply andb_true_iff in H.
  destruct (digit_is_plain c (proj1 H)) as [-> _]. reflexivity.
Qed.

Lemma literal_digits_all (s : string) :
  forall after_digit acc n,
    all_digits s = true ->
    (after_digit = true \/ s <> EmptyString) ->
    literal_digits after_digit acc n s
    = Some (Dec.digits_value acc s, n + String.length s).
Proof.
  induction s as [ | c s IH]; intros after_digit acc n Hall Hne.
  - destruct Hne as [-> | Hne]; [ | contradiction ].
    simpl. rewrite Nat.add_0_r. reflexivity.
  - cbn [all_digits] in Hall. apply andb_true_iff in Hall.
    destruct Hall as [Hc Hs].
    cbn [literal_digits Dec.digits_value String.length]. rewrite Hc.
    rewrite IH by auto. rewrite Nat.add_succ_r. reflexivity.
Qed.

(** [int] reads a run of digits as its value in base ten. *)
Lemma py_int_digits (max_str_digits : nat) (s : string) :
  all_digits s = true ->
  s <> EmptyString ->
  max_str_digits = 0 \/ String.length s <= max_str_digits ->
  py_int max_str_digits s = Some (Dec.digits_value 0 s).
Proof.
  intros Hall Hne Hlimit. unfold py_int.
  rewrite (skip_digits s Hall).
  destruct s as [ | c r]; [ contradiction | ].
  pose proof Hall as Hc. cbn [all_digits] in Hc. apply andb_true_iff in Hc.
  rewrite (digit_is_no_sign c r (proj1 Hc)).
  rewrite (drop_digits _ Hall).
  rewrite literal_digits_all by auto.
  assert ((0 <? max_str_digits)%nat
          && (max_str_digits <? 0 + String.length (String c r))%nat = false)
    as ->; [ | reflexivity ].
  destruct Hlimit as [-> | Hle]; [ reflexivity | ].
  apply andb_false_iff. right. apply Nat.ltb_ge. simpl in *. lia.
Qed.

(** *** Fields between separators *)





(** *** White space around a literal *)








(** *** The digits of a literal *)



(** *** int *)





(** *** The claims on parse_date *)


(** The leniency ends where that of [int] ends: a field that starts with
    the separator 0x1c, which [str.strip] would remove, is refused. *)
Lemma separator_is_not_skipped :
  parse_date 4300 (mkDate 2026 11 3) (String "028" "1-8-2025")
  = mkDate 2026 11 3.
Proof. reflexivity. Qed.



End DateFacts.

(* ===================================================================== *)
(** ** What parse_individual_transactions writes *)
(* ===================================================================== *)

Module ParserShape.

Import Py Re ImportDetailed Props MoreProps.

(** *** Text *)

Lemma take_length (n : nat) : forall s, String.length (take n s) <= n.
Proof.
  unfold take. induction n as [ | n IH]; intros s.
  - destruct s; simpl; lia.
  - destruct s as [ | c s]; simpl; [ lia | ].
    specialize (IH s). lia.
Qed.

Lemma contains_slash_cons (c : ascii) (s : string) :
  contains "/" (String c s) = Ascii.eqb c "/" || contains "/" s.
Proof.
  cbn [contains prefix].
  destruct (ascii_dec "/" c) as [<- | Hne].
  - destruct s; reflexivity.
  - assert (Ascii.eqb c "/" = false) as ->; [ | reflexivity ].
    apply Ascii.eqb_neq. congruence.
Qed.

Lemma replace_slash_clean (s : string) :
  contains "/" (replace "/" " " s) = false.
Proof.
  induction s as [ | c s IH]; [ reflexivity | ].
  cbn [replace].
  destruct (Ascii.eqb c "/") eqn:E.
  - change (" " ++ replace "/" " " s)
      with (String " " (replace "/" " " s)).
    rewrite contains_slash_cons, IH. reflexivity.
  - rewrite contains_slash_cons, E, IH. reflexivity.
Qed.

Lemma take_clean (n : nat) :
  forall s, contains "/" s = false -> contains "/" (take n s) = false.
Proof.
  unfold take. induction n as [ | n IH]; intros s H.
  - destruct s; reflexivity.
  - destruct s as [ | c s]; [ reflexivity | ].
    rewrite contains_slash_cons in H. apply orb_false_iff in H.
    destruct H as [Hc Hs].
    change (substring 0 (S n) (String c s))
      with (String c (substring 0 n s)).
    rewrite contains_slash_cons, Hc, (IH s Hs). reflexivity.
Qed.

(** The text matched by the date pattern is DD-MM-YYYY to the letter. *)
Lemma date_pattern_match_strict (line d : string) :
  date_pattern_match line = Some d -> strict_date d.
Proof.
  unfold date_pattern_match, strict_date.
  destruct line as [ | d1 [ | d2 [ | h1 [ | m1 [ | m2 [ | h2 [ | y1
    [ | y2 [ | y3 [ | y4 rest]]]]]]]]]]; try discriminate.
  destruct (isdigit d1 && isdigit d2 && Ascii.eqb h1 "-" && isdigit m1
            && isdigit m2 && Ascii.eqb h2 "-" && isdigit y1 && isdigit y2
            && isdigit y3 && isdigit y4) eqn:E; [ | discriminate ].
  intros H. injection H as <-.
  assert (Hd : take 10 (String d1 (String d2 (String h1 (String m1
                 (String m2 (String h2 (String y1 (String y2 (String y3
                 (String y4 rest))))))))))
               = String d1 (String d2 (String h1 (String m1 (String m2
                   (String h2 (String y1 (String y2 (String y3
                   (String y4 EmptyString)))))))))).
  { unfold take. cbn [substring]. destruct rest; reflexivity. }
  rewrite Hd. cbn [strict_date_fields]. rewrite E. eauto.
Qed.

(** *** One window *)

(** [record_window] leaves the list as it is or appends one transaction,
    written as [recorded_on] says. *)
Lemma record_window_recorded (page_num : nat) (date_str : string)
    (amounts : list float) (parts : list string) (bal : float)
    (txns : list Transaction) :
  strict_date date_str ->
  snd (record_window page_num date_str amounts parts bal txns) = txns
  \/ exists t,
       snd (record_window page_num date_str amounts parts bal txns)
       = (txns ++ [t])%list
       /\ recorded_on page_num t.
Proof.
  intros Hdate. unfold record_window.
  destruct (2 <=? List.length amounts)%nat; [ right | left; reflexivity ].
  set (d := take 100 (replace "/" " " (join " " (firstn 3 parts)))).
  assert (Hlen : String.length d <= 100) by apply take_length.
  assert (Hclean : contains "/" d = false)
    by (apply take_clean, replace_slash_clean).
  destruct (0 <? last_of amounts 0 - bal)%float;
    eexists; (split; [ reflexivity | ]);
    unfold recorded_on; cbn [page date description];
    (split; [ reflexivity | ]); (split; [ exact Hdate | ]);
    destruct d as [ | c d']; cbn [truthy];
    repeat split; try discriminate; try assumption;
    try reflexivity; try (simpl; lia).
Qed.

(** *** Date lines left to scan *)

Lemma skipn_nth {A : Type} (l : list A) :
  forall i a, nth_error l i = Some a -> skipn i l = a :: skipn (S i) l.
Proof.
  induction l as [ | x l IH]; intros i0 a H.
  - destruct i0; discriminate H.
  - destruct i0 as [ | i0].
    + injection H as <-. reflexivity.
    + simpl in H. apply IH in H. simpl. exact H.
Qed.

Lemma date_lines_from_step (lines : list string) (i0 : nat) (raw : string) :
  nth_error lines i0 = Some raw ->
  date_lines_from lines i0
  = (if is_date (strip raw) then 1 else 0) + date_lines_from lines (S i0).
Proof.
  intros H. unfold date_lines_from. rewrite (skipn_nth lines i0 raw H).
  cbn [filter]. destruct (is_date (strip raw)); reflexivity.
Qed.

Lemma date_lines_from_succ (lines : list string) (i0 : nat) :
  date_lines_from lines (S i0) <= date_lines_from lines i0.
Proof.
  destruct (nth_error lines i0) as [raw | ] eqn:E.
  - rewrite (date_lines_from_step lines i0 raw E). lia.
  - apply nth_error_None in E. unfold date_lines_from.
    rewrite (skipn_all2 lines) by lia. simpl. lia.
Qed.

Lemma date_lines_from_mono (lines : list string) (i0 j : nat) :
  i0 <= j -> date_lines_from lines j <= date_lines_from lines i0.
Proof.
  induction 1 as [ | j Hle IH]; [ lia | ].
  pose proof (date_lines_from_succ lines j). lia.
Qed.

(** *** The loops *)

(** One turn of the loop appends nothing or one transaction of the page,
    and uses up a date line for it. *)
Lemma loop_body_appends (page_num : nat) (lines : list string)
    (raw : string) (st : State) :
  nth_error lines (i st) = Some raw ->
  exists new,
    all_transactions (loop_body page_num lines raw st)
    = (all_transactions st ++ new)%list
    /\ Forall (recorded_on page_num) new
    /\ List.length new
         + date_lines_from lines (i (loop_body page_num lines raw st))
       <= date_lines_from lines (i st).
Proof.
  intros Hraw. rewrite (date_lines_from_step lines (i st) raw Hraw).
  unfold loop_body, is_date.
  destruct (date_pattern_match (strip raw)) as [date_str | ] eqn:Edate.
  2:{ exists []. cbn [i all_transactions]. rewrite app_nil_r, Nat.add_1_r.
      split; [ reflexivity | ]. split; [ constructor | simpl; lia ]. }
  destruct (match nth_error lines (i st + 1) with
            | Some next_raw => is_marker (strip next_raw)
            | None => false
            end).
  { exists []. cbn [i all_transactions]. rewrite app_nil_r.
    split; [ reflexivity | ]. split; [ constructor | ].
    pose proof (date_lines_from_mono lines (S (i st)) (i st + 2)).
    simpl. lia. }
  destruct (look_ahead lines 9 (i st + 1) [] []) as [[j amounts] parts]
    eqn:Elook.
  apply ImportFacts.look_ahead_from in Elook.
  pose proof (date_lines_from_mono lines (S (i st)) j) as Hmono.
  pose proof (record_window_recorded page_num date_str amounts parts
                (current_balance st) (all_transactions st)
                (date_pattern_match_strict _ _ Edate)) as Hrec.
  destruct (record_window page_num date_str amounts parts
              (current_balance st) (all_transactions st)) as [bal txns].
  cbn [snd] in Hrec. cbn [i all_transactions].
  destruct Hrec as [-> | (t & -> & Ht)].
  - exists []. rewrite app_nil_r.
    split; [ reflexivity | ]. split; [ constructor | simpl; lia ].
  - exists [t]. split; [ reflexivity | ].
    split; [ constructor; [ exact Ht | constructor ] | simpl; lia ].
Qed.

Lemma scan_lines_appends (page_num : nat) (lines : list string) :
  forall fuel st st',
    scan_lines fuel page_num lines st = Some st' ->
    exists new,
      all_transactions st' = (all_transactions st ++ new)%list
      /\ Forall (recorded_on page_num) new
      /\ List.length new <= date_lines_from lines (i st).
Proof.
  induction fuel as [ | fuel IH]; intros st st' Hrun; simpl in Hrun;
    destruct (nth_error lines (i st)) as [raw | ] eqn:Eraw;
    try discriminate Hrun;
    try (injection Hrun as <-; exists []; rewrite app_nil_r;
         split; [ reflexivity | split; [ constructor | simpl; lia ] ]).
  destruct (IH _ _ Hrun) as (new2 & Heq2 & Hall2 & Hlen2).
  destruct (loop_body_appends page_num lines raw st Eraw)
    as (new1 & Heq1 & Hall1 & Hlen1).
  exists (new1 ++ new2)%list.
  split; [ rewrite Heq2, Heq1, app_assoc; reflexivity | ].
  split; [ apply Forall_app; auto | ].
  rewrite length_app. lia.
Qed.

Lemma scan_page_appends (page_num : nat) (page_text : string)
    (bal : float) (txns : list Transaction) (bal' : float)
    (txns' : list Transaction) :
  scan_page page_num page_text bal txns = Some (bal', txns') ->
  exists new,
    txns' = (txns ++ new)%list
    /\ Forall (recorded_on page_num) new
    /\ List.length new <= date_line_count page_text.
Proof.
  unfold scan_page. intros Hrun.
  destruct (scan_lines _ _ _ _) as [st' | ] eqn:E; [ | discriminate Hrun ].
  injection Hrun as <- <-.
  apply scan_lines_appends in E. exact E.
Qed.

Lemma pages_within_lower (hi : nat) (txns : list Transaction) :
  forall lo lo', lo <= lo' -> pages_within lo' hi txns ->
                 pages_within lo hi txns.
Proof.
  destruct txns as [ | t rest]; intros lo lo' Hle H; [ exact I | ].
  destruct H as (k & Hk & Hb & Hrest). exists k.
  split; [ exact Hk | ]. split; [ lia | exact Hrest ].
Qed.

Lemma pages_within_app (page_num hi : nat) (new : list Transaction) :
  forall lo rest,
    lo <= page_num <= hi ->
    Forall (recorded_on page_num) new ->
    pages_within (S page_num) hi rest ->
    pages_within lo hi (new ++ rest).
Proof.
  induction new as [ | t new IH]; intros lo rest Hb Hall Hrest.
  - apply (pages_within_lower hi rest lo (S page_num)); [ lia | exact Hrest ].
  - inversion Hall as [ | ? ? Ht Hall' ]; subst.
    exists page_num. split; [ apply Ht | ]. split; [ exact Hb | ].
    apply IH; [ lia | exact Hall' | exact Hrest ].
Qed.

Lemma scan_pages_appends (pages_text : list string) :
  forall page_num bal txns bal' txns' hi,
    scan_pages page_num pages_text bal txns = Some (bal', txns') ->
    page_num + List.length pages_text <= S hi ->
    exists new,
      txns' = (txns ++ new)%list
      /\ Forall (fun t => exists k, recorded_on k t) new
      /\ pages_within page_num hi new
      /\ List.length new <= total_date_lines pages_text.
Proof.
  induction pages_text as [ | page_text rest IH];
    intros page_num bal txns bal' txns' hi Hrun Hhi; simpl in Hrun.
  - injection Hrun as <- <-. exists []. rewrite app_nil_r.
    split; [ reflexivity | ]. split; [ constructor | ].
    split; [ exact I | simpl; lia ].
  - destruct (scan_page page_num page_text bal txns) as [[b1 t1] | ] eqn:E;
      [ | discriminate Hrun ].
    destruct (scan_page_appends _ _ _ _ _ _ E) as (new1 & -> & Hall1 & Hlen1).
    cbn [List.length] in Hhi.
    destruct (IH (S page_num) b1 _ bal' txns' hi Hrun ltac:(lia))
      as (new2 & -> & Hall2 & Hpages2 & Hlen2).
    exists (new1 ++ new2)%list.
    split; [ rewrite app_assoc; reflexivity | ].
    split.
    { apply Forall_app. split; [ | exact Hall2 ].
      apply (Forall_impl _ (fun t H => ex_intro _ page_num H) Hall1). }
    split; [ apply (pages_within_app page_num); [ lia | assumption.. ] | ].
    rewrite length_app.
    change (total_date_lines (page_text :: rest))
      with (date_line_count page_text + total_date_lines rest).
    lia.
Qed.

End ParserShape.

(* ===================================================================== *)
(** ** More on binary64 comparisons *)
(* ===================================================================== *)

Module FloatOrder.

(** [y ? x] is the opposite of [x ? y]. *)
Lemma SFcompare_antisym (x y : spec_float) :
  SFcompare y x = option_map CompOpp (SFcompare x y).
Proof.
  destruct x as [ [ | ] | [ | ] | | [ | ] mx ex ];
    destruct y as [ [ | ] | [ | ] | | [ | ] my ey ];
    try reflexivity; simpl;
    rewrite (Z.compare_antisym ex ey);
    destruct (ex ?= ey)%Z; simpl; try reflexivity;
    rewrite (Pos.compare_cont_antisym mx my Eq); simpl;
    try reflexivity;
    destruct (Pos.compare_cont Eq mx my); reflexivity.
Qed.

(** A number above zero is not below it. *)
Lemma pos_not_neg (d : float) :
  (0 <? d)%float = true -> (d <? 0)%float = false.
Proof.
  rewrite !ltb_spec, zero_as_spec. unfold SFltb.
  destruct (Prim2SF d) as [ [ | ] | [ | ] | | [ | ] m e ]; simpl;
    intros H; try discriminate H; reflexivity.
Qed.

(** A magnitude is never below zero. *)
Lemma abs_not_neg (d : float) : (abs d <? 0)%float = false.
Proof.
  rewrite ltb_spec, abs_spec, zero_as_spec. unfold SFltb.
  destruct (Prim2SF d) as [ [ | ] | [ | ] | | [ | ] m e ]; reflexivity.
Qed.

(** A magnitude is above zero exactly when the number is above or below
    zero. *)
Lemma abs_pos_iff (d : float) :
  (0 <? abs d)%float = (0 <? d)%float || (d <? 0)%float.
Proof.
  rewrite !ltb_spec, abs_spec, zero_as_spec. unfold SFltb.
  destruct (Prim2SF d) as [ [ | ] | [ | ] | | [ | ] m e ]; reflexivity.
Qed.

(** The opposite of a number above zero is below zero. *)
Lemma opp_of_pos (d : float) :
  (0 <? d)%float = true -> (- d <? 0)%float = true.
Proof.
  rewrite !ltb_spec, opp_spec, zero_as_spec. unfold SFltb.
  destruct (Prim2SF d) as [ [ | ] | [ | ] | | [ | ] m e ]; simpl;
    intros H; try discriminate H; reflexivity.
Qed.

(** [x < y] entails [x <= y] and excludes [y < x]. *)
Lemma ltb_leb (x y : float) :
  (x <? y)%float = true -> (x <=? y)%float = true.
Proof.
  rewrite ltb_spec, leb_spec. unfold SFltb, SFleb.
  destruct (SFcompare (Prim2SF x) (Prim2SF y)) as [[ | | ] | ];
    intros H; try discriminate H; reflexivity.
Qed.

Lemma ltb_asym (x y : float) :
  (x <? y)%float = true -> (y <? x)%float = false.
Proof.
  rewrite !ltb_spec. unfold SFltb.
  rewrite (SFcompare_antisym (Prim2SF x) (Prim2SF y)).
  destruct (SFcompare (Prim2SF x) (Prim2SF y)) as [[ | | ] | ];
    intros H; try discriminate H; reflexivity.
Qed.

(** [x <= y] excludes [y < x]. *)
Lemma leb_not_gt (x y : float) :
  (x <=? y)%float = true -> (y <? x)%float = false.
Proof.
  rewrite leb_spec, ltb_spec. unfold SFleb, SFltb.
  rewrite (SFcompare_antisym (Prim2SF x) (Prim2SF y)).
  destruct (SFcompare (Prim2SF x) (Prim2SF y)) as [[ | | ] | ];
    intros H; try discriminate H; reflexivity.
Qed.

(** When [y < x] fails, [x <= y] holds unless one of them is not a
    number. *)
Lemma not_gt_leb (x y : float) :
  (y <? x)%float = false ->
  (x <=? y)%float = true
  \/ (x =? x)%float = false \/ (y =? y)%float = false.
Proof.
  rewrite leb_spec, ltb_spec, !FloatAxioms.eqb_spec.
  unfold SFleb, SFltb, SFeqb.
  rewrite (SFcompare_antisym (Prim2SF x) (Prim2SF y)).
  destruct (Prim2SF x) as [ [ | ] | [ | ] | | [ | ] mx ex ] eqn:Ex;
    destruct (Prim2SF y) as [ [ | ] | [ | ] | | [ | ] my ey ] eqn:Ey;
    simpl; intros H; try discriminate H; auto;
    left;
    repeat match goal with
           | H : context [ (?a ?= ?b)%Z ] |- _ =>
               destruct (a ?= b)%Z; simpl in *
           | H : context [ Pos.compare_cont Eq ?a ?b ] |- _ =>
               destruct (Pos.compare_cont Eq a b); simpl in *
           end;
    try discriminate H; reflexivity.
Qed.

End FloatOrder.

(* ===================================================================== *)
(** ** Further properties of parse_individual_transactions *)
(* ===================================================================== *)

Module ParserExtras.

Import Py Re ImportDetailed Props MoreProps.

(** The record fields of everything the parser returns. *)
Lemma parse_recorded (pages_text : list string) (starting_balance : float) :
  exists txns,
    parse_individual_transactions pages_text starting_balance = Some txns
    /\ Forall (fun t => exists k, recorded_on k t) txns
    /\ pages_within 1 (List.length pages_text) txns
    /\ List.length txns <= total_date_lines pages_text.
Proof.
  unfold parse_individual_transactions.
  destruct (ImportFacts.scan_pages_returns pages_text 1 starting_balance [])
    as (bal & txns & Hrun).
  rewrite Hrun. exists txns. split; [ reflexivity | ].
  destruct (ParserShape.scan_pages_appends pages_text 1 starting_balance []
              bal txns (List.length pages_text) Hrun ltac:(lia))
    as (new & -> & Hall & Hpages & Hlen).
  auto.
Qed.

(** X1.  Every description the parser writes is a usable payee text: it is
    not empty, has at most 100 characters and holds no slash. *)
Theorem parsed_descriptions_are_clean (pages_text : list string)
    (starting_balance : float) :
  exists txns,
    parse_individual_transactions pages_text starting_balance = Some txns
    /\ Forall (fun t => description t <> ""
                        /\ String.length (description t) <= 100
                        /\ contains "/" (description t) = false) txns.
Proof.
  destruct (parse_recorded pages_text starting_balance)
    as (txns & Hrun & Hall & _).
  exists txns. split; [ exact Hrun | ].
  apply (Forall_impl _ (P := fun t => exists k, recorded_on k t));
    [ | exact Hall ].
  intros t (k & _ & _ & H). exact H.
Qed.

(** [parse_date] on a text that is DD-MM-YYYY to the letter. *)
Lemma parse_date_strict (max_str_digits : nat) (today : Date)
    (date_str : string) (d m y : Z) :
  max_str_digits = 0 \/ 4 <= max_str_digits ->
  strict_date_fields date_str = Some (d, m, y) ->
  parse_date max_str_digits today date_str
  = match make_date y m d with
    | Some dt => dt
    | None => today
    end.
Proof.
  intros Hlimit Hstrict.
  destruct date_str as [ | d1 [ | d2 [ | h1 [ | m1 [ | m2 [ | h2 [ | y1
    [ | y2 [ | y3 [ | y4 [ | ? ?]]]]]]]]]]]; try discriminate Hstrict.
  cbn [strict_date_fields] in Hstrict.
  destruct (isdigit d1) eqn:Hd1; [ | discriminate Hstrict ].
  destruct (isdigit d2) eqn:Hd2; [ | discriminate Hstrict ].
  destruct (Ascii.eqb h1 "-") eqn:Hh1; [ | discriminate Hstrict ].
  destruct (isdigit m1) eqn:Hm1; [ | discriminate Hstrict ].
  destruct (isdigit m2) eqn:Hm2; [ | discriminate Hstrict ].
  destruct (Ascii.eqb h2 "-") eqn:Hh2; [ | discriminate Hstrict ].
  destruct (isdigit y1) eqn:Hy1; [ | discriminate Hstrict ].
  destruct (isdigit y2) eqn:Hy2; [ | discriminate Hstrict ].
  destruct (isdigit y3) eqn:Hy3; [ | discriminate Hstrict ].
  destruct (isdigit y4) eqn:Hy4; [ | discriminate Hstrict ].
  cbn [andb] in Hstrict. injection Hstrict as <- <- <-.
  unfold parse_date, parse_date_try. cbn [split].
  rewrite (proj2 (DateFacts.digit_is_plain d1 Hd1)),
    (proj2 (DateFacts.digit_is_plain d2 Hd2)),
    (proj2 (DateFacts.digit_is_plain m1 Hm1)),
    (proj2 (DateFacts.digit_is_plain m2 Hm2)),
    (proj2 (DateFacts.digit_is_plain y1 Hy1)),
    (proj2 (DateFacts.digit_is_plain y2 Hy2)),
    (proj2 (DateFacts.digit_is_plain y3 Hy3)),
    (proj2 (DateFacts.digit_is_plain y4 Hy4)), Hh1, Hh2.
  rewrite !DateFacts.py_int_digits;
    try (cbn [all_digits]; rewrite ?Hd1, ?Hd2, ?Hm1, ?Hm2, ?Hy1, ?Hy2,
           ?Hy3, ?Hy4; reflexivity);
    try discriminate;
    try (cbn [String.length]; lia).
Qed.

(** X2.  Every date the parser writes is DD-MM-YYYY to the letter, so
    that [parse_date], which the importer applies to it, answers the date
    it denotes, and falls back to today only when no such day exists in
    the calendar. *)
Theorem parsed_dates_are_read (pages_text : list string)
    (starting_balance : float) (max_str_digits : nat) (today : Date) :
  max_str_digits = 0 \/ 4 <= max_str_digits ->
  exists txns,
    parse_individual_transactions pages_text starting_balance = Some txns
    /\ Forall (fun t =>
                 exists d m y,
                   strict_date_fields (date t) = Some (d, m, y)
                   /\ parse_date max_str_digits today (date t)
                      = match make_date y m d with
                        | Some dt => dt
                        | None => today
                        end) txns.
Proof.
  intros Hlimit.
  destruct (parse_recorded pages_text starting_balance)
    as (txns & Hrun & Hall & _).
  exists txns. split; [ exact Hrun | ].
  apply (Forall_impl _ (P := fun t => exists k, recorded_on k t));
    [ | exact Hall ].
  intros t (k & _ & (d & m & y & Hstrict) & _).
  exists d, m, y. split; [ exact Hstrict | ].
  apply parse_date_strict; assumption.
Qed.

(** The lunch page, read with the default digit limit. *)
Lemma parsed_dates_are_read_witness :
  exists txns,
    parse_individual_transactions [lunch_page] 49550 = Some txns
    /\ Forall (fun t =>
                 exists d m y,
                   strict_date_fields (date t) = Some (d, m, y)
                   /\ parse_date 4300 (mkDate 2026 11 3) (date t)
                      = match make_date y m d with
                        | Some dt => dt
                        | None => mkDate 2026 11 3
                        end) txns.
Proof.
  apply (parsed_dates_are_read [lunch_page] 49550 4300 (mkDate 2026 11 3)).
  right. lia.
Defined.

(** X4.  The parser returns at most one transaction per line that starts
    with a date (so none for a document without such a line). *)
Theorem parsed_count_bounded (pages_text : list string)
    (starting_balance : float) :
  exists txns,
    parse_individual_transactions pages_text starting_balance = Some txns
    /\ List.length txns <= total_date_lines pages_text.
Proof.
  destruct (parse_recorded pages_text starting_balance)
    as (txns & Hrun & _ & _ & Hlen).
  exists txns. split; assumption.
Qed.

(** *** The list already collected is only appended to *)

Lemma record_window_prefix (page_num : nat) (date_str : string)
    (amounts : list float) (parts : list string) (bal : float)
    (acc txns : list Transaction) :
  record_window page_num date_str amounts parts bal (acc ++ txns)
  = (fst (record_window page_num date_str amounts parts bal txns),
     (acc ++ snd (record_window page_num date_str amounts parts bal txns))
       %list).
Proof.
  unfold record_window.
  destruct (2 <=? List.length amounts)%nat; [ | reflexivity ].
  destruct (0 <? last_of amounts 0 - bal)%float; cbn [fst snd];
    rewrite app_assoc; reflexivity.
Qed.

Lemma loop_body_prefix (page_num : nat) (lines : list string)
    (raw : string) (acc : list Transaction) (st : State) :
  loop_body page_num lines raw
    {| i := i st; current_balance := current_balance st;
       all_transactions := (acc ++ all_transactions st)%list |}
  = {| i := i (loop_body page_num lines raw st);
       current_balance := current_balance (loop_body page_num lines raw st);
       all_transactions :=
         (acc ++ all_transactions (loop_body page_num lines raw st))%list |}.
Proof.
  unfold loop_body. cbn [i current_balance all_transactions].
  destruct (date_pattern_match (strip raw)) as [date_str | ];
    [ | reflexivity ].
  destruct (match nth_error lines (i st + 1) with
            | Some next_raw => is_marker (strip next_raw)
            | None => false
            end); [ reflexivity | ].
  destruct (look_ahead lines 9 (i st + 1) [] []) as [[j amounts] parts].
  rewrite record_window_prefix.
  destruct (record_window page_num date_str amounts parts
              (current_balance st) (all_transactions st)) as [bal txns].
  reflexivity.
Qed.

Lemma scan_lines_prefix (page_num : nat) (lines : list string)
    (acc : list Transaction) :
  forall fuel st,
    scan_lines fuel page_num lines
      {| i := i st; current_balance := current_balance st;
         all_transactions := (acc ++ all_transactions st)%list |}
    = option_map
        (fun st' =>
           {| i := i st'; current_balance := current_balance st';
              all_transactions := (acc ++ all_transactions st')%list |})
        (scan_lines fuel page_num lines st).
Proof.
  induction fuel as [ | fuel IH]; intros st; cbn [scan_lines i];
    destruct (nth_error lines (i st)) as [raw | ]; try reflexivity.
  rewrite loop_body_prefix. apply IH.
Qed.

Lemma scan_page_prefix (page_num : nat) (page_text : string) (bal : float)
    (acc txns : list Transaction) :
  scan_page page_num page_text bal (acc ++ txns)
  = option_map (fun r => (fst r, (acc ++ snd r)%list))
      (scan_page page_num page_text bal txns).
Proof.
  unfold scan_page.
  pose proof (scan_lines_prefix page_num (split "010" page_text) acc
                (List.length (split "010" page_text))
                {| i := 0; current_balance := bal;
                   all_transactions := txns |}) as H.
  cbn [i current_balance all_transactions] in H. rewrite H. clear H.
  destruct (scan_lines _ _ _ _) as [st' | ]; reflexivity.
Qed.

Lemma scan_pages_prefix (pages_text : list string)
    (acc : list Transaction) :
  forall page_num bal txns,
    scan_pages page_num pages_text bal (acc ++ txns)
    = option_map (fun r => (fst r, (acc ++ snd r)%list))
        (scan_pages page_num pages_text bal txns).
Proof.
  induction pages_text as [ | page_text rest IH]; intros page_num bal txns;
    cbn [scan_pages]; [ reflexivity | ].
  rewrite scan_page_prefix.
  destruct (scan_page page_num page_text bal txns) as [[b1 t1] | ];
    [ | reflexivity ].
  cbn [option_map fst snd]. apply IH.
Qed.

(** A transaction is labelled with the page being scanned and dated by
    one of its lines. *)
Lemma record_window_dated (page_num : nat) (lines : list string)
    (date_str : string) (amounts : list float) (parts : list string)
    (bal : float) (txns : list Transaction) :
  (exists raw,
     In raw lines /\ date_pattern_match (strip raw) = Some date_str) ->
  Forall (dated_by page_num lines) txns ->
  Forall (dated_by page_num lines)
         (snd (record_window page_num date_str amounts parts bal txns)).
Proof.
  intros Hraw Hall. unfold record_window.
  destruct (2 <=? List.length amounts)%nat; [ | exact Hall ].
  destruct (0 <? last_of amounts 0 - bal)%float; cbn [snd];
    apply Forall_app; (split; [ exact Hall | ]);
    (constructor; [ | constructor ]);
    (split; [ reflexivity | exact Hraw ]).
Qed.

Lemma loop_body_dated (page_num : nat) (lines : list string) (raw : string)
    (st : State) :
  nth_error lines (i st) = Some raw ->
  Forall (dated_by page_num lines) (all_transactions st) ->
  Forall (dated_by page_num lines)
         (all_transactions (loop_body page_num lines raw st)).
Proof.
  intros Hraw Hall. unfold loop_body.
  destruct (date_pattern_match (strip raw)) as [date_str | ] eqn:Edate;
    [ | exact Hall ].
  destruct (match nth_error lines (i st + 1) with
            | Some next_raw => is_marker (strip next_raw)
            | None => false
            end); [ exact Hall | ].
  destruct (look_ahead lines 9 (i st + 1) [] []) as [[j amounts] parts].
  pose proof (record_window_dated page_num lines date_str amounts parts
                (current_balance st) (all_transactions st)
                (ex_intro _ raw (conj (nth_error_In _ _ Hraw) Edate)) Hall)
    as Hnew.
  destruct (record_window page_num date_str amounts parts
              (current_balance st) (all_transactions st)) as [bal txns].
  exact Hnew.
Qed.

Lemma scan_lines_dated (page_num : nat) (lines : list string) :
  forall fuel st st',
    scan_lines fuel page_num lines st = Some st' ->
    Forall (dated_by page_num lines) (all_transactions st) ->
    Forall (dated_by page_num lines) (all_transactions st').
Proof.
  induction fuel as [ | fuel IH]; intros st st' Hrun Hall; simpl in Hrun;
    destruct (nth_error lines (i st)) as [raw | ] eqn:Eraw;
    try discriminate Hrun; try (injection Hrun as <-; exact Hall).
  apply (IH _ _ Hrun). apply loop_body_dated; assumption.
Qed.

Lemma scan_page_found (page_num : nat) (page_text : string) (bal : float)
    (bal' : float) (found : list Transaction) :
  scan_page page_num page_text bal [] = Some (bal', found) ->
  Forall (found_on page_num page_text) found.
Proof.
  unfold scan_page, found_on. intros Hrun.
  destruct (scan_lines _ _ _ _) as [st' | ] eqn:E; [ | discriminate Hrun ].
  injection Hrun as <- <-.
  apply (scan_lines_dated _ _ _ _ _ E). constructor.
Qed.

(** The list of a document is the transactions of its pages, one block
    after the other. *)
Lemma scan_pages_blocks (pages_text : list string) :
  forall page_num bal,
    exists bal' txns blocks,
      scan_pages page_num pages_text bal [] = Some (bal', txns)
      /\ page_blocks page_num pages_text bal = Some blocks
      /\ txns = List.concat blocks
      /\ List.length blocks = List.length pages_text
      /\ forall k page_text block,
           nth_error pages_text k = Some page_text ->
           nth_error blocks k = Some block ->
           Forall (found_on (page_num + k) page_text) block.
Proof.
  induction pages_text as [ | page_text rest IH]; intros page_num bal.
  - exists bal, [], []. repeat split; try reflexivity.
    intros [ | k] ? ? H; discriminate H.
  - cbn [scan_pages page_blocks].
    destruct (ImportFacts.scan_page_returns page_num page_text bal [])
      as (b1 & found & Hpage).
    rewrite Hpage.
    destruct (IH (S page_num) b1)
      as (bal' & txns & blocks & Hrun & Hblocks & -> & Hlen & Hfound).
    pose proof (scan_pages_prefix rest found (S page_num) b1 []) as Hpre.
    rewrite app_nil_r, Hrun in Hpre. rewrite Hpre, Hblocks.
    exists bal', (found ++ List.concat blocks)%list, (found :: blocks).
    repeat split; try reflexivity.
    + cbn [List.length]. rewrite Hlen. reflexivity.
    + intros [ | k] text block Htext Hblock; cbn [nth_error] in *.
      * injection Htext as <-. injection Hblock as <-.
        rewrite Nat.add_0_r. exact (scan_page_found _ _ _ _ _ Hpage).
      * rewrite Nat.add_succ_r. exact (Hfound k text block Htext Hblock).
Qed.

(** X3.  Every transaction carries the number of the page it was found
    on.  The returned list is, page after page, what each page gives when
    it is scanned on its own from the balance the pages before it left;
    every transaction in the block of page k is labelled k and has the
    date a line of the text of page k starts with.  The labels lie
    between 1 and the number of pages and never decrease along the
    list. *)
Theorem parsed_pages_are_sources (pages_text : list string)
    (starting_balance : float) :
  exists txns blocks,
    parse_individual_transactions pages_text starting_balance = Some txns
    /\ page_blocks 1 pages_text starting_balance = Some blocks
    /\ txns = List.concat blocks
    /\ List.length blocks = List.length pages_text
    /\ (forall k page_text block,
          nth_error pages_text k = Some page_text ->
          nth_error blocks k = Some block ->
          Forall (found_on (S k) page_text) block)
    /\ pages_within 1 (List.length pages_text) txns.
Proof.
  destruct (parse_recorded pages_text starting_balance)
    as (txns & Hrun & _ & Hpages & _).
  destruct (scan_pages_blocks pages_text 1 starting_balance)
    as (bal' & txns' & blocks & Hscan & Hblocks & Htxns & Hlen & Hfound).
  assert (txns' = txns) as ->.
  { unfold parse_individual_transactions in Hrun. rewrite Hscan in Hrun.
    injection Hrun as <-. reflexivity. }
  exists txns, blocks. repeat split; assumption.
Qed.

(** X5.  The transactions of a document are those of its first pages,
    followed by those of the remaining pages parsed on their own from the
    balance the first pages ended with and numbered after them: pages
    added at the end of a document never change what was extracted from
    the pages before. *)
Theorem parse_splits_at_page_boundary (ps1 ps2 : list string)
    (starting_balance : float) :
  exists txns1 bal2 txns2,
    parse_individual_transactions ps1 starting_balance = Some txns1
    /\ scan_pages (1 + List.length ps1) ps2
         (last_balance txns1 starting_balance) [] = Some (bal2, txns2)
    /\ parse_individual_transactions (ps1 ++ ps2) starting_balance
       = Some (txns1 ++ txns2)%list.
Proof.
  unfold parse_individual_transactions.
  rewrite ImportFacts.scan_pages_app.
  destruct (ImportFacts.scan_pages_returns ps1 1 starting_balance [])
    as (bal1 & txns1 & Hrun1).
  rewrite Hrun1.
  assert (Hbal1 : bal1 = last_balance txns1 starting_balance).
  { apply (ImportFacts.scan_pages_chained starting_balance _ _ _ _ _ _ Hrun1).
    split; [ reflexivity | split; [ exact I | constructor ] ]. }
  destruct (ImportFacts.scan_pages_returns ps2 (1 + List.length ps1)
              bal1 []) as (bal2 & txns2 & Hrun2).
  exists txns1, bal2, txns2. cbn [option_map snd].
  split; [ reflexivity | ].
  rewrite <- Hbal1. split; [ exact Hrun2 | ].
  pose proof (scan_pages_prefix ps2 txns1 (1 + List.length ps1) bal1 [])
    as Hpre.
  rewrite app_nil_r, Hrun2 in Hpre. rewrite Hpre. reflexivity.
Qed.

(** X6.  No amount the parser writes is negative: a deposit is 0 or above
    zero, and no withdrawal is below zero. *)
Theorem parsed_amounts_not_negative (pages_text : list string)
    (starting_balance : float) :
  exists txns,
    parse_individual_transactions pages_text starting_balance = Some txns
    /\ Forall (fun t =>
                 (deposit t = 0%float \/ (0 <? deposit t)%float = true)
                 /\ (deposit t <? 0)%float = false
                 /\ (withdrawal t <? 0)%float = false) txns.
Proof.
  unfold parse_individual_transactions.
  destruct (ImportFacts.scan_pages_returns pages_text 1 starting_balance [])
    as (bal & txns & Hrun).
  rewrite Hrun. exists txns. split; [ reflexivity | ].
  assert (Hchain : delta_chain starting_balance txns).
  { apply (ImportFacts.scan_pages_chained starting_balance _ _ _ _ _ _ Hrun).
    split; [ reflexivity | split; [ exact I | constructor ] ]. }
  clear Hrun. revert Hchain. generalize starting_balance as prev.
  induction txns as [ | t rest IH]; intros prev Hchain; [ constructor | ].
  destruct Hchain as [Ht Hrest].
  constructor; [ | exact (IH _ Hrest) ].
  unfold splits_delta in Ht.
  destruct (0 <? balance t - prev)%float eqn:E; destruct Ht as [-> ->].
  - split; [ right; exact E | ].
    split; [ apply FloatOrder.pos_not_neg; exact E | reflexivity ].
  - split; [ left; reflexivity | ].
    split; [ reflexivity | apply FloatOrder.abs_not_neg ].
Qed.

End ParserExtras.

(* ===================================================================== *)
(** ** Further properties of the verifier and of the callers' checks *)
(* ===================================================================== *)

Module VerifyExtras.

Import Verify.

Lemma SFleb_trans (a b c : spec_float) :
  SFleb a b = true -> SFleb b c = true -> SFleb a c = true.
Proof.
  unfold SFleb.
  destruct a as [ [ | ] | [ | ] | | [ | ] ma ea ];
    destruct b as [ [ | ] | [ | ] | | [ | ] mb eb ];
    destruct c as [ [ | ] | [ | ] | | [ | ] mc ec ];
    simpl; intros H1 H2; try discriminate H1; try discriminate H2;
    try reflexivity; order_cases.
Qed.

Lemma leb_trans (x y z : float) :
  (x <=? y)%float = true -> (y <=? z)%float = true ->
  (x <=? z)%float = true.
Proof. rewrite !leb_spec. apply SFleb_trans. Qed.

(** No magnitude is within a tolerance below zero. *)
Lemma abs_leb_negative (x tolerance : float) :
  (tolerance <? 0)%float = true -> (abs x <=? tolerance)%float = false.
Proof.
  rewrite ltb_spec, leb_spec, abs_spec, zero_as_spec.
  unfold SFltb, SFleb.
  destruct (Prim2SF x) as [ [ | ] | [ | ] | | [ | ] mx ex ];
    destruct (Prim2SF tolerance) as [ [ | ] | [ | ] | | [ | ] mt et ];
    simpl; intros H; try discriminate H; reflexivity.
Qed.

(** Nothing is within a tolerance that is not a number. *)
Lemma leb_not_a_number (x tolerance : float) :
  (tolerance =? tolerance)%float = false ->
  (x <=? tolerance)%float = false.
Proof.
  rewrite FloatAxioms.eqb_spec, leb_spec. unfold SFeqb, SFleb.
  destruct (Prim2SF tolerance) as [ [ | ] | [ | ] | | [ | ] mt et ];
    simpl; try discriminate;
    try (rewrite Z.compare_refl, Pos.compare_cont_refl; discriminate).
  intros _. destruct (Prim2SF x) as [ [ | ] | [ | ] | | [ | ] mx ex ];
    reflexivity.
Qed.

(** X7.  A tolerance below zero, or one that is not a number, makes the
    verifier raise whatever the summary and the transactions are. *)
Theorem verify_rejects_unusable_tolerance (summary : Summary)
    (transactions : list Transaction) (tolerance : float) :
  (tolerance <? 0)%float = true
  \/ (tolerance =? tolerance)%float = false ->
  exists e,
    verify_pdf_extraction_is_correct summary transactions tolerance = inr e.
Proof.
  intros Htol. unfold verify_pdf_extraction_is_correct. cbn [passed].
  assert (forall x, (abs x <=? tolerance)%float = false) as Hnever.
  { intros x. destruct Htol as [Hneg | Hnan].
    - apply abs_leb_negative. exact Hneg.
    - apply leb_not_a_number. exact Hnan. }
  rewrite !Hnever. cbn. eexists. reflexivity.
Qed.

(** A summary that agrees with its transactions to the cent is refused
    at tolerance -1.0. *)
Lemma verify_rejects_unusable_tolerance_witness :
  exists e,
    verify_pdf_extraction_is_correct
      (mkSummary 100000 5000 3000 102000)
      [mkTransaction "01-08-2025" "salary" 5000 0 105000 (Some 1);
       mkTransaction "02-08-2025" "rent" 0 3000 102000 (Some 1)]
      (-1)%float = inr e.
Proof.
  apply verify_rejects_unusable_tolerance. left. reflexivity.
Defined.

(** X8.  A larger tolerance never turns a pass into a failure: what the
    verifier returns at one tolerance it returns at every tolerance that
    is not smaller. *)
Theorem verify_tolerance_monotone (summary : Summary)
    (transactions : list Transaction) (tolerance tolerance' : float)
    (r : VerificationResult) :
  verify_pdf_extraction_is_correct summary transactions tolerance = inl r ->
  (tolerance <=? tolerance')%float = true ->
  verify_pdf_extraction_is_correct summary transactions tolerance' = inl r.
Proof.
  unfold verify_pdf_extraction_is_correct. cbn [passed].
  set (bd := abs _). set (dd := abs _). set (wd := abs _).
  destruct (bd <=? tolerance)%float eqn:Hb;
    destruct (dd <=? tolerance)%float eqn:Hd;
    destruct (wd <=? tolerance)%float eqn:Hw; cbn [andb negb];
    intros H Hle; try discriminate H.
  rewrite (leb_trans _ _ _ Hb Hle), (leb_trans _ _ _ Hd Hle),
    (leb_trans _ _ _ Hw Hle).
  cbn [andb negb]. exact H.
Qed.

(** The scenario that passes at tolerance 1.0 passes at 2.5. *)
Lemma verify_tolerance_monotone_witness :
  verify_pdf_extraction_is_correct
    (mkSummary 100000 5000 3000 102001)
    [mkTransaction "01-08-2025" "salary" 5001 0 105001 (Some 1);
     mkTransaction "02-08-2025" "rent" 0 3001 102000 (Some 1)]
    2.5%float
  = inl (mkResult 1 1 1 5001 3001 102000 true).
Proof.
  apply (verify_tolerance_monotone _ _ 1%float 2.5%float); reflexivity.
Defined.

(** X9.  The three balance checks of the repository are ordered by
    strictness.  Whatever passes the check of test_all_detailed.py
    ([diff < 1.0]) passes the inline check of
    [import_detailed_transactions] (not [diff > 1.0]); whatever the
    verifier accepts at tolerance 1.0 passes the inline check too; and
    when the inline check passes but the verifier raises, one of the two
    totals is out of tolerance or the balance difference is not a
    number. *)
Theorem balance_checks_by_strictness (summary : Summary)
    (transactions : list Transaction) :
  (DetailedTest.passed summary transactions = true ->
   Importer.balance_check_passed summary transactions = true)
  /\ (forall r,
        verify_pdf_extraction_is_correct summary transactions 1 = inl r ->
        Importer.balance_check_passed summary transactions = true)
  /\ (forall e,
        Importer.balance_check_passed summary transactions = true ->
        verify_pdf_extraction_is_correct summary transactions 1 = inr e ->
        (err_deposit_diff e <=? 1)%float = false
        \/ (err_withdrawal_diff e <=? 1)%float = false
        \/ (err_balance_diff e =? err_balance_diff e)%float = false).
Proof.
  unfold DetailedTest.passed, Importer.balance_check_passed,
    Importer.calc_final, verify_pdf_extraction_is_correct.
  cbn [passed].
  set (bd := abs (_ - final_balance summary)%float).
  set (dd := abs (_ - total_deposits summary)%float).
  set (wd := abs (_ - total_withdrawals summary)%float).
  split; [ | split ].
  - intros H. rewrite (FloatOrder.ltb_asym _ _ H). reflexivity.
  - intros r. destruct (bd <=? 1)%float eqn:Hb; cbn [andb negb];
      [ | intros H; discriminate H ].
    intros _. rewrite (FloatOrder.leb_not_gt _ _ Hb). reflexivity.
  - intros e Hcheck. apply negb_true_iff in Hcheck.
    destruct (FloatOrder.not_gt_leb _ _ Hcheck) as [Hle | [Hnan | Hone]].
    + rewrite Hle. cbn [andb].
      destruct (dd <=? 1)%float eqn:Hd; destruct (wd <=? 1)%float eqn:Hw;
        cbn [andb negb]; intros H; try discriminate H; injection H as <-;
        cbn [err_deposit_diff err_withdrawal_diff]; auto.
    + destruct ((bd <=? 1)%float && (dd <=? 1)%float && (wd <=? 1)%float);
        cbn [negb]; intros H; try discriminate H; injection H as <-.
      cbn [err_balance_diff]. auto.
    + exfalso. vm_compute in Hone. discriminate Hone.
Qed.

(** A difference of exactly 1.0: the test of test_all_detailed.py fails,
    and the inline check passes because the verifier accepts. *)
Lemma balance_checks_by_strictness_witness :
  Importer.balance_check_passed
    (mkSummary 100000 5000 3000 102001)
    [mkTransaction "01-08-2025" "salary" 5001 0 105001 (Some 1);
     mkTransaction "02-08-2025" "rent" 0 3001 102000 (Some 1)]
  = true.
Proof.
  apply (proj1 (proj2 (balance_checks_by_strictness _ _))
           (mkResult 1 1 1 5001 3001 102000 true)).
  reflexivity.
Defined.

End VerifyExtras.

(* ===================================================================== *)
(** ** Further properties of pdf_reader_ocr.py *)
(* ===================================================================== *)

Module OcrExtras.

Import Py Re OcrReader Props MoreProps.

(** *** The transactions found on a page *)

Lemma classify_one_sided (page_num : nat) (lines : list string) (i0 : nat)
    (transactions : list Transaction) (amounts_found : list float) :
  fst (fst (classify page_num lines i0 transactions amounts_found))
  = 0%float
  \/ snd (fst (classify page_num lines i0 transactions amounts_found))
     = 0%float.
Proof.
  unfold classify.
  destruct (2 <=? List.length amounts_found)%nat; [ | left; reflexivity ].
  destruct (0 <? _)%float.
  - destruct (_ <? _)%float; [ right | left ]; reflexivity.
  - destruct (_ =? 2)%nat; [ right | left ]; reflexivity.
Qed.

Lemma ocr_loop_body_one_sided (page_num : nat) (lines : list string)
    (raw : string) (st : State) :
  Forall one_sided (transactions st) ->
  Forall one_sided (transactions (loop_body page_num lines raw st)).
Proof.
  intros H. unfold loop_body.
  destruct (date_pattern_match (strip raw)) as [date_str | ]; [ | exact H ].
  destruct (match nth_error lines (i st + 1) with
            | Some next_raw => _
            | None => false
            end); [ exact H | ].
  destruct (look_ahead lines 9 (i st + 1) [] []) as [[j amounts] parts].
  pose proof (classify_one_sided page_num lines (i st) (transactions st)
                amounts) as Hc.
  destruct (classify page_num lines (i st) (transactions st) amounts)
    as [[dep wd] bal].
  cbn [fst snd] in Hc. cbn [transactions].
  destruct amounts; [ exact H | ].
  apply Forall_app. split; [ exact H | ].
  constructor; [ exact Hc | constructor ].
Qed.

Lemma ocr_scan_lines_one_sided (page_num : nat) (lines : list string) :
  forall fuel st st',
    scan_lines fuel page_num lines st = Some st' ->
    Forall one_sided (transactions st) ->
    Forall one_sided (transactions st').
Proof.
  induction fuel as [ | fuel IH]; intros st st' Hrun H; simpl in Hrun;
    destruct (nth_error lines (i st)) as [raw | ];
    try discriminate Hrun; try (injection Hrun as <-; exact H).
  apply (IH _ _ Hrun). apply ocr_loop_body_one_sided. exact H.
Qed.

Lemma extract_page_one_sided (page_text : string) (page_num : nat)
    (txns : list Transaction) :
  extract_transactions_from_page_text page_text page_num = Some txns ->
  Forall one_sided txns.
Proof.
  unfold extract_transactions_from_page_text. intros H.
  destruct (scan_lines _ _ _ _) as [st' | ] eqn:E; [ | discriminate H ].
  injection H as <-.
  apply (ocr_scan_lines_one_sided _ _ _ _ _ E). constructor.
Qed.

(** *** The recomputation *)

Lemma rebalance_same (prev : float) (txn : Transaction) :
  same_but_amounts (rebalance prev txn) txn.
Proof.
  unfold rebalance, same_but_amounts.
  destruct ((0 <? prev)%float && (0 <? balance txn)%float);
    [ destruct (0 <? balance txn - prev)%float | ]; auto.
Qed.

Lemma rebalance_one_sided (prev : float) (txn : Transaction) :
  one_sided txn -> one_sided (rebalance prev txn).
Proof.
  unfold rebalance, one_sided. intros H.
  destruct ((0 <? prev)%float && (0 <? balance txn)%float);
    [ destruct (0 <? balance txn - prev)%float | ]; cbn; auto.
Qed.

Lemma rebalance_rebalanced (prev : float) (txn : Transaction) :
  rebalanced prev (rebalance prev txn).
Proof.
  unfold rebalanced, rebalance, splits_delta.
  destruct ((0 <? prev)%float && (0 <? balance txn)%float) eqn:E.
  - destruct (0 <? balance txn - prev)%float eqn:Ed;
      cbn [balance deposit withdrawal]; rewrite E, Ed; auto.
  - rewrite E. discriminate.
Qed.

Lemma rebalanced_chain_snoc (l : list Transaction) (t : Transaction) :
  forall prev,
    rebalanced_chain prev l ->
    rebalanced (last_balance l prev) t ->
    rebalanced_chain prev (l ++ [t]).
Proof.
  induction l as [ | u l IH]; intros prev Hl Ht.
  - simpl. split; [ exact Ht | exact I ].
  - destruct Hl as [Hu Hl]. rewrite ImportFacts.last_balance_cons in Ht.
    simpl. split; [ exact Hu | ]. apply IH; assumption.
Qed.

(** What the loop over the pages keeps true of the list it builds. *)
Lemma append_rebalanced_keeps (sb : float) (found : list Transaction) :
  forall acc plain,
    Forall one_sided found ->
    Forall one_sided acc ->
    rebalanced_chain sb acc ->
    Forall2 same_but_amounts acc plain ->
    Forall one_sided (fold_left (append_rebalanced sb) found acc)
    /\ rebalanced_chain sb (fold_left (append_rebalanced sb) found acc)
    /\ Forall2 same_but_amounts
         (fold_left (append_rebalanced sb) found acc) (plain ++ found).
Proof.
  induction found as [ | txn found IH]; intros acc plain Hf Hacc Hchain Hsame.
  - simpl. rewrite app_nil_r. auto.
  - inversion Hf as [ | ? ? Htxn Hf' ]; subst.
    cbn [fold_left].
    replace (plain ++ txn :: found)%list
      with ((plain ++ [txn]) ++ found)%list
      by (rewrite <- app_assoc; reflexivity).
    apply IH; [ exact Hf' | .. ]; unfold append_rebalanced.
    + apply Forall_app. split; [ exact Hacc | ].
      constructor; [ apply rebalance_one_sided; exact Htxn | constructor ].
    + apply rebalanced_chain_snoc; [ exact Hchain | ].
      apply rebalance_rebalanced.
    + apply Forall2_app; [ exact Hsame | ].
      constructor; [ apply rebalance_same | constructor ].
Qed.

Lemma collect_pages_keeps (sb : float) (pages_text : list string) :
  forall i0 acc plain all_transactions,
    collect_pages sb i0 pages_text acc = Some all_transactions ->
    Forall one_sided acc ->
    rebalanced_chain sb acc ->
    Forall2 same_but_amounts acc plain ->
    exists found,
      page_level i0 pages_text = Some found
      /\ Forall one_sided all_transactions
      /\ rebalanced_chain sb all_transactions
      /\ Forall2 same_but_amounts all_transactions (plain ++ found).
Proof.
  induction pages_text as [ | page_text rest IH];
    intros i0 acc plain all_transactions Hrun Hacc Hchain Hsame;
    cbn [collect_pages page_level] in *.
  - injection Hrun as <-. exists []. rewrite app_nil_r. auto.
  - destruct (extract_transactions_from_page_text page_text i0)
      as [found | ] eqn:E; [ | discriminate Hrun ].
    destruct (append_rebalanced_keeps sb found acc plain
                (extract_page_one_sided _ _ _ E) Hacc Hchain Hsame)
      as (H1 & H2 & H3).
    destruct (IH _ _ _ _ Hrun H1 H2 H3) as (others & -> & H4 & H5 & H6).
    exists (found ++ others)%list. rewrite app_assoc. auto.
Qed.

(** X10.  [extract_all_transactions_from_pdf] returns the transactions
    found page by page, in their order and with their dates, descriptions
    and balances; it changes deposits and withdrawals only.  In its list
    no transaction has both a deposit and a withdrawal, and wherever a
    balance and the balance before it (the starting balance for the
    first) are both above zero the amounts are the two sides of the
    change of balance. *)
Theorem extract_all_rebalances (first_page : string) (rest : list string) :
  exists e found,
    extract_all_transactions_from_pdf (first_page :: rest) = Returns e
    /\ page_level 1 (first_page :: rest) = Some found
    /\ Forall2 same_but_amounts (ex_transactions e) found
    /\ Forall one_sided (ex_transactions e)
    /\ rebalanced_chain (ex_starting_balance e) (ex_transactions e).
Proof.
  unfold extract_all_transactions_from_pdf.
  destruct (OcrFacts.collect_pages_returns
              (opening_balance 10000 first_page) (first_page :: rest) 1 [])
    as [txns Hrun].
  rewrite Hrun.
  destruct (collect_pages_keeps _ _ _ [] [] _ Hrun) as (found & H1 & H2 & H3 & H4);
    try constructor.
  eexists. exists found. split; [ reflexivity | ].
  cbn [ex_transactions ex_starting_balance]. auto.
Qed.

(** *** process_bank_statement *)

Section WithSummarizer.

Variable llm : string -> nat -> PageTotals.

Lemma page_loop_app (ps1 ps2 : list string) :
  forall i0 acc,
    page_loop llm i0 (ps1 ++ ps2) acc
    = page_loop llm (i0 + List.length ps1) ps2 (page_loop llm i0 ps1 acc).
Proof.
  induction ps1 as [ | p ps1 IH]; intros i0 acc.
  - simpl. rewrite Nat.add_0_r. reflexivity.
  - change ((p :: ps1) ++ ps2)%list with (p :: (ps1 ++ ps2))%list.
    cbn [page_loop List.length]. rewrite IH, Nat.add_succ_r. reflexivity.
Qed.

Lemma page_loop_none_positive (pages_text : list string) :
  forall i0 acc,
    none_positive llm i0 pages_text ->
    t_final_balance (page_loop llm i0 pages_text acc) = t_final_balance acc.
Proof.
  induction pages_text as [ | p rest IH]; intros i0 acc H; [ reflexivity | ].
  destruct H as [Hp Hrest]. cbn [page_loop].
  rewrite (IH _ _ Hrest). unfold page_step. cbn [t_final_balance].
  rewrite Hp. reflexivity.
Qed.

(** X11.  The final balance [process_bank_statement] returns is the
    balance reported for the last page that reported one above zero, and
    0 when no page did. *)
Theorem final_balance_is_last_positive (pages_text : list string) :
  (none_positive llm 1 pages_text ->
   final_balance (process_bank_statement llm pages_text) = 0%float)
  /\ (forall pre page_text post,
        pages_text = (pre ++ page_text :: post)%list ->
        (0 <? pt_balance (llm page_text (1 + List.length pre)))%float
          = true ->
        none_positive llm (2 + List.length pre) post ->
        final_balance (process_bank_statement llm pages_text)
        = pt_balance (llm page_text (1 + List.length pre))).
Proof.
  unfold process_bank_statement. cbn [final_balance]. split.
  - intros H. rewrite (page_loop_none_positive _ _ _ H). reflexivity.
  - intros pre page_text post -> Hpos Hpost.
    rewrite page_loop_app. cbn [page_loop].
    rewrite (page_loop_none_positive _ _ _ Hpost).
    unfold page_step. cbn [t_final_balance]. rewrite Hpos. reflexivity.
Qed.

End WithSummarizer.

(** Three pages, of which the second is the last to report a balance. *)
Lemma final_balance_is_last_positive_witness :
  final_balance
    (process_bank_statement three_page_totals ["one"; "two"; "three"])
  = 102000%float.
Proof.
  exact (proj2 (final_balance_is_last_positive three_page_totals
                  ["one"; "two"; "three"])
           ["one"] "two" ["three"] eq_refl eq_refl (conj eq_refl I)).
Defined.

(** X12.  Only the first page is searched for the opening balance.  The
    starting balance of [extract_all_transactions_from_pdf] is the one
    discovered on the first page with floor 10000; the one of
    [process_bank_statement] is the one discovered on the first page with
    floor 100000, unless that is 0 and a final balance above zero was
    reported, in which case it is derived from the totals.  A marker on a
    later page is never used. *)
Theorem opening_balance_from_first_page_only (first_page : string)
    (rest : list string) :
  (exists e,
     extract_all_transactions_from_pdf (first_page :: rest) = Returns e
     /\ ex_starting_balance e = opening_balance 10000 first_page)
  /\ (forall llm : string -> nat -> PageTotals,
        let s := process_bank_statement llm (first_page :: rest) in
        starting_balance s
        = if (opening_balance 100000 first_page =? 0)%float
             && (0 <? final_balance s)%float
          then (final_balance s - total_deposits s
                + total_withdrawals s)%float
          else opening_balance 100000 first_page).
Proof.
  split.
  - unfold extract_all_transactions_from_pdf.
    destruct (OcrFacts.collect_pages_returns
                (opening_balance 10000 first_page) (first_page :: rest) 1 [])
      as [txns ->].
    eexists. split; reflexivity.
  - intros llm. cbv zeta. unfold process_bank_statement.
    cbn [starting_balance final_balance total_deposits total_withdrawals].
    rewrite OpeningFacts.page_loop_start. reflexivity.
Qed.

(** X13.  The two functions disagree on an opening balance between their
    floors.  When the first page ends with its only marker and one line
    after it, whose first grouped amount is above 10000 but not above
    100000, [extract_all_transactions_from_pdf] takes that amount as the
    starting balance, while the search of [process_bank_statement] finds
    none. *)
Theorem floors_disagree (first_page : string) (rest pre : list string)
    (marker amount_line m : string) :
  split "010" first_page = (pre ++ [marker; amount_line])%list ->
  Forall (fun l => strip l <> "B/F") pre ->
  strip marker = "B/F" ->
  search_grouped_amount amount_line = Some m ->
  (10000 <? amount_value m)%float = true ->
  (100000 <? amount_value m)%float = false ->
  (exists e,
     extract_all_transactions_from_pdf (first_page :: rest) = Returns e
     /\ ex_starting_balance e = amount_value m)
  /\ opening_balance 100000 first_page = 0%float.
Proof.
  intros Hlines Hpre Hmarker Hfound Hlow Hhigh.
  assert (Hpos : (0 <? amount_value m)%float = true).
  { (* 0 <= 10000 < amount *)
    destruct (0 <? amount_value m)%float eqn:E; [ reflexivity | ].
    destruct (FloatOrder.not_gt_leb _ _ E) as [Hle | [Hnan | Hnan]].
    - assert (H : (10000 <=? 0)%float = true).
      { apply (VerifyExtras.leb_trans _ (amount_value m));
          [ apply FloatOrder.ltb_leb; exact Hlow | exact Hle ]. }
      vm_compute in H. discriminate H.
    - exfalso. rewrite ltb_spec in Hlow. rewrite FloatAxioms.eqb_spec in Hnan.
      unfold SFltb in Hlow. unfold SFeqb in Hnan.
      destruct (Prim2SF (amount_value m)) as [ [ | ] | [ | ] | | [ | ] mm em ];
        simpl in *; try discriminate Hlow; try discriminate Hnan;
        rewrite Z.compare_refl, Pos.compare_cont_refl in Hnan;
        discriminate Hnan.
    - vm_compute in Hnan. discriminate Hnan. }
  split.
  - destruct (OcrFacts.extract_all_returns first_page rest) as (e & He & Hs).
    exists e. split; [ exact He | ]. rewrite Hs.
    unfold opening_balance. rewrite Hlines.
    apply (OpeningFacts.find_brought_forward_accepts 10000 pre marker []
             amount_line [] m); auto.
  - unfold opening_balance. rewrite Hlines.
    rewrite OpeningFacts.find_brought_forward_skips by exact Hpre.
    cbn [find_brought_forward Nat.add].
    rewrite Hmarker. cbn [String.eqb Ascii.eqb Bool.eqb andb].
    assert (Hlen : (List.length pre + 1
                    <? List.length (pre ++ [marker; amount_line]))%nat
                   = true).
    { apply Nat.ltb_lt. rewrite length_app. simpl. lia. }
    rewrite Hlen.
    assert (Hprobe :
      probe_after 100000 (pre ++ [marker; amount_line]) (List.length pre)
        [1; 2; 3; 4] 0%float = 0%float).
    { cbn [probe_after]. rewrite !OpeningFacts.nth_error_past.
      cbn [nth_error]. rewrite Hfound, Hhigh. reflexivity. }
    rewrite Hprobe. change (0 <? 0)%float with false. cbn iota.
    assert (Hlen2 : (S (List.length pre + 1)
                     <? List.length (pre ++ [marker; amount_line]))%nat
                    = false).
    { apply Nat.ltb_ge. rewrite length_app. simpl. lia. }
    rewrite Hlen2, andb_false_r. reflexivity.
Qed.

(** A first page that is the marker and "50,000.00". *)
Lemma floors_disagree_witness :
  (exists e,
     extract_all_transactions_from_pdf [marked_page "50,000.00"] = Returns e
     /\ ex_starting_balance e = amount_value "50,000.00")
  /\ opening_balance 100000 (marked_page "50,000.00") = 0%float.
Proof.
  apply (floors_disagree (marked_page "50,000.00") [] [] "B/F" "50,000.00"
           "50,000.00"); try reflexivity.
  constructor.
Defined.

End OcrExtras.

(* ===================================================================== *)
(** ** Properties of extract_text_from_pdf *)
(* ===================================================================== *)

Module SourceExtras.

Import Py PdfSource MoreProps.

(** The value of [extract_text_from_pdf]: the page texts of a readable
    document, the error otherwise. *)
Lemma extract_text_result (doc : Document) (password : option string) :
  fst (extract_text_from_pdf doc password)
  = if readable doc password then Some (page_texts doc) else None.
Proof.
  unfold extract_text_from_pdf, readable.
  destruct (is_encrypted doc); [ | reflexivity ].
  destruct password as [p | ]; [ | reflexivity ].
  destruct (truthy p); [ | reflexivity ].
  destruct (authenticate doc p); reflexivity.
Qed.

Lemma reads_hold_no_close (ns : list nat) : ~ In Closed (map TextRead ns).
Proof.
  intros H. apply in_map_iff in H. destruct H as (n & Hn & _).
  discriminate Hn.
Qed.

Lemma reads_are_in_range (k n : nat) :
  In (TextRead n) (map TextRead (seq 0 k)) <-> n < k.
Proof.
  rewrite in_map_iff. split.
  - intros (m & Hm & Hin). injection Hm as ->. apply in_seq in Hin. lia.
  - intros H. exists n. split; [ reflexivity | apply in_seq; lia ].
Qed.

(** X14.  [extract_text_from_pdf] raises exactly when the document is
    encrypted and the password is missing, empty or rejected; it then has
    read no page and leaves the document open.  Otherwise it returns the
    text of every page, has read each page of the document, and closing
    the document is the last thing it does. *)
Theorem extract_text_closes_only_on_return (doc : Document)
    (password : option string) :
  (fst (extract_text_from_pdf doc password) = None
   <-> readable doc password = false)
  /\ (readable doc password = false ->
      Forall (fun e => e = Opened \/ exists p, e = Authenticated p)
             (snd (extract_text_from_pdf doc password)))
  /\ (readable doc password = true ->
      fst (extract_text_from_pdf doc password) = Some (page_texts doc)
      /\ exists before,
           snd (extract_text_from_pdf doc password)
           = (before ++ [Closed])%list
           /\ ~ In Closed before
           /\ forall n,
                In (TextRead n) before
                <-> n < List.length (page_texts doc)).
Proof.
  split; [ | split ].
  - rewrite extract_text_result.
    destruct (readable doc password); split; intros H;
      try discriminate H; reflexivity.
  - unfold extract_text_from_pdf, readable.
    destruct (is_encrypted doc); [ | discriminate ].
    destruct password as [p | ];
      [ | intros _; repeat constructor ].
    destruct (truthy p); [ | intros _; repeat constructor ].
    destruct (authenticate doc p); [ discriminate | ].
    intros _. constructor; [ left; reflexivity | ].
    constructor; [ right; eexists; reflexivity | constructor ].
  - intros Hreadable. rewrite extract_text_result, Hreadable.
    split; [ reflexivity | ].
    revert Hreadable. unfold extract_text_from_pdf, readable.
    destruct (is_encrypted doc).
    + destruct password as [p | ]; [ | discriminate ].
      destruct (truthy p); [ | discriminate ].
      destruct (authenticate doc p); [ | discriminate ].
      intros _.
      exists (Opened :: Authenticated p
              :: map TextRead (seq 0 (List.length (page_texts doc)))).
      split; [ reflexivity | ]. split.
      * intros [H | [H | H]]; try discriminate H.
        exact (reads_hold_no_close _ H).
      * intros n. rewrite <- reads_are_in_range. split.
        -- intros [H | [H | H]]; try discriminate H. exact H.
        -- intros H. right. right. exact H.
    + intros _.
      exists (Opened :: map TextRead (seq 0 (List.length (page_texts doc)))).
      split; [ reflexivity | ]. split.
      * intros [H | H]; try discriminate H.
        exact (reads_hold_no_close _ H).
      * intros n. rewrite <- reads_are_in_range. split.
        -- intros [H | H]; try discriminate H. exact H.
        -- intros H. right. exact H.
Qed.

End SourceExtras.

(* ===================================================================== *)
(** ** Properties of import_detailed_transactions *)
(* ===================================================================== *)

Module ImporterExtras.

Import Py ImportDetailed Props MoreProps Importer.

(** The opposite of the magnitude of a number below zero is the number. *)
Lemma opp_abs_of_neg (d : float) :
  (d <? 0)%float = true -> (- abs d)%float = d.
Proof.
  intros H. apply Prim2SF_inj. rewrite opp_spec, abs_spec.
  rewrite ltb_spec, zero_as_spec in H. unfold SFltb in H.
  destruct (Prim2SF d) as [ [ | ] | [ | ] | | [ | ] m e ]; simpl in *;
    try discriminate H; reflexivity.
Qed.

(** The payee of an entry is never empty. *)
Lemma payee_or_default (s : string) :
  (if truthy s then s else "Transaction") <> "".
Proof. destruct s; simpl; discriminate. Qed.

Lemma turn_signed (max_str_digits : nat) (today : Date)
    (income_category general_category : Category) (t : Transaction)
    (e : LedgerEntry) :
  turn max_str_digits today income_category general_category t = Creates e ->
  signed_entry income_category general_category e.
Proof.
  unfold turn, signed_entry.
  destruct (0 <? deposit t)%float eqn:Ed.
  - destruct (page t); [ | discriminate ].
    intros H. injection H as <-. cbn [payee amount category_id].
    split; [ apply payee_or_default | left; split; [ exact Ed | reflexivity ] ].
  - destruct (0 <? withdrawal t)%float eqn:Ew; [ | discriminate ].
    destruct (page t); [ | discriminate ].
    intros H. injection H as <-. cbn [payee amount category_id].
    split; [ apply payee_or_default | right; split; [ | reflexivity ] ].
    apply FloatOrder.opp_of_pos. exact Ew.
Qed.

(** X15.  Whatever list it is given, the loop over the transactions makes
    no call but [create_transaction], at most one per transaction, and
    every entry it creates has a payee and an amount that is above zero
    under the Income category or below zero under the General category:
    no entry of amount zero is created. *)
Theorem posted_entries_are_signed (max_str_digits : nat) (today : Date)
    (income_category general_category : Category)
    (transactions : list Transaction) :
  Forall (fun c =>
            exists e,
              c = CreateTransaction e
              /\ signed_entry income_category general_category e)
         (fst (post_entries max_str_digits today income_category
                 general_category transactions))
  /\ List.length (fst (post_entries max_str_digits today income_category
                         general_category transactions))
     <= List.length transactions.
Proof.
  induction transactions as [ | t rest [IHall IHlen]];
    [ split; [ constructor | apply Nat.le_refl ] | ].
  cbn [post_entries].
  destruct (turn max_str_digits today income_category general_category t)
    as [e | | ] eqn:Et.
  - destruct (post_entries max_str_digits today income_category
                general_category rest) as [calls completed].
    cbn [fst List.length] in *. split; [ | lia ].
    constructor; [ | exact IHall ].
    exists e. split; [ reflexivity | ].
    exact (turn_signed _ _ _ _ _ _ Et).
  - split; [ exact IHall | cbn [List.length]; lia ].
  - split; [ constructor | cbn [fst List.length]; lia ].
Qed.

(** On transactions that all carry a page, the loop runs to its end. *)
Lemma post_entries_completes (max_str_digits : nat) (today : Date)
    (income_category general_category : Category)
    (transactions : list Transaction) :
  Forall (fun t => exists k, page t = Some k) transactions ->
  exists entries,
    post_entries max_str_digits today income_category general_category
                 transactions
    = (map CreateTransaction entries, true)
    /\ Forall (signed_entry income_category general_category) entries
    /\ List.length entries <= List.length transactions.
Proof.
  induction 1 as [ | t rest [k Hk] _ (entries & IHrun & IHall & IHlen)].
  - exists []. repeat split; constructor.
  - cbn [post_entries]. rewrite IHrun.
    destruct (turn max_str_digits today income_category general_category t)
      as [e | | ] eqn:Et.
    + exists (e :: entries). split; [ reflexivity | ]. split.
      * constructor; [ exact (turn_signed _ _ _ _ _ _ Et) | exact IHall ].
      * cbn [List.length]. lia.
    + exists entries. split; [ reflexivity | ].
      split; [ exact IHall | cbn [List.length]; lia ].
    + exfalso. unfold turn in Et. rewrite Hk in Et.
      destruct (0 <? deposit t)%float; [ discriminate Et | ].
      destruct (0 <? withdrawal t)%float; discriminate Et.
Qed.

(** The search of the categories finds the last one of each name. *)
Lemma find_categories_last (categories : list Category) :
  find_categories categories
  = (last_named "Income" categories, last_named "General" categories).
Proof.
  unfold find_categories, last_named.
  induction categories as [ | cat before IH] using rev_ind;
    [ reflexivity | ].
  rewrite fold_left_app, rev_app_distr, IH. cbn [fold_left rev app find].
  unfold pick_category.
  destruct (String.eqb (name cat) "Income") eqn:Ei.
  - apply String.eqb_eq in Ei. rewrite Ei. reflexivity.
  - destruct (String.eqb (name cat) "General"); reflexivity.
Qed.

(** X16.  A budget that lacks a category named Income or one named General
    gets nothing posted: after the account was looked up (and created when
    it was missing) and the categories were fetched, no entry is created
    and nothing is committed.  Where several categories bear one of the
    names, the last one listed is the one used. *)
Theorem missing_category_posts_nothing (account_exists : bool)
    (categories : list Category) (max_str_digits : nat) (today : Date)
    (summary : Summary) (transactions : list Transaction) :
  find_categories categories
  = (last_named "Income" categories, last_named "General" categories)
  /\ (last_named "Income" categories = None
      \/ last_named "General" categories = None ->
      post_to_budget account_exists categories max_str_digits today summary
                     transactions
      = preamble account_exists).
Proof.
  split; [ apply find_categories_last | ].
  unfold post_to_budget, preamble. rewrite find_categories_last.
  intros [-> | ->]; [ | destruct (last_named "Income" categories) ];
    destruct account_exists; reflexivity.
Qed.

(** What the parser returns, as far as the importer depends on it. *)
Lemma parse_chained (pages_text : list string) (starting_balance : float) :
  exists txns,
    parse_individual_transactions pages_text starting_balance = Some txns
    /\ delta_chain starting_balance txns
    /\ Forall (fun t => (exists k, page t = Some k) /\ description t <> "")
              txns
    /\ List.length txns <= total_date_lines pages_text.
Proof.
  destruct (ParserExtras.parse_recorded pages_text starting_balance)
    as (txns & Hrun & Hall & _ & Hlen).
  exists txns. split; [ exact Hrun | ]. split; [ | split; [ | exact Hlen ] ].
  - unfold parse_individual_transactions in Hrun.
    destruct (scan_pages 1 pages_text starting_balance [])
      as [[bal txns'] | ] eqn:E; [ | discriminate Hrun ].
    injection Hrun as <-.
    assert (Hinit : chained starting_balance starting_balance [])
      by (split; [ reflexivity | split; [ exact I | constructor ] ]).
    destruct (ImportFacts.scan_pages_chained starting_balance _ _ _ _ _ _
                E Hinit) as (_ & Hchain & _).
    exact Hchain.
  - apply (Forall_impl _ (P := fun t => exists k, recorded_on k t));
      [ | exact Hall ].
    intros t (k & Hk & _ & Hd & _). split; [ exists k; exact Hk | exact Hd ].
Qed.

(** The turn of the loop on a transaction whose amounts are the two sides
    of its change of balance. *)
Lemma turn_on_change (max_str_digits : nat) (today : Date)
    (income_category general_category : Category) (prev : float)
    (t : Transaction) (k : nat) :
  splits_delta prev t ->
  page t = Some k ->
  description t <> "" ->
  turn max_str_digits today income_category general_category t
  = if (0 <? balance t - prev)%float || (balance t - prev <? 0)%float
    then Creates
           {| entry_date := parse_date max_str_digits today (date t);
              payee := description t;
              notes := PageBalanceNotes k (balance t);
              amount := (balance t - prev)%float;
              category_id :=
                Some (id (if (0 <? balance t - prev)%float
                          then income_category else general_category)) |}
    else Skips.
Proof.
  unfold splits_delta, turn. cbv zeta. intros Hsplit Hk Hd. rewrite Hk.
  assert (Hpayee : (if truthy (description t) then description t
                    else "Transaction") = description t)
    by (destruct (description t); [ contradiction | reflexivity ]).
  rewrite Hpayee.
  destruct (0 <? balance t - prev)%float eqn:Ed.
  - destruct Hsplit as [Hdep _]. rewrite Hdep, Ed. reflexivity.
  - destruct Hsplit as [Hdep Hwd]. rewrite Hdep, Hwd.
    change (0 <? 0)%float with false. cbn iota.
    rewrite FloatOrder.abs_pos_iff, Ed. cbn [orb].
    destruct (balance t - prev <? 0)%float eqn:En; [ | reflexivity ].
    rewrite (opp_abs_of_neg _ En). reflexivity.
Qed.

(** The loop on a list whose amounts follow the balances. *)
Lemma post_entries_changes (max_str_digits : nat) (today : Date)
    (income_category general_category : Category)
    (txns : list Transaction) :
  forall prev,
    delta_chain prev txns ->
    Forall (fun t => (exists k, page t = Some k) /\ description t <> "")
           txns ->
    exists entries,
      post_entries max_str_digits today income_category general_category
                   txns
      = (map CreateTransaction entries, true)
      /\ posts_changes income_category general_category prev txns entries.
Proof.
  induction txns as [ | t rest IH]; intros prev Hchain Hall.
  - exists []. split; reflexivity.
  - destruct Hchain as [Hsplit Hrest].
    pose proof (Forall_inv Hall) as [[k Hk] Hd].
    destruct (IH (balance t) Hrest (Forall_inv_tail Hall))
      as (entries & Hrun & Hposts).
    pose proof (turn_on_change max_str_digits today income_category
                  general_category prev t k Hsplit Hk Hd) as Hturn.
    destruct ((0 <? balance t - prev)%float || (balance t - prev <? 0)%float)
      eqn:Echange.
    + eexists (_ :: entries). split.
      * cbn [post_entries]. rewrite Hturn, Hrun. reflexivity.
      * cbn [posts_changes]. cbv zeta. rewrite Echange.
        eexists. exists entries. split; [ reflexivity | ].
        cbn [amount payee notes category_id].
        repeat split; try reflexivity; [ | exact Hposts ].
        exists k. split; [ exact Hk | reflexivity ].
    + exists entries. split.
      * cbn [post_entries]. rewrite Hturn. exact Hrun.
      * cbn [posts_changes]. cbv zeta. rewrite Echange. exact Hposts.
Qed.

Section WithSummarizer.

Variable llm : string -> nat -> OcrReader.PageTotals.

(** X18.  [import_detailed_transactions] ends with the [RuntimeError] of
    the text extraction exactly when the document cannot be read with the
    password, and returns in every other case; a dry run of a readable
    document returns without a single call to the budget. *)
Theorem import_raises_only_when_unreadable (doc : PdfSource.Document)
    (password : option string) (dry_run account_exists : bool)
    (categories : list Category) (max_str_digits : nat) (today : Date) :
  (import_detailed_transactions llm doc password dry_run account_exists
     categories max_str_digits today = RaisedRuntimeError
   <-> readable doc password = false)
  /\ import_detailed_transactions llm doc password dry_run account_exists
       categories max_str_digits today <> RanOutOfFuel
  /\ (readable doc password = true ->
      import_detailed_transactions llm doc password true account_exists
        categories max_str_digits today = Finished []).
Proof.
  unfold import_detailed_transactions.
  rewrite SourceExtras.extract_text_result.
  destruct (readable doc password).
  - destruct (ImportFacts.parse_returns (PdfSource.page_texts doc)
                (starting_balance
                   (OcrReader.process_bank_statement llm
                      (PdfSource.page_texts doc)))) as [txns ->].
    split; [ | split ].
    + split; [ destruct dry_run | ]; discriminate.
    + destruct dry_run; discriminate.
    + reflexivity.
  - split; [ | split ].
    + split; reflexivity.
    + discriminate.
    + discriminate.
Qed.

(** X19.  An import that is no dry run, of a readable document into a
    budget with both categories, creates the opening entry, whose amount
    is the starting balance of the summary and which gets no category,
    then at most one entry per line of the document that starts with a
    date, and commits exactly once, as its last call (on a budget session
    whose calls all succeed). *)
Theorem import_posts_and_commits (doc : PdfSource.Document)
    (password : option string) (account_exists : bool)
    (categories : list Category) (max_str_digits : nat) (today : Date)
    (income_category general_category : Category) :
  readable doc password = true ->
  last_named "Income" categories = Some income_category ->
  last_named "General" categories = Some general_category ->
  exists opening entries,
    import_detailed_transactions llm doc password false account_exists
      categories max_str_digits today
    = Finished (preamble account_exists
                ++ CreateTransaction opening
                   :: map CreateTransaction entries ++ [Commit])%list
    /\ payee opening = "Opening Balance"
    /\ amount opening
       = starting_balance
           (OcrReader.process_bank_statement llm (PdfSource.page_texts doc))
    /\ category_id opening = None
    /\ Forall (signed_entry income_category general_category) entries
    /\ List.length entries <= total_date_lines (PdfSource.page_texts doc).
Proof.
  intros Hreadable Hincome Hgeneral.
  unfold import_detailed_transactions.
  rewrite SourceExtras.extract_text_result, Hreadable.
  destruct (parse_chained (PdfSource.page_texts doc)
              (starting_balance
                 (OcrReader.process_bank_statement llm
                    (PdfSource.page_texts doc))))
    as (txns & Hrun & _ & Hpages & Hlen).
  rewrite Hrun.
  assert (Hpaged : Forall (fun t => exists k, page t = Some k) txns)
    by (apply (Forall_impl _ (fun t H => proj1 H) Hpages)).
  destruct (post_entries_completes max_str_digits today income_category
              general_category txns Hpaged)
    as (entries & Hpost & Hsigned & Hcount).
  unfold post_to_budget, preamble.
  rewrite find_categories_last, Hincome, Hgeneral, Hpost.
  eexists. exists entries. split.
  - destruct account_exists; reflexivity.
  - cbn [payee amount category_id].
    repeat split; try reflexivity; [ exact Hsigned | lia ].
Qed.

(** X17.  Composed with the parser, the importer posts the changes of
    balance themselves.  In an import that is no dry run, of a readable
    document into a budget with both categories, the entries created
    after the opening entry are, in the order of the parsed transactions,
    one for each transaction whose balance differs from the balance
    before it (the starting balance before the first): its amount is that
    binary64 difference, its payee the description, its notes the page and
    the balance, its category Income for a difference above zero and
    General for one below.  A transaction whose difference is neither
    above nor below zero gets no entry. *)
Theorem posted_amount_is_balance_change (doc : PdfSource.Document)
    (password : option string) (account_exists : bool)
    (categories : list Category) (max_str_digits : nat) (today : Date)
    (income_category general_category : Category) :
  readable doc password = true ->
  last_named "Income" categories = Some income_category ->
  last_named "General" categories = Some general_category ->
  exists txns opening entries,
    parse_individual_transactions (PdfSource.page_texts doc)
      (starting_balance
         (OcrReader.process_bank_statement llm (PdfSource.page_texts doc)))
    = Some txns
    /\ import_detailed_transactions llm doc password false account_exists
         categories max_str_digits today
       = Finished (preamble account_exists
                   ++ CreateTransaction opening
                      :: map CreateTransaction entries ++ [Commit])%list
    /\ posts_changes income_category general_category
         (starting_balance
            (OcrReader.process_bank_statement llm (PdfSource.page_texts doc)))
         txns entries.
Proof.
  intros Hreadable Hincome Hgeneral.
  unfold import_detailed_transactions.
  rewrite SourceExtras.extract_text_result, Hreadable.
  destruct (parse_chained (PdfSource.page_texts doc)
              (starting_balance
                 (OcrReader.process_bank_statement llm
                    (PdfSource.page_texts doc))))
    as (txns & Hrun & Hchain & Hpages & _).
  rewrite Hrun.
  destruct (post_entries_changes max_str_digits today income_category
              general_category txns _ Hchain Hpages)
    as (entries & Hpost & Hposts).
  unfold post_to_budget, preamble.
  rewrite find_categories_last, Hincome, Hgeneral, Hpost.
  exists txns. eexists. exists entries.
  split; [ reflexivity | ]. split; [ | exact Hposts ].
  destruct account_exists; reflexivity.
Qed.

End WithSummarizer.

(** The lunch document: one transaction, whose balance is 450 above the
    starting balance. *)
Lemma posted_amount_is_balance_change_witness :
  exists txns opening entries,
    parse_individual_transactions (PdfSource.page_texts lunch_document)
      (starting_balance
         (OcrReader.process_bank_statement scenario_totals
            (PdfSource.page_texts lunch_document)))
    = Some txns
    /\ import_detailed_transactions scenario_totals lunch_document None
         false true [salary; household] 4300 (mkDate 2026 11 3)
       = Finished (preamble true
                   ++ CreateTransaction opening
                      :: map CreateTransaction entries ++ [Commit])%list
    /\ posts_changes salary household
         (starting_balance
            (OcrReader.process_bank_statement scenario_totals
               (PdfSource.page_texts lunch_document)))
         txns entries.
Proof.
  apply (posted_amount_is_balance_change scenario_totals lunch_document
           None true [salary; household] 4300 (mkDate 2026 11 3) salary
           household); reflexivity.
Defined.

(** The lunch document, imported into a budget with the two categories. *)
Lemma import_posts_and_commits_witness :
  exists opening entries,
    import_detailed_transactions scenario_totals lunch_document None false
      true [salary; household] 4300 (mkDate 2026 11 3)
    = Finished (preamble true
                ++ CreateTransaction opening
                   :: map CreateTransaction entries ++ [Commit])%list
    /\ payee opening = "Opening Balance"
    /\ amount opening
       = starting_balance
           (OcrReader.process_bank_statement scenario_totals
              (PdfSource.page_texts lunch_document))
    /\ category_id opening = None
    /\ Forall (signed_entry salary household) entries
    /\ List.length entries
       <= total_date_lines (PdfSource.page_texts lunch_document).
Proof.
  apply (import_posts_and_commits scenario_totals lunch_document None true
           [salary; household] 4300 (mkDate 2026 11 3) salary household);
    reflexivity.
Defined.

End ImporterExtras.

(* ===================================================================== *)
(** ** What extract_transactions_from_page_text writes *)
(* ===================================================================== *)

Module OcrShape.

Import Py Re OcrReader Props MoreProps.

(** The description of a record. *)
Lemma description_or_default (d : string) :
  contains "/" d = false ->
  (if truthy d then take 100 d else "Transaction") <> ""
  /\ String.length (if truthy d then take 100 d else "Transaction") <= 100
  /\ contains "/" (if truthy d then take 100 d else "Transaction") = false.
Proof.
  intros Hclean. destruct d as [ | c d'] eqn:Ed; cbn [truthy].
  - split; [ discriminate | ]. split; [ simpl; lia | reflexivity ].
  - split; [ unfold take; cbn [substring]; discriminate | ].
    split; [ apply ParserShape.take_length | ].
    apply ParserShape.take_clean. exact Hclean.
Qed.

(** One turn of the loop appends nothing or one record, and uses up a date
    line for it. *)
Lemma ocr_loop_body_appends (page_num : nat) (lines : list string)
    (raw : string) (st : State) :
  nth_error lines (i st) = Some raw ->
  exists new,
    transactions (loop_body page_num lines raw st)
    = (transactions st ++ new)%list
    /\ Forall extracted new
    /\ List.length new
         + date_lines_from lines (i (loop_body page_num lines raw st))
       <= date_lines_from lines (i st).
Proof.
  intros Hraw.
  rewrite (ParserShape.date_lines_from_step lines (i st) raw Hraw).
  unfold loop_body, is_date.
  destruct (date_pattern_match (strip raw)) as [date_str | ] eqn:Edate.
  2:{ exists []. cbn [i transactions]. rewrite app_nil_r, Nat.add_1_r.
      split; [ reflexivity | ]. split; [ constructor | simpl; lia ]. }
  destruct (match nth_error lines (i st + 1) with
            | Some next_raw => _
            | None => false
            end).
  { exists []. cbn [i transactions]. rewrite app_nil_r, Nat.add_1_r.
    split; [ reflexivity | ]. split; [ constructor | simpl; lia ]. }
  destruct (look_ahead lines 9 (i st + 1) [] []) as [[j amounts] parts]
    eqn:Elook.
  apply OcrFacts.ocr_look_ahead_from in Elook.
  pose proof (ParserShape.date_lines_from_mono lines (S (i st)) j) as Hmono.
  destruct (classify page_num lines (i st) (transactions st) amounts)
    as [[dep wd] bal].
  cbn [i transactions].
  destruct amounts as [ | a amounts].
  - exists []. rewrite app_nil_r.
    split; [ reflexivity | ]. split; [ constructor | simpl; lia ].
  - eexists [_]. split; [ reflexivity | ]. split; [ | simpl; lia ].
    constructor; [ | constructor ].
    unfold extracted. cbn [page date description].
    split; [ reflexivity | ].
    split; [ exact (ParserShape.date_pattern_match_strict _ _ Edate) | ].
    apply description_or_default, ParserShape.replace_slash_clean.
Qed.

Lemma ocr_scan_lines_appends (page_num : nat) (lines : list string) :
  forall fuel st st',
    scan_lines fuel page_num lines st = Some st' ->
    exists new,
      transactions st' = (transactions st ++ new)%list
      /\ Forall extracted new
      /\ List.length new <= date_lines_from lines (i st).
Proof.
  induction fuel as [ | fuel IH]; intros st st' Hrun; simpl in Hrun;
    destruct (nth_error lines (i st)) as [raw | ] eqn:Eraw;
    try discriminate Hrun;
    try (injection Hrun as <-; exists []; rewrite app_nil_r;
         split; [ reflexivity | split; [ constructor | simpl; lia ] ]).
  destruct (IH _ _ Hrun) as (new2 & Heq2 & Hall2 & Hlen2).
  destruct (ocr_loop_body_appends page_num lines raw st Eraw)
    as (new1 & Heq1 & Hall1 & Hlen1).
  exists (new1 ++ new2)%list.
  split; [ rewrite Heq2, Heq1, app_assoc; reflexivity | ].
  split; [ apply Forall_app; auto | ].
  rewrite length_app. lia.
Qed.

Lemma extract_page_shaped (page_text : string) (page_num : nat)
    (txns : list Transaction) :
  extract_transactions_from_page_text page_text page_num = Some txns ->
  Forall extracted txns /\ List.length txns <= date_line_count page_text.
Proof.
  unfold extract_transactions_from_page_text. intros H.
  destruct (scan_lines _ _ _ _) as [st' | ] eqn:E; [ | discriminate H ].
  injection H as <-.
  destruct (ocr_scan_lines_appends _ _ _ _ _ E) as (new & -> & Hall & Hlen).
  split; [ exact Hall | exact Hlen ].
Qed.

Lemma page_level_shaped (pages_text : list string) :
  forall i0 found,
    page_level i0 pages_text = Some found ->
    Forall extracted found
    /\ List.length found <= total_date_lines pages_text.
Proof.
  induction pages_text as [ | page_text rest IH]; intros i0 found H;
    cbn [page_level] in H.
  - injection H as <-. split; [ constructor | simpl; lia ].
  - destruct (extract_transactions_from_page_text page_text i0)
      as [first | ] eqn:E; [ | discriminate H ].
    destruct (page_level (S i0) rest) as [others | ] eqn:Eo;
      [ | discriminate H ].
    injection H as <-.
    destruct (extract_page_shaped _ _ _ E) as [Hall1 Hlen1].
    destruct (IH _ _ Eo) as [Hall2 Hlen2].
    split; [ apply Forall_app; auto | ].
    rewrite length_app.
    change (total_date_lines (page_text :: rest))
      with (date_line_count page_text + total_date_lines rest).
    lia.
Qed.

(** The recomputation of the amounts leaves the rest of a record alone. *)
Lemma same_but_amounts_extracted (l plain : list Transaction) :
  Forall2 same_but_amounts l plain ->
  Forall extracted plain -> Forall extracted l.
Proof.
  induction 1 as [ | t u l plain (Hd & Hdesc & _ & Hp) _ IH]; intros Hall;
    [ constructor | ].
  inversion Hall as [ | ? ? Hu Hall' ]; subst.
  constructor; [ | exact (IH Hall') ].
  unfold extracted in *. rewrite Hd, Hdesc, Hp. exact Hu.
Qed.

(** X20.  The records [extract_all_transactions_from_pdf] returns carry no
    page, unlike those of [parse_individual_transactions]; each has a date
    that is DD-MM-YYYY to the letter and a description that is not empty,
    has at most 100 characters and holds no slash, and there is at most
    one record per line of the document that starts with a date. *)
Theorem extracted_records_carry_no_page (first_page : string)
    (rest : list string) :
  exists e,
    extract_all_transactions_from_pdf (first_page :: rest) = Returns e
    /\ Forall extracted (ex_transactions e)
    /\ List.length (ex_transactions e)
       <= total_date_lines (first_page :: rest).
Proof.
  unfold extract_all_transactions_from_pdf.
  destruct (OcrFacts.collect_pages_returns
              (opening_balance 10000 first_page) (first_page :: rest) 1 [])
    as [txns Hrun].
  rewrite Hrun.
  destruct (OcrExtras.collect_pages_keeps _ _ _ [] [] _ Hrun)
    as (found & Hlevel & _ & _ & Hsame); try constructor.
  destruct (page_level_shaped _ _ _ Hlevel) as [Hall Hlen].
  eexists. split; [ reflexivity | ]. cbn [ex_transactions].
  split; [ exact (same_but_amounts_extracted _ _ Hsame Hall) | ].
  rewrite (Forall2_length Hsame). exact Hlen.
Qed.

End OcrShape.

(* ===================================================================== *)
(** ** Properties of import_all_pdfs *)
(* ===================================================================== *)

Module ImportAllExtras.

Import Py ImportDetailed Props MoreProps Importer ImportAll.

(** No file is missing exactly when every file exists. *)
Lemma none_missing (exists_at : string -> bool) (files : list string) :
  filter (fun f => negb (exists_at f)) files = []
  <-> forallb exists_at files = true.
Proof.
  induction files as [ | f rest IH]; [ split; reflexivity | ].
  cbn [filter forallb]. destruct (exists_at f); cbn [negb andb].
  - exact IH.
  - split; discriminate.
Qed.

Section WithWorld.

Variable llm : string -> nat -> OcrReader.PageTotals.
Variable max_str_digits : nat.
Variable today : Date.
Variable w : World.

(** How the import of one document ends. *)
Lemma import_one_run (filename : string) :
  if readable (document_at w (path_of filename)) (Some PDF_PASSWORD)
  then exists calls,
         import_one llm max_str_digits today w filename = Finished calls
         /\ (lacks_category (categories_at w (path_of filename)) = true ->
             calls = preamble (account_known w (path_of filename)))
  else import_one llm max_str_digits today w filename = RaisedRuntimeError.
Proof.
  unfold import_one, import_detailed_transactions.
  rewrite SourceExtras.extract_text_result.
  destruct (readable _ _); [ | reflexivity ].
  destruct (ImportFacts.parse_returns
              (PdfSource.page_texts (document_at w (path_of filename)))
              (starting_balance
                 (OcrReader.process_bank_statement llm
                    (PdfSource.page_texts
                       (document_at w (path_of filename))))))
    as [txns ->].
  eexists. split; [ reflexivity | ].
  unfold lacks_category, post_to_budget, preamble.
  rewrite ImporterExtras.find_categories_last.
  destruct (last_named "Income" (categories_at w (path_of filename)));
    destruct (last_named "General" (categories_at w (path_of filename)));
    try discriminate; intros _;
    destruct (account_known w (path_of filename)); reflexivity.
Qed.

Lemma import_each_starts (f : string) (rest responses : list string)
    (n0 : nat) :
  snd (import_each llm max_str_digits today w (f :: rest) responses n0)
  <> [].
Proof.
  cbn [import_each].
  destruct (import_one llm max_str_digits today w f).
  - destruct (import_each _ _ _ _ rest responses (S n0)). discriminate.
  - destruct responses as [ | r rs]; [ discriminate | ].
    destruct (negb _); [ discriminate | ].
    destruct (import_each _ _ _ _ rest rs n0). discriminate.
  - discriminate.
Qed.

(** The counter counts the imports of readable documents. *)
Lemma import_each_counts (files : list string) :
  forall responses n0 n,
    fst (import_each llm max_str_digits today w files responses n0)
    = Summarized n ->
    n = n0
        + List.length
            (filter (readable_import w)
               (snd (import_each llm max_str_digits today w files
                       responses n0))).
Proof.
  induction files as [ | f rest IH]; intros responses n0 n H;
    cbn [import_each] in *.
  - injection H as <-. simpl. lia.
  - pose proof (import_one_run f) as Hrun.
    destruct (readable (document_at w (path_of f)) (Some PDF_PASSWORD))
      eqn:Er.
    + destruct Hrun as (calls & Hrun & _). rewrite Hrun in *.
      specialize (IH responses (S n0) n).
      destruct (import_each llm max_str_digits today w rest responses
                  (S n0)) as [ending made].
      cbn [fst snd] in *. specialize (IH H).
      cbn [filter]. unfold readable_import at 1. cbn [fst].
      rewrite Er. cbn [List.length]. lia.
    + rewrite Hrun in *. destruct responses as [ | r rs];
        [ discriminate H | ].
      destruct (negb (String.eqb (lower r) "yes")).
      * injection H as <-. cbn [snd filter]. unfold readable_import.
        cbn [fst]. rewrite Er. simpl. lia.
      * specialize (IH rs n0 n).
        destruct (import_each llm max_str_digits today w rest rs n0)
          as [ending made].
        cbn [fst snd] in *. specialize (IH H).
        cbn [filter]. unfold readable_import at 1. cbn [fst].
        rewrite Er. exact IH.
Qed.

(** Readable documents and a budget without the categories: every import
    returns after the categories were fetched. *)
Lemma import_each_unposted (files : list string) :
  forall responses n0,
    forallb (fun f =>
               readable (document_at w (path_of f)) (Some PDF_PASSWORD))
            files = true ->
    forallb (fun f => lacks_category (categories_at w (path_of f))) files
    = true ->
    import_each llm max_str_digits today w files responses n0
    = (Summarized (n0 + List.length files),
       map (fun f =>
              (f, Finished (preamble (account_known w (path_of f)))))
           files).
Proof.
  induction files as [ | f rest IH]; intros responses n0 Hread Hlack;
    cbn [import_each].
  - simpl. rewrite Nat.add_0_r. reflexivity.
  - cbn [forallb] in Hread, Hlack.
    apply andb_true_iff in Hread. destruct Hread as [Hr Hread].
    apply andb_true_iff in Hlack. destruct Hlack as [Hl Hlack].
    pose proof (import_one_run f) as Hrun. rewrite Hr in Hrun.
    destruct Hrun as (calls & Hrun & Hcalls). rewrite Hrun.
    rewrite (IH responses (S n0) Hread Hlack), (Hcalls Hl).
    cbn [map List.length]. rewrite Nat.add_succ_r. reflexivity.
Qed.

(** X21.  [import_all_pdfs] imports nothing unless all six files exist
    and the first answer is "yes" in any mix of upper and lower case:
    with a file missing it exits with status 1 before it asks, and on any
    other answer it returns.  Once both hold, the first document at least
    is imported. *)
Theorem imports_need_files_and_consent (responses : list string) :
  (snd (import_all_pdfs llm max_str_digits today w responses) <> []
   <-> forallb (fun f => file_exists w (path_of f)) PDF_ORDER = true
       /\ exists response rest,
            responses = response :: rest /\ lower response = "yes")
  /\ (forallb (fun f => file_exists w (path_of f)) PDF_ORDER = false ->
      import_all_pdfs llm max_str_digits today w responses
      = (SystemExit 1, []))
  /\ (forall response rest,
        forallb (fun f => file_exists w (path_of f)) PDF_ORDER = true ->
        responses = response :: rest ->
        lower response <> "yes" ->
        import_all_pdfs llm max_str_digits today w responses
        = (Cancelled, [])).
Proof.
  unfold import_all_pdfs. cbv zeta.
  pose proof (none_missing (fun f => file_exists w (path_of f)) PDF_ORDER)
    as Hmissing.
  cbv beta in Hmissing. revert Hmissing.
  destruct (filter (fun f => negb (file_exists w (path_of f))) PDF_ORDER)
    as [ | m missing]; intros Hmissing.
  - rewrite (proj1 Hmissing eq_refl).
    split; [ | split; [ discriminate | ] ].
    + destruct responses as [ | r rs].
      * split; [ intros H; exfalso; apply H; reflexivity | ].
        intros (_ & r & rs & H & _). discriminate H.
      * destruct (String.eqb (lower r) "yes") eqn:Ey; cbn [negb].
        -- split.
           ++ intros _. split; [ reflexivity | ].
              exists r, rs. split; [ reflexivity | ].
              apply String.eqb_eq. exact Ey.
           ++ intros _. apply import_each_starts.
        -- split; [ intros H; exfalso; apply H; reflexivity | ].
           intros (_ & r' & rs' & H & Hyes). injection H as <- <-.
           apply String.eqb_eq in Hyes. congruence.
    + intros response rest _ -> Hno.
      apply String.eqb_neq in Hno. rewrite Hno. reflexivity.
  - assert (Hsome :
      forallb (fun f => file_exists w (path_of f)) PDF_ORDER = false).
    { destruct (forallb (fun f => file_exists w (path_of f)) PDF_ORDER);
        [ | reflexivity ].
      discriminate (proj2 Hmissing eq_refl). }
    rewrite Hsome.
    split; [ | split; [ reflexivity | discriminate ] ].
    split; [ intros H; exfalso; apply H; reflexivity | ].
    intros [H _]. discriminate H.
Qed.

(** X22.  The number [import_all_pdfs] reports as successfully imported
    is the number of imports whose document could be read with the
    password: an import counts whatever it posted. *)
Theorem success_count_counts_readable (responses : list string) (n : nat) :
  fst (import_all_pdfs llm max_str_digits today w responses) = Summarized n ->
  n = List.length
        (filter (readable_import w)
           (snd (import_all_pdfs llm max_str_digits today w responses))).
Proof.
  unfold import_all_pdfs.
  destruct (filter (fun f => negb (file_exists w (path_of f))) PDF_ORDER);
    [ | discriminate ].
  destruct responses as [ | r rs]; [ discriminate | ].
  destruct (negb (String.eqb (lower r) "yes")); [ discriminate | ].
  intros H. apply import_each_counts in H. exact H.
Qed.

(** X23.  With the six files present and readable and the import
    confirmed, a budget that lacks the Income or the General category
    makes [import_all_pdfs] report all six statements as successfully
    imported, although each import ended after fetching the categories,
    without creating an entry or committing. *)
Theorem unposted_statements_count_as_imported (response : string)
    (rest : list string) :
  forallb (fun f => file_exists w (path_of f)) PDF_ORDER = true ->
  lower response = "yes" ->
  forallb (fun f =>
             readable (document_at w (path_of f)) (Some PDF_PASSWORD))
          PDF_ORDER = true ->
  forallb (fun f => lacks_category (categories_at w (path_of f))) PDF_ORDER
  = true ->
  import_all_pdfs llm max_str_digits today w (response :: rest)
  = (Summarized 6,
     map (fun f => (f, Finished (preamble (account_known w (path_of f)))))
         PDF_ORDER).
Proof.
  intros Hfiles Hyes Hread Hlack. unfold import_all_pdfs. cbv zeta.
  pose proof (proj2 (none_missing (fun f => file_exists w (path_of f))
                       PDF_ORDER) Hfiles) as Hmissing.
  cbv beta in Hmissing. rewrite Hmissing, Hyes.
  change (String.eqb "yes" "yes") with true. cbn [negb].
  rewrite (import_each_unposted PDF_ORDER rest 0 Hread Hlack).
  reflexivity.
Qed.

End WithWorld.

(** Six readable documents, imported after the answer "yes". *)
Lemma success_count_counts_readable_witness :
  6 = List.length
        (filter (readable_import six_lunches)
           (snd (import_all_pdfs scenario_totals 4300 (mkDate 2026 11 3)
                   six_lunches ["yes"]))).
Proof.
  apply (success_count_counts_readable scenario_totals 4300
           (mkDate 2026 11 3) six_lunches ["yes"] 6).
  vm_compute. reflexivity.
Defined.

(** The same documents and a budget without categories, after the answer
    "Yes". *)
Lemma unposted_statements_count_as_imported_witness :
  import_all_pdfs scenario_totals 4300 (mkDate 2026 11 3) six_lunches
    ["Yes"]
  = (Summarized 6, map (fun f => (f, Finished (preamble true))) PDF_ORDER).
Proof.
  apply (unposted_statements_count_as_imported scenario_totals 4300
           (mkDate 2026 11 3) six_lunches "Yes" []); reflexivity.
Defined.

End ImportAllExtras.

(* ===================================================================== *)
(** ** The calls of parse_individual_transactions on the store *)
(* ===================================================================== *)

Module StoreFacts.

Import ParserStore.

(** *** Replacing an object *)





(** *** The list held at a reference *)

Section AtReference.

Variable s0 : Store.
Variable ref : nat.
Hypothesis ref_is_allocated : ref < List.length (objects s0).







Variable pages_text : nat.
Variable pages : list string.
Hypothesis pages_text_is_the_argument :
  nth_error (objects s0) pages_text = Some (PageTexts pages).
Hypothesis ref_is_another_object : pages_text <> ref.


End AtReference.




End StoreFacts.
